(** * MedConnect: FHIR resource models, validator, feature extraction, risk bands

    A shallow embedding of the Python sources

      - [api/models/patient.py]       (Patient, to_fhir / from_fhir)
      - [api/models/observation.py]   (Observation, to_fhir / from_fhir)
      - [core/fhir/validators.py]     (FHIRValidator)
      - [api/handlers/ml_handler.py]  (extract_features, calculate_age)
      - [core/ml/models/risk_predictor.py] (RiskPredictor.predict)

    Python values that travel through dictionaries are embedded as [pyval];
    a call that may raise returns [res]; Python floats are the binary64
    numbers of [PrimFloat]. *)

From Stdlib Require Import ZArith List String Ascii Bool Lia Floats.
Import ListNotations.
Local Open Scope string_scope.
#[local] Set Warnings "-inexact-float".

(** ** Python prelude *)

Module Py.

(** The values a decoded JSON document (or a DynamoDB item) is made of.
    A [PDict] keeps its items in insertion order; keys are unique in every
    dictionary the code builds, and lookup takes the first binding. *)
#[local] Unset Elimination Schemes.
Inductive pyval : Type :=
| PNone
| PBool (b : bool)
| PInt (n : Z)
| PFloat (f : float)
| PStr (s : string)
| PList (l : list pyval)
| PDict (d : list (string * pyval)).
#[local] Set Elimination Schemes.

(** The exceptions the modelled code can raise. *)
Inductive exn : Type :=
| KeyError (key : string)
| AttributeError
| TypeError
| IndexError
| ZeroDivisionError
| PydanticError (field : string)
| ValidationError (message : string) (errors : list string).

Inductive res (A : Type) : Type :=
| Ok (a : A)
| Raise (e : exn).
Arguments Ok {A} a.
Arguments Raise {A} e.

Definition bind {A B} (m : res A) (k : A -> res B) : res B :=
  match m with
  | Ok a => k a
  | Raise e => Raise e
  end.

Definition is_ok {A} (m : res A) : bool :=
  match m with Ok _ => true | Raise _ => false end.

Fixpoint mapM {A B} (f : A -> res B) (l : list A) : res (list B) :=
  match l with
  | [] => Ok []
  | a :: t => bind (f a) (fun b => bind (mapM f t) (fun bs => Ok (b :: bs)))
  end.

(** [d.get(k)] on the items of a dictionary. *)
Fixpoint lookup {V} (k : string) (d : list (string * V)) : option V :=
  match d with
  | [] => None
  | (k', v) :: t => if String.eqb k k' then Some v else lookup k t
  end.

(** [k in d] *)
Definition mem {V} (k : string) (d : list (string * V)) : bool :=
  match lookup k d with Some _ => true | None => false end.

(** [d[k]] *)
Definition getitem {V} (d : list (string * V)) (k : string) : res V :=
  match lookup k d with Some v => Ok v | None => Raise (KeyError k) end.

(** [d.get(k, default)] *)
Definition get_default {V} (d : list (string * V)) (k : string) (default : V) : V :=
  match lookup k d with Some v => v | None => default end.

(** Python's two-argument [max] and [min]: the first argument is kept
    unless the second is strictly better. *)
Definition pymax (a b : float) : float := if PrimFloat.ltb a b then b else a.
Definition pymin (a b : float) : float := if PrimFloat.ltb b a then b else a.

(** [a / b] on floats raises on a zero divisor (either sign). *)
Definition pydiv (a b : float) : res float :=
  if PrimFloat.eqb b 0%float then Raise ZeroDivisionError else Ok (a / b)%float.

(** Truth value of a Python object ([if v:], [not v], [a and b]). *)
Definition truthy (v : pyval) : bool :=
  match v with
  | PNone => false
  | PBool b => b
  | PInt n => negb (n =? 0)%Z
  | PFloat f => negb (PrimFloat.eqb f 0%float)
  | PStr s => negb (String.eqb s "")
  | PList l => match l with [] => false | _ => true end
  | PDict d => match d with [] => false | _ => true end
  end.

(** [v.get(k, default)]: only dictionaries have the method. *)
Definition py_get (v : pyval) (k : string) (default : pyval) : res pyval :=
  match v with
  | PDict d => Ok (get_default d k default)
  | _ => Raise AttributeError
  end.

(** [v[k]] with a string key. *)
Definition py_getitem (v : pyval) (k : string) : res pyval :=
  match v with
  | PDict d => getitem d k
  | _ => Raise TypeError
  end.

(** [v[0]] *)
Definition py_index0 (v : pyval) : res pyval :=
  match v with
  | PList l => match l with x :: _ => Ok x | [] => Raise IndexError end
  | PStr s => match s with String c _ => Ok (PStr (String c "")) | EmptyString => Raise IndexError end
  | PDict _ => Raise (KeyError "0")
  | _ => Raise TypeError
  end.

Fixpoint chars (s : string) : list pyval :=
  match s with
  | EmptyString => []
  | String c t => PStr (String c "") :: chars t
  end.

(** [for x in v] *)
Definition py_iter (v : pyval) : res (list pyval) :=
  match v with
  | PList l => Ok l
  | PDict d => Ok (map (fun kv => PStr (fst kv)) d)
  | PStr s => Ok (chars s)
  | _ => Raise TypeError
  end.

Definition is_pystr (k : string) (v : pyval) : bool :=
  match v with PStr s => String.eqb s k | _ => false end.

(** [k in v] for a string [k]: a key of a dictionary, a substring of a
    string, an element of a list. *)
Definition py_contains (k : string) (v : pyval) : res bool :=
  match v with
  | PDict d => Ok (mem k d)
  | PStr s => Ok (match String.index 0 k s with Some _ => true | None => false end)
  | PList l => Ok (existsb (is_pystr k) l)
  | _ => Raise TypeError
  end.

(** [s.startswith(p)] *)
Definition startswith (s p : string) : bool := String.prefix p s.

(** [s.split(sep)] for a one-character separator. *)
Fixpoint split_on (sep : ascii) (s : string) : list string :=
  match s with
  | EmptyString => [""]
  | String c t =>
      if Ascii.eqb c sep then "" :: split_on sep t
      else match split_on sep t with
           | h :: r => String c h :: r
           | [] => [String c ""]
           end
  end.

(** [s.replace(old, new)] for a non-empty [old]: every occurrence, found
    scanning from the left and not overlapping the one before, is
    replaced; the text put in is not scanned again. *)
Fixpoint replace_fuel (fuel : nat) (old new s : string) : string :=
  match fuel with
  | O => s
  | S fuel' =>
      if String.prefix old s
      then new ++ replace_fuel fuel' old new
             (String.substring (String.length old) (String.length s - String.length old) s)
      else match s with
           | EmptyString => EmptyString
           | String c t => String c (replace_fuel fuel' old new t)
           end
  end.

Definition replace (s old new : string) : string :=
  replace_fuel (S (String.length s)) old new s.

(** *** pydantic field validation

    A field accepts a value of its declared type and [None] when it is
    [Optional]; a [float] field also accepts an integer. pydantic's other
    coercions between JSON types (a number given for a [str] field and the
    like) are not modelled: such a payload is reported as a validation
    error of the field. *)

Definition v_str (field : string) (v : pyval) : res string :=
  match v with PStr s => Ok s | _ => Raise (PydanticError field) end.

Definition v_bool (field : string) (v : pyval) : res bool :=
  match v with PBool b => Ok b | _ => Raise (PydanticError field) end.

Definition v_int (field : string) (v : pyval) : res Z :=
  match v with PInt n => Ok n | _ => Raise (PydanticError field) end.

(** [float(n)] for an integer: the nearest binary64 number; an integer
    beyond the finite range is refused. *)
Definition float_of_Z (n : Z) : float :=
  SF2Prim (SpecFloat.binary_normalize prec emax n 0 false).

Definition v_float (field : string) (v : pyval) : res float :=
  match v with
  | PFloat f => Ok f
  | PInt n => if PrimFloat.is_infinity (float_of_Z n) then Raise (PydanticError field)
              else Ok (float_of_Z n)
  | _ => Raise (PydanticError field)
  end.

Definition v_dict (field : string) (v : pyval) : res (list (string * pyval)) :=
  match v with PDict d => Ok d | _ => Raise (PydanticError field) end.

Definition v_optional {A} (f : string -> pyval -> res A) (field : string) (v : pyval)
  : res (option A) :=
  match v with
  | PNone => Ok None
  | _ => bind (f field v) (fun a => Ok (Some a))
  end.

Definition v_list {A} (f : string -> pyval -> res A) (field : string) (v : pyval)
  : res (list A) :=
  match v with
  | PList l => mapM (f field) l
  | _ => Raise (PydanticError field)
  end.

(** [Dict[str, str]] *)
Definition v_dict_str (field : string) (v : pyval) : res (list (string * string)) :=
  match v with
  | PDict d => mapM (fun kv => bind (v_str field (snd kv)) (fun s => Ok (fst kv, s))) d
  | _ => Raise (PydanticError field)
  end.

(** The value a validated [Dict[str, str]] has as a Python object. *)
Definition dict_str_val (d : list (string * string)) : pyval :=
  PDict (map (fun kv => (fst kv, PStr (snd kv))) d).

Definition opt_val {A} (f : A -> pyval) (o : option A) : pyval :=
  match o with Some a => f a | None => PNone end.

(** [{k: v for k, v in d.items() if v is not None}] *)
Definition drop_none (d : list (string * pyval)) : list (string * pyval) :=
  filter (fun kv => match snd kv with PNone => false | _ => true end) d.

End Py.

Import Py.

Declare Scope py_scope.
Delimit Scope py_scope with py.
Notation "x <- m ;; k" := (bind m (fun x => k))
  (at level 61, m at next level, right associativity) : py_scope.
Local Open Scope py_scope.

(** ** datetime.strptime(v, "%Y-%m-%d")

    The format compiles to the pattern
    [(\d\d\d\d)-(1[0-2]|0[1-9]|[1-9])-(3[0-1]|[1-2]\d|0[1-9]|[1-9]| [1-9])],
    matched at the start of the string with the alternatives tried in
    order; text left after the match is an error, and so is a day the
    month does not have or the year 0. Strings are sequences of 8-bit
    characters and the digits are the ASCII ones. *)

Module Datetime.

Definition is_digit (c : ascii) : bool :=
  let n := nat_of_ascii c in (48 <=? n)%nat && (n <=? 57)%nat.

Definition digit (c : ascii) : Z := Z.of_nat (nat_of_ascii c) - 48.

Definition in_range (lo hi : Z) (c : ascii) : bool :=
  is_digit c && (lo <=? digit c)%Z && (digit c <=? hi)%Z.

Definition parse_Y (s : string) : option (Z * string) :=
  match s with
  | String a (String b (String c (String d r))) =>
      if is_digit a && is_digit b && is_digit c && is_digit d
      then Some (1000 * digit a + 100 * digit b + 10 * digit c + digit d, r)%Z
      else None
  | _ => None
  end.

Definition parse_dash (s : string) : option string :=
  match s with
  | String c r => if Ascii.eqb c "-" then Some r else None
  | EmptyString => None
  end.

Definition parse_m (s : string) : option (Z * string) :=
  match s with
  | String a r =>
      match r with
      | String b r' =>
          if Ascii.eqb a "1" && in_range 0 2 b then Some (10 + digit b, r')%Z
          else if Ascii.eqb a "0" && in_range 1 9 b then Some (digit b, r')
          else if in_range 1 9 a then Some (digit a, r)
          else None
      | EmptyString => if in_range 1 9 a then Some (digit a, r) else None
      end
  | EmptyString => None
  end.

Definition parse_d (s : string) : option (Z * string) :=
  match s with
  | String a r =>
      match r with
      | String b r' =>
          if Ascii.eqb a "3" && in_range 0 1 b then Some (30 + digit b, r')%Z
          else if in_range 1 2 a && is_digit b then Some (10 * digit a + digit b, r')%Z
          else if Ascii.eqb a "0" && in_range 1 9 b then Some (digit b, r')
          else if in_range 1 9 a then Some (digit a, r)
          else if Ascii.eqb a " " && in_range 1 9 b then Some (digit b, r')
          else None
      | EmptyString => if in_range 1 9 a then Some (digit a, r) else None
      end
  | EmptyString => None
  end.

Definition is_leap (y : Z) : bool :=
  ((y mod 4 =? 0) && negb (y mod 100 =? 0) || (y mod 400 =? 0))%Z.

Definition days_in_month (y m : Z) : Z :=
  if (m =? 2)%Z then (if is_leap y then 29 else 28)
  else if ((m =? 4) || (m =? 6) || (m =? 9) || (m =? 11))%Z then 30
  else 31.

(** A parsed calendar date: year, month, day. *)
Definition date : Type := (Z * Z * Z)%type.

Definition strptime_ymd (s : string) : option date :=
  match parse_Y s with
  | None => None
  | Some (y, s1) =>
  match parse_dash s1 with
  | None => None
  | Some s2 =>
  match parse_m s2 with
  | None => None
  | Some (m, s3) =>
  match parse_dash s3 with
  | None => None
  | Some s4 =>
  match parse_d s4 with
  | None => None
  | Some (d, s5) =>
      if negb (String.eqb s5 "") then None
      else if ((1 <=? y) && (d <=? days_in_month y m))%Z then Some (y, m, d)
      else None
  end end end end end.

(** [a < b] on two dates. *)
Definition date_ltb (a b : date) : bool :=
  let '(y1, m1, d1) := a in
  let '(y2, m2, d2) := b in
  ((y1 <? y2) || ((y1 =? y2) && ((m1 <? m2) || ((m1 =? m2) && (d1 <? d2)))))%Z.

End Datetime.

(** The two impure reads of a decoder call: [uuid.uuid4()] and the
    successive values of [datetime.utcnow().isoformat()], numbered in the
    order the call site reads them. *)
Record World : Type := {
  uuid4 : string;
  utcnow : nat -> string
}.

(** ** api/models/patient.py *)

Module PatientModel.

Record Address : Type := {
  line : list string;
  city : string;
  state : string;
  postal_code : string;
  country : string;
  address_use : string
}.

Record ContactPoint : Type := {
  contact_system : string;
  contact_value : string;
  contact_use : string;
  rank : option Z
}.

Record HumanName : Type := {
  family : string;
  given : list string;
  prefix : option (list string);
  suffix : option (list string);
  name_use : string
}.

Record Identifier : Type := {
  system : string;
  value : string;
  type : option string;
  identifier_use : option string
}.

(** [communication] and [extension] are carried as the Python objects they
    were validated from ([List[Dict[str, Any]]], [Dict[str, Any]]). *)
Record Patient : Type := {
  patient_id : string;
  version : string;
  active : bool;
  identifiers : list Identifier;
  name : list HumanName;
  gender : string;
  birth_date : string;
  deceased : bool;
  deceased_date : option string;
  address : option (list Address);
  telecom : option (list ContactPoint);
  marital_status : option string;
  communication : option (list (list (string * pyval)));
  extension : option (list (string * pyval));
  created_at : string;
  updated_at : string
}.

(** *** Constructors of the nested models *)

Definition Address_init (line city state postal_code country use : pyval) : res Address :=
  l <- v_list v_str "line" line ;;
  c <- v_str "city" city ;;
  s <- v_str "state" state ;;
  p <- v_str "postal_code" postal_code ;;
  n <- v_str "country" country ;;
  u <- v_str "use" use ;;
  Ok {| line := l; city := c; state := s; postal_code := p; country := n;
        address_use := u |}.

Definition ContactPoint_init (system value use rank : pyval) : res ContactPoint :=
  s <- v_str "system" system ;;
  v <- v_str "value" value ;;
  u <- v_str "use" use ;;
  r <- v_optional v_int "rank" rank ;;
  Ok {| contact_system := s; contact_value := v; contact_use := u; rank := r |}.

Definition HumanName_init (family given prefix suffix use : pyval) : res HumanName :=
  f <- v_str "family" family ;;
  g <- v_list v_str "given" given ;;
  p <- v_optional (v_list v_str) "prefix" prefix ;;
  s <- v_optional (v_list v_str) "suffix" suffix ;;
  u <- v_str "use" use ;;
  Ok {| family := f; given := g; prefix := p; suffix := s; name_use := u |}.

Definition Identifier_init (system value type use : pyval) : res Identifier :=
  s <- v_str "system" system ;;
  v <- v_str "value" value ;;
  t <- v_optional v_str "type" type ;;
  u <- v_optional v_str "use" use ;;
  Ok {| system := s; value := v; type := t; identifier_use := u |}.

(** *** The validators of [Patient] (lines 66-88) *)

(** [validate_birth_date] *)
Definition validate_birth_date (v : string) : res string :=
  match Datetime.strptime_ymd v with
  | Some _ => Ok v
  | None => Raise (PydanticError "birth_date")
  end.

(** [validate_deceased_date]; [values] holds [birth_date] only when that
    field passed its own validation, and [values["birth_date"]] raises
    [KeyError] otherwise. *)
Definition validate_deceased_date (v : option string) (values_birth_date : option string)
  : res (option string) :=
  match v with
  | None => Ok None
  | Some d =>
      match Datetime.strptime_ymd d with
      | None => Raise (PydanticError "deceased_date")
      | Some dd =>
          match values_birth_date with
          | None => Raise (KeyError "birth_date")
          | Some b =>
              match Datetime.strptime_ymd b with
              | None => Raise (PydanticError "deceased_date")
              | Some bd =>
                  if Datetime.date_ltb dd bd then Raise (PydanticError "deceased_date")
                  else Ok (Some d)
              end
          end
      end
  end.

(** The keyword arguments [from_fhir] hands to [cls(...)]; the four lists
    are already model instances. *)
Record Patient_kwargs : Type := {
  kw_patient_id : pyval;
  kw_version : pyval;
  kw_active : pyval;
  kw_identifiers : list Identifier;
  kw_name : list HumanName;
  kw_gender : pyval;
  kw_birth_date : pyval;
  kw_deceased : pyval;
  kw_deceased_date : pyval;
  kw_address : option (list Address);
  kw_telecom : option (list ContactPoint);
  kw_marital_status : pyval;
  kw_communication : pyval;
  kw_extension : pyval;
  kw_created_at : pyval;
  kw_updated_at : pyval
}.

Definition to_option {A} (r : res A) : option A :=
  match r with Ok a => Some a | Raise _ => None end.

(** The constructor call [cls(...)]. pydantic validates the fields in declaration
    order and reports all failures in one error; the embedding names the
    first failing field. A [KeyError] raised inside the [deceased_date]
    validator is not a validation failure and leaves the constructor as
    it is. *)
Definition Patient_init (kw : Patient_kwargs) : res Patient :=
  let r_birth := b <- v_str "birth_date" (kw_birth_date kw) ;; validate_birth_date b in
  let r_dec :=
    d <- v_optional v_str "deceased_date" (kw_deceased_date kw) ;;
    validate_deceased_date d (to_option r_birth) in
  match r_dec with
  | Raise (KeyError k) => Raise (KeyError k)
  | _ =>
    pid <- v_str "patient_id" (kw_patient_id kw) ;;
    ver <- v_str "version" (kw_version kw) ;;
    act <- v_bool "active" (kw_active kw) ;;
    gen <- v_str "gender" (kw_gender kw) ;;
    bd <- r_birth ;;
    dec <- v_bool "deceased" (kw_deceased kw) ;;
    dd <- r_dec ;;
    ms <- v_optional v_str "marital_status" (kw_marital_status kw) ;;
    com <- v_optional (v_list v_dict) "communication" (kw_communication kw) ;;
    ext <- v_optional v_dict "extension" (kw_extension kw) ;;
    cre <- v_str "created_at" (kw_created_at kw) ;;
    upd <- v_str "updated_at" (kw_updated_at kw) ;;
    Ok {| patient_id := pid; version := ver; active := act;
          identifiers := kw_identifiers kw; name := kw_name kw;
          gender := gen; birth_date := bd; deceased := dec; deceased_date := dd;
          address := kw_address kw; telecom := kw_telecom kw;
          marital_status := ms; communication := com; extension := ext;
          created_at := cre; updated_at := upd |}
  end.

(** *** [Patient.to_fhir] (lines 90-146) *)

Definition str_list_val (l : list string) : pyval := PList (map PStr l).

Definition identifier_to_fhir (identifier : Identifier) : pyval :=
  PDict [("system", PStr (system identifier));
         ("value", PStr (value identifier));
         ("type", match type identifier with
                  | Some t => if truthy (PStr t)
                              then PDict [("coding", PList [PDict [("code", PStr t)]])]
                              else PNone
                  | None => PNone
                  end);
         ("use", opt_val PStr (identifier_use identifier))].

Definition name_to_fhir (n : HumanName) : pyval :=
  PDict [("family", PStr (family n));
         ("given", str_list_val (given n));
         ("prefix", opt_val str_list_val (prefix n));
         ("suffix", opt_val str_list_val (suffix n));
         ("use", PStr (name_use n))].

Definition address_to_fhir (a : Address) : pyval :=
  PDict [("line", str_list_val (line a));
         ("city", PStr (city a));
         ("state", PStr (state a));
         ("postalCode", PStr (postal_code a));
         ("country", PStr (country a));
         ("use", PStr (address_use a))].

Definition contact_to_fhir (c : ContactPoint) : pyval :=
  PDict [("system", PStr (contact_system c));
         ("value", PStr (contact_value c));
         ("use", PStr (contact_use c));
         ("rank", opt_val PInt (rank c))].

Definition or_empty {A} (o : option (list A)) : list A :=
  match o with Some l => l | None => [] end.

Definition to_fhir (self : Patient) : list (string * pyval) :=
  let fhir_patient :=
    [("resourceType", PStr "Patient");
     ("id", PStr (patient_id self));
     ("meta", PDict [("versionId", PStr (version self));
                     ("lastUpdated", PStr (updated_at self))]);
     ("active", PBool (active self));
     ("identifier", PList (map identifier_to_fhir (identifiers self)));
     ("name", PList (map name_to_fhir (name self)));
     ("gender", PStr (gender self));
     ("birthDate", PStr (birth_date self));
     ("deceasedBoolean", PBool (deceased self));
     ("deceasedDateTime", opt_val PStr (deceased_date self));
     ("address", PList (map address_to_fhir (or_empty (address self))));
     ("telecom", PList (map contact_to_fhir (or_empty (telecom self))));
     ("maritalStatus", match marital_status self with
                       | Some m => if truthy (PStr m)
                                   then PDict [("coding", PList [PDict [("code", PStr m)]])]
                                   else PNone
                       | None => PNone
                       end);
     ("communication", opt_val (fun l => PList (map PDict l)) (communication self));
     ("extension", opt_val PDict (extension self))] in
  drop_none fhir_patient.

(** *** [Patient.from_fhir] (lines 148-224) *)

(** Lines 154-156 and 195-197: [x.get(key)] is truthy and its [coding]
    is truthy, then [x[key]["coding"][0].get("code")]; [None] otherwise. *)
Definition first_coding_code (x : pyval) (key : string) : res pyval :=
  t <- py_get x key PNone ;;
  if truthy t then
    t1 <- py_getitem x key ;;
    coding <- py_get t1 "coding" PNone ;;
    if truthy coding then
      t2 <- py_getitem x key ;;
      c2 <- py_getitem t2 "coding" ;;
      c0 <- py_index0 c2 ;;
      py_get c0 "code" PNone
    else Ok PNone
  else Ok PNone.

Definition decode_identifier (identifier : pyval) : res Identifier :=
  type_code <- first_coding_code identifier "type" ;;
  s <- py_get identifier "system" (PStr "") ;;
  v <- py_get identifier "value" (PStr "") ;;
  u <- py_get identifier "use" PNone ;;
  Identifier_init s v type_code u.

Definition decode_name (name : pyval) : res HumanName :=
  f <- py_get name "family" (PStr "") ;;
  g <- py_get name "given" (PList []) ;;
  p <- py_get name "prefix" PNone ;;
  s <- py_get name "suffix" PNone ;;
  u <- py_get name "use" (PStr "official") ;;
  HumanName_init f g p s u.

Definition decode_address (address : pyval) : res Address :=
  l <- py_get address "line" (PList []) ;;
  c <- py_get address "city" (PStr "") ;;
  s <- py_get address "state" (PStr "") ;;
  p <- py_get address "postalCode" (PStr "") ;;
  n <- py_get address "country" (PStr "") ;;
  u <- py_get address "use" (PStr "home") ;;
  Address_init l c s p n u.

Definition decode_telecom (telecom : pyval) : res ContactPoint :=
  s <- py_get telecom "system" (PStr "") ;;
  v <- py_get telecom "value" (PStr "") ;;
  u <- py_get telecom "use" (PStr "home") ;;
  r <- py_get telecom "rank" PNone ;;
  ContactPoint_init s v u r.

(** [for x in fhir_data.get(key, []): out.append(f(x))] *)
Definition decode_each {A} (f : pyval -> res A) (fhir_data : pyval) (key : string)
  : res (list A) :=
  items <- py_get fhir_data key (PList []) ;;
  xs <- py_iter items ;;
  mapM f xs.

Definition nonempty_or_none {A} (l : list A) : option (list A) :=
  match l with [] => None | _ => Some l end.

Definition from_fhir (w : World) (fhir_data : pyval) : res Patient :=
  identifiers <- decode_each decode_identifier fhir_data "identifier" ;;
  names <- decode_each decode_name fhir_data "name" ;;
  addresses <- decode_each decode_address fhir_data "address" ;;
  telecoms <- decode_each decode_telecom fhir_data "telecom" ;;
  marital_status <- first_coding_code fhir_data "maritalStatus" ;;
  has_bool <- py_contains "deceasedBoolean" fhir_data ;;
  deceased <- (if has_bool : bool then py_getitem fhir_data "deceasedBoolean"
               else Ok (PBool false)) ;;
  has_date <- py_contains "deceasedDateTime" fhir_data ;;
  deceased_date <- (if has_date : bool then py_getitem fhir_data "deceasedDateTime"
                    else Ok PNone) ;;
  let deceased := if has_date : bool then PBool true else deceased in
  pid <- py_get fhir_data "id" (PStr (uuid4 w)) ;;
  meta <- py_get fhir_data "meta" (PDict []) ;;
  ver <- py_get meta "versionId" (PStr (utcnow w 0)) ;;
  act <- py_get fhir_data "active" (PBool true) ;;
  gen <- py_get fhir_data "gender" (PStr "unknown") ;;
  bd <- py_get fhir_data "birthDate" (PStr "") ;;
  com <- py_get fhir_data "communication" PNone ;;
  ext <- py_get fhir_data "extension" PNone ;;
  Patient_init
    {| kw_patient_id := pid; kw_version := ver; kw_active := act;
       kw_identifiers := identifiers; kw_name := names;
       kw_gender := gen; kw_birth_date := bd;
       kw_deceased := deceased; kw_deceased_date := deceased_date;
       kw_address := nonempty_or_none addresses;
       kw_telecom := nonempty_or_none telecoms;
       kw_marital_status := marital_status;
       kw_communication := com; kw_extension := ext;
       kw_created_at := PStr (utcnow w 1); kw_updated_at := PStr (utcnow w 2) |}.

End PatientModel.

(** ** api/models/observation.py *)

Module ObservationModel.

Record Quantity : Type := {
  quantity_value : float;
  unit : string;
  quantity_system : option string;
  quantity_code : option string
}.

Record CodeableConcept : Type := {
  coding : list (list (string * string));
  text : option string
}.

Record ObservationComponent : Type := {
  component_code : CodeableConcept;
  component_value_quantity : option Quantity;
  component_value_string : option string;
  component_value_boolean : option bool;
  component_value_integer : option Z;
  component_value_codeable_concept : option CodeableConcept
}.

Record Observation : Type := {
  observation_id : string;
  status : string;
  category : list CodeableConcept;
  code : CodeableConcept;
  subject : list (string * string);
  patient_id : string;
  encounter : option (list (string * string));
  effective_date_time : string;
  timestamp : string;
  issued : string;
  performer : option (list (list (string * string)));
  value_quantity : option Quantity;
  value_string : option string;
  value_boolean : option bool;
  value_integer : option Z;
  value_codeable_concept : option CodeableConcept;
  data_absent_reason : option CodeableConcept;
  interpretation : option (list CodeableConcept);
  note : option (list (list (string * string)));
  body_site : option CodeableConcept;
  method : option CodeableConcept;
  specimen : option (list (string * string));
  device : option (list (string * string));
  reference_range : option (list (list (string * pyval)));
  has_member : option (list (list (string * string)));
  derived_from : option (list (list (string * string)));
  component : option (list ObservationComponent);
  observation_type : string;
  created_at : string;
  updated_at : string
}.

(** The [value] property (lines 103-116), as the variant it selects. *)
Inductive any_value : Type :=
| VQuantity (q : Quantity)
| VString (s : string)
| VBoolean (b : bool)
| VInteger (n : Z)
| VCodeableConcept (c : CodeableConcept).

Definition value (self : Observation) : option any_value :=
  match value_quantity self with
  | Some q => Some (VQuantity q)
  | None =>
  match value_string self with
  | Some s => Some (VString s)
  | None =>
  match value_boolean self with
  | Some b => Some (VBoolean b)
  | None =>
  match value_integer self with
  | Some n => Some (VInteger n)
  | None =>
  match value_codeable_concept self with
  | Some c => Some (VCodeableConcept c)
  | None => None
  end end end end end.

(** *** Constructors of the nested models *)

Definition Quantity_init (value unit system code : pyval) : res Quantity :=
  v <- v_float "value" value ;;
  u <- v_str "unit" unit ;;
  s <- v_optional v_str "system" system ;;
  c <- v_optional v_str "code" code ;;
  Ok {| quantity_value := v; unit := u; quantity_system := s; quantity_code := c |}.

Definition CodeableConcept_init (coding text : pyval) : res CodeableConcept :=
  c <- v_list v_dict_str "coding" coding ;;
  t <- v_optional v_str "text" text ;;
  Ok {| coding := c; text := t |}.

(** The optional value fields, still as the Python objects [from_fhir]
    took from the payload. *)
Record raw_values : Type := {
  raw_value_quantity : option Quantity;
  raw_value_string : pyval;
  raw_value_boolean : pyval;
  raw_value_integer : pyval;
  raw_value_codeable_concept : option CodeableConcept
}.

Definition ObservationComponent_init (code : CodeableConcept) (v : raw_values)
  : res ObservationComponent :=
  s <- v_optional v_str "value_string" (raw_value_string v) ;;
  b <- v_optional v_bool "value_boolean" (raw_value_boolean v) ;;
  n <- v_optional v_int "value_integer" (raw_value_integer v) ;;
  Ok {| component_code := code;
        component_value_quantity := raw_value_quantity v;
        component_value_string := s;
        component_value_boolean := b;
        component_value_integer := n;
        component_value_codeable_concept := raw_value_codeable_concept v |}.

(** *** [.dict()] of the nested models *)

Definition Quantity_dict (q : Quantity) : pyval :=
  PDict [("value", PFloat (quantity_value q));
         ("unit", PStr (unit q));
         ("system", opt_val PStr (quantity_system q));
         ("code", opt_val PStr (quantity_code q))].

Definition CodeableConcept_dict (c : CodeableConcept) : pyval :=
  PDict [("coding", PList (map dict_str_val (coding c)));
         ("text", opt_val PStr (text c))].

Definition ObservationComponent_dict (c : ObservationComponent) : pyval :=
  PDict [("code", CodeableConcept_dict (component_code c));
         ("value_quantity", opt_val Quantity_dict (component_value_quantity c));
         ("value_string", opt_val PStr (component_value_string c));
         ("value_boolean", opt_val PBool (component_value_boolean c));
         ("value_integer", opt_val PInt (component_value_integer c));
         ("value_codeable_concept",
          opt_val CodeableConcept_dict (component_value_codeable_concept c))].

(** *** [Observation.to_fhir] (lines 118-162) *)

Definition dict_list_val (l : list (list (string * string))) : pyval :=
  PList (map dict_str_val l).

(** [[x.dict() for x in l] if l else None] *)
Definition dicts_if_nonempty {A} (f : A -> pyval) (o : option (list A)) : pyval :=
  match o with
  | Some (x :: t) => PList (map f (x :: t))
  | _ => PNone
  end.

(** Lines 150-159: the one value key that is added. *)
Definition value_entry (self : Observation) : list (string * pyval) :=
  match value_quantity self with
  | Some q => [("valueQuantity", Quantity_dict q)]
  | None =>
  match value_string self with
  | Some s => [("valueString", PStr s)]
  | None =>
  match value_boolean self with
  | Some b => [("valueBoolean", PBool b)]
  | None =>
  match value_integer self with
  | Some n => [("valueInteger", PInt n)]
  | None =>
  match value_codeable_concept self with
  | Some c => [("valueCodeableConcept", CodeableConcept_dict c)]
  | None => []
  end end end end end.

Definition to_fhir (self : Observation) : list (string * pyval) :=
  let fhir_observation :=
    [("resourceType", PStr "Observation");
     ("id", PStr (observation_id self));
     ("meta", PDict [("versionId", PStr "1");
                     ("lastUpdated", PStr (updated_at self))]);
     ("status", PStr (status self));
     ("category", PList (map CodeableConcept_dict (category self)));
     ("code", CodeableConcept_dict (code self));
     ("subject", dict_str_val (subject self));
     ("encounter", opt_val dict_str_val (encounter self));
     ("effectiveDateTime", PStr (effective_date_time self));
     ("issued", PStr (issued self));
     ("performer", opt_val dict_list_val (performer self));
     ("dataAbsentReason", opt_val CodeableConcept_dict (data_absent_reason self));
     ("interpretation", dicts_if_nonempty CodeableConcept_dict (interpretation self));
     ("note", opt_val dict_list_val (note self));
     ("bodySite", opt_val CodeableConcept_dict (body_site self));
     ("method", opt_val CodeableConcept_dict (method self));
     ("specimen", opt_val dict_str_val (specimen self));
     ("device", opt_val dict_str_val (device self));
     ("referenceRange", opt_val (fun l => PList (map PDict l)) (reference_range self));
     ("hasMember", opt_val dict_list_val (has_member self));
     ("derivedFrom", opt_val dict_list_val (derived_from self));
     ("component", dicts_if_nonempty ObservationComponent_dict (component self))] in
  drop_none (fhir_observation ++ value_entry self)%list.

(** *** [Observation.from_fhir] (lines 164-324) *)

(** [CodeableConcept(coding=x.get("coding", []), text=x.get("text"))] *)
Definition decode_concept (x : pyval) : res CodeableConcept :=
  c <- py_get x "coding" (PList []) ;;
  t <- py_get x "text" PNone ;;
  CodeableConcept_init c t.

(** Lines 203-209 and 236-242. *)
Definition decode_quantity (x : pyval) : res Quantity :=
  v <- py_get x "value" (PFloat 0%float) ;;
  u <- py_get x "unit" (PStr "") ;;
  s <- py_get x "system" PNone ;;
  c <- py_get x "code" PNone ;;
  Quantity_init v u s c.

Definition no_values : raw_values :=
  {| raw_value_quantity := None; raw_value_string := PNone;
     raw_value_boolean := PNone; raw_value_integer := PNone;
     raw_value_codeable_concept := None |}.

(** The [if]/[elif] chain on key presence, lines 196-220 for the
    observation and 230-253 for each component: the five fields start as
    [None] and the first key found, in the order written, sets its own. *)
Definition decode_values (d : list (string * pyval)) : res raw_values :=
  if mem "valueQuantity" d then
    x <- getitem d "valueQuantity" ;;
    q <- decode_quantity x ;;
    Ok {| raw_value_quantity := Some q; raw_value_string := PNone;
          raw_value_boolean := PNone; raw_value_integer := PNone;
          raw_value_codeable_concept := None |}
  else if mem "valueString" d then
    x <- getitem d "valueString" ;;
    Ok {| raw_value_quantity := None; raw_value_string := x;
          raw_value_boolean := PNone; raw_value_integer := PNone;
          raw_value_codeable_concept := None |}
  else if mem "valueBoolean" d then
    x <- getitem d "valueBoolean" ;;
    Ok {| raw_value_quantity := None; raw_value_string := PNone;
          raw_value_boolean := x; raw_value_integer := PNone;
          raw_value_codeable_concept := None |}
  else if mem "valueInteger" d then
    x <- getitem d "valueInteger" ;;
    Ok {| raw_value_quantity := None; raw_value_string := PNone;
          raw_value_boolean := PNone; raw_value_integer := x;
          raw_value_codeable_concept := None |}
  else if mem "valueCodeableConcept" d then
    x <- getitem d "valueCodeableConcept" ;;
    c <- decode_concept x ;;
    Ok {| raw_value_quantity := None; raw_value_string := PNone;
          raw_value_boolean := PNone; raw_value_integer := PNone;
          raw_value_codeable_concept := Some c |}
  else Ok no_values.

(** [key in x] followed by the chain, for a component taken from the
    payload, which need not be a dictionary. *)
Definition decode_component (component : pyval) : res ObservationComponent :=
  c <- py_get component "code" (PDict []) ;;
  coding <- py_get c "coding" (PList []) ;;
  c' <- py_get component "code" (PDict []) ;;
  text <- py_get c' "text" PNone ;;
  component_code <- CodeableConcept_init coding text ;;
  match component with
  | PDict d =>
      v <- decode_values d ;;
      ObservationComponent_init component_code v
  | _ => Raise AttributeError
  end.

(** [for x in fhir_data.get(key, []): out.append(f(x))] *)
Definition decode_each {A} (f : pyval -> res A) (d : list (string * pyval)) (key : string)
  : res (list A) :=
  xs <- py_iter (get_default d key (PList [])) ;;
  mapM f xs.

(** [f(fhir_data[key]) if key in fhir_data else None] *)
Definition decode_if_present {A} (f : pyval -> res A) (d : list (string * pyval))
  (key : string) : res (option A) :=
  match lookup key d with
  | Some x => a <- f x ;; Ok (Some a)
  | None => Ok None
  end.

(** Lines 183-189. *)
Definition decode_patient_id (subject : pyval) : res string :=
  if truthy subject then
    has_ref <- py_contains "reference" subject ;;
    if has_ref : bool then
      reference <- py_getitem subject "reference" ;;
      match reference with
      | PStr r =>
          if startswith r "Patient/"
          then match split_on "/" r with
               | _ :: id :: _ => Ok id
               | _ => Raise IndexError
               end
          else Ok ""
      | _ => Raise AttributeError
      end
    else Ok ""
  else Ok "".

(** Lines 191-194. *)
Definition decode_observation_type (code : CodeableConcept) : string :=
  match coding code with
  | c0 :: _ => get_default c0 "code" "unknown"
  | [] => "unknown"
  end.

Definition valid_statuses : list string :=
  ["registered"; "preliminary"; "final"; "amended";
   "corrected"; "cancelled"; "entered-in-error"; "unknown"].

Definition in_list (s : string) (l : list string) : bool :=
  existsb (String.eqb s) l.

(** The keyword arguments of [cls(...)] that are still Python objects. *)
Record Observation_kwargs : Type := {
  kw_observation_id : pyval;
  kw_status : pyval;
  kw_category : list CodeableConcept;
  kw_code : CodeableConcept;
  kw_subject : pyval;
  kw_patient_id : string;
  kw_encounter : pyval;
  kw_effective_date_time : pyval;
  kw_timestamp : string;
  kw_issued : pyval;
  kw_performer : pyval;
  kw_values : raw_values;
  kw_data_absent_reason : option CodeableConcept;
  kw_interpretation : option (list CodeableConcept);
  kw_note : pyval;
  kw_body_site : option CodeableConcept;
  kw_method : option CodeableConcept;
  kw_specimen : pyval;
  kw_device : pyval;
  kw_reference_range : pyval;
  kw_has_member : pyval;
  kw_derived_from : pyval;
  kw_component : option (list ObservationComponent);
  kw_observation_type : string;
  kw_created_at : string;
  kw_updated_at : string
}.

Definition nonempty_or_none {A} (l : list A) : option (list A) :=
  match l with [] => None | _ => Some l end.

Section WithClock.

(** [datetime.fromisoformat(v)] succeeds. The accepted grammar depends
  on the interpreter's version and stays a parameter. *)
Variable fromisoformat : string -> bool.

(** [validate_status] (lines 83-92) *)
Definition validate_status (v : string) : res string :=
if in_list v valid_statuses then Ok v else Raise (PydanticError "status").

(** [validate_effective_date_time] (lines 94-101) *)
Definition validate_effective_date_time (v : string) : res string :=
if fromisoformat v then Ok v else Raise (PydanticError "effective_date_time").

(** The constructor call [cls(...)]: the fields in declaration order,
  the first failing one named. *)
Definition Observation_init (kw : Observation_kwargs) : res Observation :=
oid <- v_str "observation_id" (kw_observation_id kw) ;;
st <- v_str "status" (kw_status kw) ;;
st <- validate_status st ;;
sub <- v_dict_str "subject" (kw_subject kw) ;;
enc <- v_optional v_dict_str "encounter" (kw_encounter kw) ;;
eff <- v_str "effective_date_time" (kw_effective_date_time kw) ;;
eff <- validate_effective_date_time eff ;;
iss <- v_str "issued" (kw_issued kw) ;;
per <- v_optional (v_list v_dict_str) "performer" (kw_performer kw) ;;
vs <- v_optional v_str "value_string" (raw_value_string (kw_values kw)) ;;
vb <- v_optional v_bool "value_boolean" (raw_value_boolean (kw_values kw)) ;;
vi <- v_optional v_int "value_integer" (raw_value_integer (kw_values kw)) ;;
nt <- v_optional (v_list v_dict_str) "note" (kw_note kw) ;;
spe <- v_optional v_dict_str "specimen" (kw_specimen kw) ;;
dev <- v_optional v_dict_str "device" (kw_device kw) ;;
rr <- v_optional (v_list v_dict) "reference_range" (kw_reference_range kw) ;;
hm <- v_optional (v_list v_dict_str) "has_member" (kw_has_member kw) ;;
df <- v_optional (v_list v_dict_str) "derived_from" (kw_derived_from kw) ;;
Ok {| observation_id := oid; status := st; category := kw_category kw;
      code := kw_code kw; subject := sub; patient_id := kw_patient_id kw;
      encounter := enc; effective_date_time := eff;
      timestamp := kw_timestamp kw; issued := iss; performer := per;
      value_quantity := raw_value_quantity (kw_values kw);
      value_string := vs; value_boolean := vb; value_integer := vi;
      value_codeable_concept := raw_value_codeable_concept (kw_values kw);
      data_absent_reason := kw_data_absent_reason kw;
      interpretation := kw_interpretation kw;
      note := nt; body_site := kw_body_site kw; method := kw_method kw;
      specimen := spe; device := dev; reference_range := rr;
      has_member := hm; derived_from := df;
      component := kw_component kw;
      observation_type := kw_observation_type kw;
      created_at := kw_created_at kw; updated_at := kw_updated_at kw |}.

Definition from_fhir (w : World) (fhir_data : pyval) : res Observation :=
match fhir_data with
| PDict d =>
    categories <- decode_each decode_concept d "category" ;;
    code <- decode_concept (get_default d "code" (PDict [])) ;;
    let subject := get_default d "subject" (PDict []) in
    patient_id <- decode_patient_id subject ;;
    let observation_type := decode_observation_type code in
    values <- decode_values d ;;
    components <- decode_each decode_component d "component" ;;
    data_absent_reason <- decode_if_present decode_concept d "dataAbsentReason" ;;
    interpretations <- decode_each decode_concept d "interpretation" ;;
    body_site <- decode_if_present decode_concept d "bodySite" ;;
    method <- decode_if_present decode_concept d "method" ;;
    Observation_init
      {| kw_observation_id := get_default d "id" (PStr (uuid4 w));
         kw_status := get_default d "status" (PStr "unknown");
         kw_category := categories;
         kw_code := code;
         kw_subject := subject;
         kw_patient_id := patient_id;
         kw_encounter := get_default d "encounter" PNone;
         kw_effective_date_time :=
           get_default d "effectiveDateTime" (PStr (utcnow w 0));
         kw_timestamp := utcnow w 1;
         kw_issued := get_default d "issued" (PStr (utcnow w 2));
         kw_performer := get_default d "performer" PNone;
         kw_values := values;
         kw_data_absent_reason := data_absent_reason;
         kw_interpretation := nonempty_or_none interpretations;
         kw_note := get_default d "note" PNone;
         kw_body_site := body_site;
         kw_method := method;
         kw_specimen := get_default d "specimen" PNone;
         kw_device := get_default d "device" PNone;
         kw_reference_range := get_default d "referenceRange" PNone;
         kw_has_member := get_default d "hasMember" PNone;
         kw_derived_from := get_default d "derivedFrom" PNone;
         kw_component := nonempty_or_none components;
         kw_observation_type := observation_type;
         kw_created_at := utcnow w 3;
         kw_updated_at := utcnow w 4 |}
| _ => Raise AttributeError
end.

End WithClock.

End ObservationModel.

(** ** core/fhir/validators.py *)

Module Validators.

(** The validator reads a resource object of the [fhir.resources]
    package. Only the attributes it reads are kept; a nested element it
    merely tests for presence is an [Element]. *)
Inductive Element : Type := element.

Record Coding : Type := {
  coding_system : option string;
  coding_code : option string
}.

Record CodeableConcept : Type := {
  coding : option (list Coding)
}.

Record Reference : Type := {
  reference : option string
}.

Record Observation : Type := {
  resource_type : string;
  id : option string;
  status : option string;
  code : option CodeableConcept;
  subject : option Reference;
  effectiveDateTime : option string;
  effectivePeriod : option Element;
  valueQuantity : option Element;
  valueCodeableConcept : option Element;
  valueString : option string;
  valueBoolean : option bool;
  valueInteger : option Z;
  valueRange : option Element;
  valueRatio : option Element;
  valueSampledData : option Element;
  valueTime : option Element;
  valueDateTime : option Element;
  valuePeriod : option Element;
  dataAbsentReason : option Element;
  component : option (list Element)
}.

(** Truth values of the attributes: [None] and the empty string, [False]
    and [0] are false, an element object is true. *)
Definition str_truthy (o : option string) : bool :=
  match o with Some s => negb (String.eqb s "") | None => false end.

Definition elem_truthy {A} (o : option A) : bool :=
  match o with Some _ => true | None => false end.

Definition bool_truthy (o : option bool) : bool :=
  match o with Some b => b | None => false end.

Definition int_truthy (o : option Z) : bool :=
  match o with Some n => negb (n =? 0)%Z | None => false end.

Definition list_truthy {A} (o : option (list A)) : bool :=
  match o with Some (_ :: _) => true | _ => false end.

Definition valid_statuses : list string :=
  ["registered"; "preliminary"; "final"; "amended";
   "corrected"; "cancelled"; "entered-in-error"; "unknown"].

Definition in_list (s : string) (l : list string) : bool :=
  existsb (String.eqb s) l.

Section Rules.

(** [datetime.fromisoformat(v)] succeeds. *)
Variable fromisoformat : string -> bool.

(** Lines 120-122. *)
Definition check_resource_type (observation : Observation) : list string :=
if negb (String.eqb (resource_type observation) "Observation")
then ["Resource type must be 'Observation'"] else [].

(** Lines 124-126. *)
Definition check_id (observation : Observation) : list string :=
if negb (str_truthy (id observation))
then ["Observation ID is required"] else [].

(** Lines 128-135. *)
Definition check_status (observation : Observation) : list string :=
match status observation with
| Some s =>
    if String.eqb s "" then ["Observation status is required"]
    else if negb (in_list s valid_statuses) then ["Observation status is invalid"]
    else []
| None => ["Observation status is required"]
end.

(** Lines 143-147: the loop body, for one coding. *)
Definition check_coding (c : Coding) : list string :=
((if negb (str_truthy (coding_system c))
  then ["Observation code coding must have a system"] else [])
 ++
 (if negb (str_truthy (coding_code c))
  then ["Observation code coding must have a code"] else []))%list.

(** Lines 137-147. *)
Definition check_code (observation : Observation) : list string :=
match code observation with
| None => ["Observation code is required"]
| Some c =>
    match coding c with
    | Some (x :: t) => flat_map check_coding (x :: t)
    | _ => ["Observation code must have at least one coding"]
    end
end.

(** Lines 149-155. *)
Definition check_subject (observation : Observation) : list string :=
match subject observation with
| None => ["Observation subject is required"]
| Some r =>
    if negb (str_truthy (reference r))
    then ["Observation subject reference is required"]
    else match reference r with
         | Some s => if negb (startswith s "Patient/")
                     then ["Observation subject reference must be a Patient"]
                     else []
         | None => []
         end
end.

(** Lines 157-164. *)
Definition check_effective (observation : Observation) : list string :=
if negb (str_truthy (effectiveDateTime observation))
   && negb (elem_truthy (effectivePeriod observation))
then ["Observation must have an effective date/time or period"]
else match effectiveDateTime observation with
     | Some s =>
         if negb (String.eqb s "") then
           if fromisoformat (replace s "Z" "+00:00") then []
           else ["Observation effective date/time must be in ISO format"]
         else []
     | None => []
     end.

(** Lines 167-179: the truth value of the [or] chain. *)
Definition has_value (observation : Observation) : bool :=
elem_truthy (valueQuantity observation)
|| elem_truthy (valueCodeableConcept observation)
|| str_truthy (valueString observation)
|| bool_truthy (valueBoolean observation)
|| int_truthy (valueInteger observation)
|| elem_truthy (valueRange observation)
|| elem_truthy (valueRatio observation)
|| elem_truthy (valueSampledData observation)
|| elem_truthy (valueTime observation)
|| elem_truthy (valueDateTime observation)
|| elem_truthy (valuePeriod observation).

(** Line 181. *)
Definition has_data_absent_reason (observation : Observation) : bool :=
elem_truthy (dataAbsentReason observation).

(** Line 182. *)
Definition has_component (observation : Observation) : bool :=
list_truthy (component observation).

Definition value_violation : string :=
"Observation must have a value, data absent reason, or component".

(** Lines 184-185. *)
Definition check_value (observation : Observation) : list string :=
if negb (has_value observation) && negb (has_data_absent_reason observation)
   && negb (has_component observation)
then [value_violation] else [].

(** The list [errors] when line 188 is reached. *)
Definition observation_errors (observation : Observation) : list string :=
(check_resource_type observation
 ++ check_id observation
 ++ check_status observation
 ++ check_code observation
 ++ check_subject observation
 ++ check_effective observation
 ++ check_value observation)%list.

(** [FHIRValidator.validate_observation] (lines 107-189) *)
Definition validate_observation (observation : Observation) : res unit :=
match observation_errors observation with
| [] => Ok tt
| errors => Raise (ValidationError "Observation validation failed" errors)
end.

End Rules.

End Validators.

(** ** api/handlers/ml_handler.py *)

Module MLHandler.

Record reading : Type := {
  reading_value : pyval;
  reading_timestamp : pyval
}.

Record demographics : Type := {
  gender : pyval;
  age : option Z;
  deceased : pyval
}.

Record features : Type := {
  demo : demographics;
  vital_signs : list (string * list reading);
  lab_results : list (string * list reading);
  medications : list string;
  conditions : list string
}.

Definition vital_types : list string :=
  ["heart-rate"; "blood-pressure"; "respiratory-rate"; "temperature";
   "oxygen-saturation"].

Definition in_list (s : string) (l : list string) : bool :=
  existsb (String.eqb s) l.

(** [if k not in d: d[k] = []] followed by [d[k].append(r)] *)
Fixpoint append_reading (k : string) (r : reading) (d : list (string * list reading))
  : list (string * list reading) :=
  match d with
  | [] => [(k, [r])]
  | (k', l) :: t =>
      if String.eqb k k' then (k', (l ++ [r])%list) :: t
      else (k', l) :: append_reading k r t
  end.

(** [if x not in l: l.append(x)] *)
Definition append_new (x : string) (l : list string) : list string :=
  if in_list x l then l else (l ++ [x])%list.

(** Lines 191-195 and 209-213: the numeric payload of an observation,
    [None] when it has neither. *)
Definition numeric_value (obs : list (string * pyval)) : res pyval :=
  let from_integer :=
    if mem "value_integer" obs then
      i <- getitem obs "value_integer" ;;
      match i with
      | PNone => Ok PNone
      | _ => getitem obs "value_integer"
      end
    else Ok PNone in
  if mem "value_quantity" obs then
    q <- getitem obs "value_quantity" ;;
    if truthy q then
      q' <- getitem obs "value_quantity" ;;
      py_getitem q' "value"
    else from_integer
  else from_integer.

(** Lines 197-204 and 215-222. *)
Definition record_reading (obs : list (string * pyval)) (obs_type : string)
  (bucket : list (string * list reading)) : res (list (string * list reading)) :=
  value <- numeric_value obs ;;
  match value with
  | PNone => Ok bucket
  | _ =>
      ts <- getitem obs "timestamp" ;;
      Ok (append_reading obs_type {| reading_value := value; reading_timestamp := ts |}
            bucket)
  end.

(** The body of the loop of line 185, for one observation. *)
Definition step (f : features) (obs : list (string * pyval)) : res features :=
  match get_default obs "observation_type" (PStr "unknown") with
  | PStr obs_type =>
      if in_list obs_type vital_types then
        v <- record_reading obs obs_type (vital_signs f) ;;
        Ok {| demo := demo f; vital_signs := v; lab_results := lab_results f;
              medications := medications f; conditions := conditions f |}
      else if startswith obs_type "lab-" then
        l <- record_reading obs obs_type (lab_results f) ;;
        Ok {| demo := demo f; vital_signs := vital_signs f; lab_results := l;
              medications := medications f; conditions := conditions f |}
      else if startswith obs_type "condition-" then
        let condition := replace obs_type "condition-" "" in
        Ok {| demo := demo f; vital_signs := vital_signs f;
              lab_results := lab_results f; medications := medications f;
              conditions := append_new condition (conditions f) |}
      else if startswith obs_type "medication-" then
        let medication := replace obs_type "medication-" "" in
        Ok {| demo := demo f; vital_signs := vital_signs f;
              lab_results := lab_results f;
              medications := append_new medication (medications f);
              conditions := conditions f |}
      else Ok f
  | _ => Raise AttributeError
  end.

Fixpoint run (f : features) (observations : list (list (string * pyval))) : res features :=
  match observations with
  | [] => Ok f
  | obs :: t => f' <- step f obs ;; run f' t
  end.

Section WithInterpreter.

(** [int(s)] of the interpreter, [None] when it raises, and the year of
  [datetime.now()]. *)
Variable py_int : string -> option Z.
Variable current_year : Z.

(** [calculate_age] (lines 239-258); every exception of the [try] block
  is turned into [None]. *)
Definition calculate_age (birth_date : pyval) : option Z :=
if negb (truthy birth_date) then None
else match birth_date with
     | PStr s =>
         match split_on "-" s with
         | y :: _ =>
             match py_int y with
             | Some birth_year => Some (current_year - birth_year)%Z
             | None => None
             end
         | [] => None
         end
     | _ => None
     end.

(** [extract_features] (lines 157-236) *)
Definition extract_features (patient : list (string * pyval))
(observations : list (list (string * pyval))) : res features :=
let features :=
  {| demo := {| gender := get_default patient "gender" PNone;
                age := calculate_age (get_default patient "birth_date" (PStr ""));
                deceased := get_default patient "deceased" (PBool false) |};
     vital_signs := [];
     lab_results := [];
     medications := [];
     conditions := [] |} in
run features observations.

End WithInterpreter.

End MLHandler.

(** ** core/ml/models/risk_predictor.py *)

Module RiskPredictor.

Record predictor : Type := {
  feature_weights : list (string * float);
  thresholds : list (string * float)
}.

Record factor : Type := {
  factor_name : string;
  importance : float;
  direction : string
}.

Record prediction_result : Type := {
  prediction : string;
  probability : float;
  scores : list (string * float);
  explanation_factors : list factor;
  thresholds_echo : list (string * float)
}.

(** [_initialize_default_model]: the default thresholds. *)
Definition default_thresholds : list (string * float) :=
  [("low-risk", 0.3%float); ("medium-risk", 0.6%float); ("high-risk", 0.8%float)].

(** The loop of lines 276-279: the weighted sum over the extracted
    features, in the dictionary's order, starting from [0.0]. *)
Definition weighted_sum (weights features : list (string * float)) : float :=
  fold_left
    (fun risk_score fv =>
       match lookup (fst fv) weights with
       | Some w => (risk_score + snd fv * w)%float
       | None => risk_score
       end)
    features 0%float.

(** Line 282. *)
Definition clamp (risk_score : float) : float :=
  pymin (pymax risk_score 0%float) 1%float.

(** Lines 285-289; [risk_score >= t] is [t <= risk_score]. *)
Definition risk_level_of (th : list (string * float)) (risk_score : float) : res string :=
  high <- getitem th "high-risk" ;;
  if PrimFloat.leb high risk_score then Ok "high-risk"
  else
    medium <- getitem th "medium-risk" ;;
    if PrimFloat.leb medium risk_score then Ok "medium-risk"
    else Ok "low-risk".

(** Lines 292-296: the per-band scores. *)
Definition risk_scores_of (th : list (string * float)) (risk_score : float)
  : res (list (string * float)) :=
  m1 <- getitem th "medium-risk" ;;
  q1 <- pydiv risk_score m1 ;;
  let low_score := pymax 0%float (1 - q1)%float in
  l2 <- getitem th "low-risk" ;;
  h2 <- getitem th "high-risk" ;;
  l2' <- getitem th "low-risk" ;;
  q2 <- pydiv (risk_score - l2)%float (h2 - l2')%float ;;
  let medium_score := pymax 0%float (pymin 1%float q2) in
  m3 <- getitem th "medium-risk" ;;
  m3' <- getitem th "medium-risk" ;;
  q3 <- pydiv (risk_score - m3)%float (1 - m3')%float ;;
  let high_score := pymax 0%float q3 in
  Ok [("low-risk", low_score); ("medium-risk", medium_score); ("high-risk", high_score)].

(** [sorted(items, key=lambda x: x[1], reverse=True)]: a stable sort,
    largest weight first; items of equal weight keep their order. *)
Fixpoint insert_desc (x : string * float) (l : list (string * float))
  : list (string * float) :=
  match l with
  | [] => [x]
  | y :: t => if PrimFloat.ltb (snd x) (snd y) then y :: insert_desc x t
              else x :: y :: t
  end.

Definition sorted_desc (l : list (string * float)) : list (string * float) :=
  fold_right insert_desc [] l.

(** Lines 299-308: the first five positive features, by weight. *)
Fixpoint contributing (features : list (string * float))
  (sorted_weights : list (string * float)) (acc : list factor) : list factor :=
  match sorted_weights with
  | [] => acc
  | (feature, weight) :: t =>
      match lookup feature features with
      | Some v =>
          if PrimFloat.ltb 0%float v then
            let acc' := (acc ++ [{| factor_name := feature; importance := weight;
                                    direction := "positive" |}])%list in
            if (5 <=? List.length acc')%nat then acc' else contributing features t acc'
          else contributing features t acc
      | None => contributing features t acc
      end
  end.

Section Predict.

(** The patient payload and [_extract_features] (lines 115-230) stay
  abstract: the scoring below only consumes the extracted dictionary.
  Of [self], the extraction reads [feature_weights] alone (lines 221
  and 227). *)
Variable patient_data : Type.
Variable _extract_features :
list (string * float) -> patient_data -> res (list (string * float)).

Definition predict (self : predictor) (pd : patient_data) : res prediction_result :=
features <- _extract_features (feature_weights self) pd ;;
let risk_score := weighted_sum (feature_weights self) features in
let risk_score := clamp risk_score in
risk_level <- risk_level_of (thresholds self) risk_score ;;
risk_scores <- risk_scores_of (thresholds self) risk_score ;;
let contributing_factors :=
  contributing features (sorted_desc (feature_weights self)) [] in
Ok {| prediction := risk_level;
      probability := risk_score;
      scores := risk_scores;
      explanation_factors := contributing_factors;
      thresholds_echo := thresholds self |}.

End Predict.

End RiskPredictor.

(** * Sample inputs and reference notions *)

Module Samples.

Definition sample_world : World :=
  {| uuid4 := "generated-id"; utcnow := fun _ => "2024-01-01T00:00:00" |}.

(** The band of a score, as the two upper thresholds cut it. *)
Definition band (high medium score : float) : string :=
  if PrimFloat.leb high score then "high-risk"
  else if PrimFloat.leb medium score then "medium-risk"
  else "low-risk".

(** The default thresholds with two of the default weights, on a payload
    whose only feature is the [diabetes] flag. *)
Definition default_predictor : RiskPredictor.predictor :=
  {| RiskPredictor.feature_weights := [("age", 0.05%float); ("diabetes", 0.15%float)];
     RiskPredictor.thresholds := RiskPredictor.default_thresholds |}.

(** The same model with the low-risk threshold moved up to the
    high-risk one. *)
Definition flat_predictor : RiskPredictor.predictor :=
  {| RiskPredictor.feature_weights := [("age", 0.05%float); ("diabetes", 0.15%float)];
     RiskPredictor.thresholds :=
       [("low-risk", 0.8%float); ("medium-risk", 0.6%float); ("high-risk", 0.8%float)] |}.

Definition flag_diabetes (weights : list (string * float)) (pd : unit)
  : res (list (string * float)) :=
  Ok [("diabetes", 1%float)].

(** A deceased patient with a recorded date of death. *)
Definition deceased_patient : PatientModel.Patient :=
  {| PatientModel.patient_id := "p1";
     PatientModel.version := "v1";
     PatientModel.active := true;
     PatientModel.identifiers :=
       [{| PatientModel.system := "http://hospital.example/mrn";
           PatientModel.value := "12345";
           PatientModel.type := Some "MR";
           PatientModel.identifier_use := None |}];
     PatientModel.name :=
       [{| PatientModel.family := "Doe"; PatientModel.given := ["John"];
           PatientModel.prefix := None; PatientModel.suffix := None;
           PatientModel.name_use := "official" |}];
     PatientModel.gender := "male";
     PatientModel.birth_date := "1950-03-04";
     PatientModel.deceased := true;
     PatientModel.deceased_date := Some "2020-01-01";
     PatientModel.address := None;
     PatientModel.telecom := None;
     PatientModel.marital_status := None;
     PatientModel.communication := None;
     PatientModel.extension := None;
     PatientModel.created_at := "2024-01-01T00:00:00";
     PatientModel.updated_at := "2024-01-01T00:00:00" |}.


(** The example of the specification: both deceased keys. *)
Definition patient_both_deceased_keys : list (string * pyval) :=
  [("birthDate", PStr "1950-03-04");
   ("deceasedBoolean", PBool false);
   ("deceasedDateTime", PStr "2020-01-01")].

(** The keys [Patient.from_fhir] reads, [birthDate] and the two deceased
    keys apart. *)
Definition other_patient_keys : list string :=
  ["identifier"; "name"; "address"; "telecom"; "maritalStatus"; "id"; "meta";
   "active"; "gender"; "communication"; "extension"].

(** None of [keys] is in the payload. *)
Definition absent (keys : list string) (d : list (string * pyval)) : bool :=
  forallb (fun k => negb (mem k d)) keys.


(** The invariants of a Patient that matter to the codec: the birth date
    is a calendar date; a date of death is a calendar date not before it
    and comes with the deceased flag; a type of identifier and a marital
    status, when given, are not empty; so are the lists of addresses and
    of contact points. *)
Definition nonempty_if_some (o : option string) : bool :=
  match o with Some s => negb (String.eqb s "") | None => true end.

Definition not_empty_list {A} (o : option (list A)) : bool :=
  match o with Some [] => false | _ => true end.

Definition patient_dates_ok (p : PatientModel.Patient) : bool :=
  match Datetime.strptime_ymd (PatientModel.birth_date p) with
  | None => false
  | Some bd =>
      match PatientModel.deceased_date p with
      | None => true
      | Some d => match Datetime.strptime_ymd d with
                  | None => false
                  | Some dd => negb (Datetime.date_ltb dd bd) && PatientModel.deceased p
                  end
      end
  end.

Definition patient_invariants (p : PatientModel.Patient) : bool :=
  patient_dates_ok p
  && forallb (fun i => nonempty_if_some (PatientModel.type i)) (PatientModel.identifiers p)
  && nonempty_if_some (PatientModel.marital_status p)
  && not_empty_list (PatientModel.address p)
  && not_empty_list (PatientModel.telecom p).

(** [p] with the two timestamps a decoder call sets. *)
Definition restamp_patient (w : World) (p : PatientModel.Patient) : PatientModel.Patient :=
  {| PatientModel.patient_id := PatientModel.patient_id p;
     PatientModel.version := PatientModel.version p;
     PatientModel.active := PatientModel.active p;
     PatientModel.identifiers := PatientModel.identifiers p;
     PatientModel.name := PatientModel.name p;
     PatientModel.gender := PatientModel.gender p;
     PatientModel.birth_date := PatientModel.birth_date p;
     PatientModel.deceased := PatientModel.deceased p;
     PatientModel.deceased_date := PatientModel.deceased_date p;
     PatientModel.address := PatientModel.address p;
     PatientModel.telecom := PatientModel.telecom p;
     PatientModel.marital_status := PatientModel.marital_status p;
     PatientModel.communication := PatientModel.communication p;
     PatientModel.extension := PatientModel.extension p;
     PatientModel.created_at := utcnow w 1;
     PatientModel.updated_at := utcnow w 2 |}.

(** The five value fields of an observation, in the order of the
    decoder's chain. *)
Definition value_fields (o : ObservationModel.Observation)
  : option ObservationModel.Quantity * option string * option bool * option Z
    * option ObservationModel.CodeableConcept :=
  (ObservationModel.value_quantity o, ObservationModel.value_string o,
   ObservationModel.value_boolean o, ObservationModel.value_integer o,
   ObservationModel.value_codeable_concept o).

(** The invariants of an Observation that matter to the codec: a valid
    status and effective time; at most one value field set; [patient_id]
    and [observation_type] are the ones the decoder derives from the
    subject and the code; the lists of interpretations and of components,
    when given, are not empty. *)
Definition some_count {A} (o : option A) : nat :=
  match o with Some _ => 1 | None => 0 end.

Definition value_count (o : ObservationModel.Observation) : nat :=
  some_count (ObservationModel.value_quantity o)
  + some_count (ObservationModel.value_string o)
  + some_count (ObservationModel.value_boolean o)
  + some_count (ObservationModel.value_integer o)
  + some_count (ObservationModel.value_codeable_concept o).

Definition observation_invariants (fromiso : string -> bool)
  (o : ObservationModel.Observation) : bool :=
  ObservationModel.in_list (ObservationModel.status o) ObservationModel.valid_statuses
  && fromiso (ObservationModel.effective_date_time o)
  && (value_count o <=? 1)%nat
  && match ObservationModel.decode_patient_id (dict_str_val (ObservationModel.subject o)) with
     | Ok i => String.eqb i (ObservationModel.patient_id o)
     | Raise _ => false
     end
  && String.eqb (ObservationModel.decode_observation_type (ObservationModel.code o))
       (ObservationModel.observation_type o)
  && not_empty_list (ObservationModel.interpretation o)
  && not_empty_list (ObservationModel.component o).

(** A component without its value. *)
Definition strip_component (c : ObservationModel.ObservationComponent)
  : ObservationModel.ObservationComponent :=
  {| ObservationModel.component_code := ObservationModel.component_code c;
     ObservationModel.component_value_quantity := None;
     ObservationModel.component_value_string := None;
     ObservationModel.component_value_boolean := None;
     ObservationModel.component_value_integer := None;
     ObservationModel.component_value_codeable_concept := None |}.

(** What decoding the encoding of [o] gives: [o] with the three
    timestamps a decoder call sets and with every component stripped of
    its value. *)
Definition decoded_encoding (w : World) (o : ObservationModel.Observation)
  : ObservationModel.Observation :=
  {| ObservationModel.observation_id := ObservationModel.observation_id o;
     ObservationModel.status := ObservationModel.status o;
     ObservationModel.category := ObservationModel.category o;
     ObservationModel.code := ObservationModel.code o;
     ObservationModel.subject := ObservationModel.subject o;
     ObservationModel.patient_id := ObservationModel.patient_id o;
     ObservationModel.encounter := ObservationModel.encounter o;
     ObservationModel.effective_date_time := ObservationModel.effective_date_time o;
     ObservationModel.timestamp := utcnow w 1;
     ObservationModel.issued := ObservationModel.issued o;
     ObservationModel.performer := ObservationModel.performer o;
     ObservationModel.value_quantity := ObservationModel.value_quantity o;
     ObservationModel.value_string := ObservationModel.value_string o;
     ObservationModel.value_boolean := ObservationModel.value_boolean o;
     ObservationModel.value_integer := ObservationModel.value_integer o;
     ObservationModel.value_codeable_concept := ObservationModel.value_codeable_concept o;
     ObservationModel.data_absent_reason := ObservationModel.data_absent_reason o;
     ObservationModel.interpretation := ObservationModel.interpretation o;
     ObservationModel.note := ObservationModel.note o;
     ObservationModel.body_site := ObservationModel.body_site o;
     ObservationModel.method := ObservationModel.method o;
     ObservationModel.specimen := ObservationModel.specimen o;
     ObservationModel.device := ObservationModel.device o;
     ObservationModel.reference_range := ObservationModel.reference_range o;
     ObservationModel.has_member := ObservationModel.has_member o;
     ObservationModel.derived_from := ObservationModel.derived_from o;
     ObservationModel.component :=
       option_map (map strip_component) (ObservationModel.component o);
     ObservationModel.observation_type := ObservationModel.observation_type o;
     ObservationModel.created_at := utcnow w 3;
     ObservationModel.updated_at := utcnow w 4 |}.

(** The five value keys of the wire format. *)
Definition value_keys : list string :=
  ["valueQuantity"; "valueString"; "valueBoolean"; "valueInteger";
   "valueCodeableConcept"].

(** The entry [to_fhir] writes for an optional list of models: the list
    of their dictionaries when there is one and it is not empty. *)
Definition list_entry {A} (f : A -> pyval) (o : option (list A)) : option pyval :=
  match o with
  | Some (x :: t) => Some (PList (map f (x :: t)))
  | _ => None
  end.

Definition loinc (c display : string) : ObservationModel.CodeableConcept :=
  {| ObservationModel.coding :=
       [[("system", "http://loinc.org"); ("code", c); ("display", display)]];
     ObservationModel.text := None |}.

Definition mmHg (v : float) : ObservationModel.Quantity :=
  {| ObservationModel.quantity_value := v;
     ObservationModel.unit := "mmHg";
     ObservationModel.quantity_system := Some "http://unitsofmeasure.org";
     ObservationModel.quantity_code := Some "mm[Hg]" |}.

Definition pressure_component (c display : string) (v : option ObservationModel.Quantity)
  : ObservationModel.ObservationComponent :=
  {| ObservationModel.component_code := loinc c display;
     ObservationModel.component_value_quantity := v;
     ObservationModel.component_value_string := None;
     ObservationModel.component_value_boolean := None;
     ObservationModel.component_value_integer := None;
     ObservationModel.component_value_codeable_concept := None |}.

(** A blood-pressure observation whose two readings are components;
    [readings] tells whether the components carry their quantities. *)
Definition blood_pressure (readings : bool) (stamps : nat -> string)
  : ObservationModel.Observation :=
  {| ObservationModel.observation_id := "obs-1";
     ObservationModel.status := "final";
     ObservationModel.category :=
       [{| ObservationModel.coding :=
             [[("system", "http://terminology.hl7.org/CodeSystem/observation-category");
               ("code", "vital-signs")]];
           ObservationModel.text := None |}];
     ObservationModel.code := loinc "blood-pressure" "Blood pressure panel";
     ObservationModel.subject := [("reference", "Patient/p1")];
     ObservationModel.patient_id := "p1";
     ObservationModel.encounter := None;
     ObservationModel.effective_date_time := "2024-01-15T10:30:00";
     ObservationModel.timestamp := stamps 1%nat;
     ObservationModel.issued := "2024-01-15T10:31:00";
     ObservationModel.performer := None;
     ObservationModel.value_quantity := None;
     ObservationModel.value_string := None;
     ObservationModel.value_boolean := None;
     ObservationModel.value_integer := None;
     ObservationModel.value_codeable_concept := None;
     ObservationModel.data_absent_reason := None;
     ObservationModel.interpretation := None;
     ObservationModel.note := None;
     ObservationModel.body_site := None;
     ObservationModel.method := None;
     ObservationModel.specimen := None;
     ObservationModel.device := None;
     ObservationModel.reference_range := None;
     ObservationModel.has_member := None;
     ObservationModel.derived_from := None;
     ObservationModel.component :=
       Some [pressure_component "8480-6" "Systolic"
               (if readings then Some (mmHg 120%float) else None);
             pressure_component "8462-4" "Diastolic"
               (if readings then Some (mmHg 80%float) else None)];
     ObservationModel.observation_type := "blood-pressure";
     ObservationModel.created_at := stamps 3%nat;
     ObservationModel.updated_at := stamps 4%nat |}.

(** A wire observation whose value is the boolean [false]. *)
Definition boolean_payload : list (string * pyval) :=
  [("resourceType", PStr "Observation");
   ("id", PStr "obs-2");
   ("status", PStr "final");
   ("code", PDict [("coding", PList [PDict [("system", PStr "http://loinc.org");
                                            ("code", PStr "smoker")]])]);
   ("subject", PDict [("reference", PStr "Patient/p1")]);
   ("effectiveDateTime", PStr "2024-01-15T10:30:00");
   ("valueBoolean", PBool false)].

Definition any_iso (s : string) : bool := true.

(** A well-formed resource for the validator; its value is given by the
    two arguments. *)
Definition valued_observation (b : option bool) (n : option Z) (st : option string)
  (system : option string) : Validators.Observation :=
  {| Validators.resource_type := "Observation";
     Validators.id := Some "obs-3";
     Validators.status := st;
     Validators.code :=
       Some {| Validators.coding :=
                 Some [{| Validators.coding_system := system;
                          Validators.coding_code := Some "smoker" |}] |};
     Validators.subject := Some {| Validators.reference := Some "Patient/p1" |};
     Validators.effectiveDateTime := None;
     Validators.effectivePeriod := Some Validators.element;
     Validators.valueQuantity := None;
     Validators.valueCodeableConcept := None;
     Validators.valueString := None;
     Validators.valueBoolean := b;
     Validators.valueInteger := n;
     Validators.valueRange := None;
     Validators.valueRatio := None;
     Validators.valueSampledData := None;
     Validators.valueTime := None;
     Validators.valueDateTime := None;
     Validators.valuePeriod := None;
     Validators.dataAbsentReason := None;
     Validators.component := None |}.

(** Stored observations, as the feature extractor reads them. *)
Definition heart_rate_without_timestamp : list (string * pyval) :=
  [("observation_id", PStr "obs-4");
   ("observation_type", PStr "heart-rate");
   ("value_integer", PInt 72)].

Definition heart_rate_without_value : list (string * pyval) :=
  [("observation_id", PStr "obs-5");
   ("observation_type", PStr "heart-rate");
   ("value_quantity", PDict [("unit", PStr "beats/min")]);
   ("timestamp", PStr "2024-01-15T10:30:00")].

Definition condition_observation (observation_type : string) : list (string * pyval) :=
  [("observation_id", PStr "obs-6");
   ("observation_type", PStr observation_type);
   ("timestamp", PStr "2024-01-15T10:30:00")].

(** [s] without its first [n] characters: a prefix of length [n]
    stripped. *)
Definition strip_prefix (n : nat) (s : string) : string :=
  String.substring n (String.length s - n) s.

Definition no_int (s : string) : option Z := None.

End Samples.

(** * Further code of the cited files *)

(** ** core/fhir/validators.py: [validate_patient] *)

Module PatientValidator.

(** The attributes of a [fhir.resources] Patient the validator reads. *)
Record HumanName : Type := {
  family : option string;
  given : option (list string)
}.

Record Identifier : Type := {
  system : option string;
  value : option string
}.

Record Patient : Type := {
  resource_type : string;
  id : option string;
  name : option (list HumanName);
  gender : option string;
  birthDate : option string;
  identifier : option (list Identifier)
}.

Definition valid_genders : list string := ["male"; "female"; "other"; "unknown"].

(** Lines 60-62. *)
Definition check_resource_type (patient : Patient) : list string :=
  if negb (String.eqb (resource_type patient) "Patient")
  then ["Resource type must be 'Patient'"] else [].

(** Lines 64-66. *)
Definition check_id (patient : Patient) : list string :=
  if negb (Validators.str_truthy (id patient))
  then ["Patient ID is required"] else [].









End PatientValidator.

(** ** core/fhir/validators.py: [validate_identifier] *)

Module IdentifierValidator.

(** The three patterns are sequences of bounded repetitions of a
    character class, between [^] and [$]. [\d] is taken on 8-bit
    characters, so as the ASCII digits. *)
Inductive atom : Type :=
| Digit
| Upper
| Lit (c : ascii).

Record item : Type := {
  item_atom : atom;
  item_min : nat;
  item_max : nat
}.

Definition is_upper (c : ascii) : bool :=
  let n := nat_of_ascii c in (65 <=? n)%nat && (n <=? 90)%nat.

Definition atom_ok (a : atom) (c : ascii) : bool :=
  match a with
  | Digit => Datetime.is_digit c
  | Upper => is_upper c
  | Lit l => Ascii.eqb c l
  end.

Definition newline : string := String (ascii_of_nat 10) "".

(** [$]: the end of the string, or the place before a newline that ends
    the string. *)
Definition at_end (s : string) : bool :=
  String.eqb s "" || String.eqb s newline.

(** [a{n}] followed by [k]. *)
Fixpoint match_exact (a : atom) (n : nat) (k : string -> bool) (s : string) : bool :=
  match n with
  | O => k s
  | S n' =>
      match s with
      | String c t => atom_ok a c && match_exact a n' k t
      | EmptyString => false
      end
  end.

(** [a{0,n}] followed by [k]: the longest run first, then the shorter
    ones. *)
Fixpoint match_upto (a : atom) (n : nat) (k : string -> bool) (s : string) : bool :=
  match n with
  | O => k s
  | S n' =>
      match s with
      | String c t => (atom_ok a c && match_upto a n' k t) || k s
      | EmptyString => k s
      end
  end.

(** [re.match("^" + p + "$", s)] is not [None]. *)
Fixpoint matches (p : list item) (s : string) : bool :=
  match p with
  | [] => at_end s
  | i :: p' =>
      match_exact (item_atom i) (item_min i)
        (match_upto (item_atom i) (item_max i - item_min i) (matches p')) s
  end.

Definition times (a : atom) (n : nat) : item :=
  {| item_atom := a; item_min := n; item_max := n |}.

(** [^\d{3}-\d{2}-\d{4}$] *)
Definition ssn_pattern : list item :=
  [times Digit 3; times (Lit "-") 1; times Digit 2; times (Lit "-") 1; times Digit 4].

(** [^\d{1,9}[A-Z]$] *)
Definition medicare_pattern : list item :=
  [{| item_atom := Digit; item_min := 1; item_max := 9 |}; times Upper 1].

(** [^\d{10}$] *)
Definition npi_pattern : list item := [times Digit 10].

Definition us_ssn : string := "http://hl7.org/fhir/sid/us-ssn".
Definition us_medicare : string := "http://hl7.org/fhir/sid/us-medicare".
Definition us_npi : string := "http://hl7.org/fhir/sid/us-npi".

(** [s.endswith(suffix)] *)
Definition endswith (s suffix : string) : bool :=
  let n := String.length s in
  let m := String.length suffix in
  (m <=? n)%nat && String.eqb (String.substring (n - m) m s) suffix.

(** [FHIRValidator.validate_identifier] (lines 191-221) *)
Definition validate_identifier (identifier system : string) : bool :=
  if String.eqb identifier "" then false
  else if String.eqb system us_ssn then matches ssn_pattern identifier
  else if String.eqb system us_medicare then matches medicare_pattern identifier
  else if String.eqb system us_npi then matches npi_pattern identifier
  else if endswith system "/mrn" then negb (String.eqb identifier "")
  else negb (String.eqb identifier "").

End IdentifierValidator.

(** ** api/models/prediction.py *)

Module PredictionModel.

Record PredictionInput : Type := {
  input_patient_id : string;
  observation_ids : option (list string);
  features : list (string * pyval);
  context : option (list (string * pyval))
}.

Record PredictionOutput : Type := {
  prediction : pyval;
  probability : option float;
  scores : option (list (string * float));
  explanation : option (list (string * pyval));
  thresholds : option (list (string * float))
}.

Record Prediction : Type := {
  prediction_id : string;
  model_id : string;
  model_version : string;
  patient_id : string;
  timestamp : string;
  prediction_type : string;
  input_data : PredictionInput;
  output_data : PredictionOutput;
  status : string;
  error : option string;
  metadata : option (list (string * pyval));
  created_at : string;
  updated_at : string
}.

(** [Dict[str, float]] *)
Definition v_dict_float (field : string) (v : pyval) : res (list (string * float)) :=
  match v with
  | PDict d => mapM (fun kv => bind (v_float field (snd kv)) (fun f => Ok (fst kv, f))) d
  | _ => Raise (PydanticError field)
  end.

Definition dict_float_val (d : list (string * float)) : pyval :=
  PDict (map (fun kv => (fst kv, PFloat (snd kv))) d).

(** A required keyword: the constructor refuses a call without it. *)
Definition required (kwargs : list (string * pyval)) (field : string) : res pyval :=
  match lookup field kwargs with
  | Some v => Ok v
  | None => Raise (PydanticError field)
  end.

(** Unpacking [x] into keywords: [x] has to be a mapping. *)
Definition unpack (x : pyval) : res (list (string * pyval)) :=
  match x with
  | PDict d => Ok d
  | _ => Raise TypeError
  end.

(** The constructor of [PredictionInput], called on unpacked keywords;
    keywords that are no field are ignored. *)
Definition PredictionInput_init (kwargs : list (string * pyval)) : res PredictionInput :=
  p <- required kwargs "patient_id" ;;
  p <- v_str "patient_id" p ;;
  o <- v_optional (v_list v_str) "observation_ids" (get_default kwargs "observation_ids" PNone) ;;
  f <- required kwargs "features" ;;
  f <- v_dict "features" f ;;
  c <- v_optional v_dict "context" (get_default kwargs "context" PNone) ;;
  Ok {| input_patient_id := p; observation_ids := o; features := f; context := c |}.

(** The constructor of [PredictionOutput], likewise. *)
Definition PredictionOutput_init (kwargs : list (string * pyval)) : res PredictionOutput :=
  p <- required kwargs "prediction" ;;
  pr <- v_optional v_float "probability" (get_default kwargs "probability" PNone) ;;
  s <- v_optional v_dict_float "scores" (get_default kwargs "scores" PNone) ;;
  e <- v_optional v_dict "explanation" (get_default kwargs "explanation" PNone) ;;
  t <- v_optional v_dict_float "thresholds" (get_default kwargs "thresholds" PNone) ;;
  Ok {| prediction := p; probability := pr; scores := s; explanation := e;
        thresholds := t |}.

(** [.dict()] of the two nested models *)
Definition PredictionInput_dict (i : PredictionInput) : pyval :=
  PDict [("patient_id", PStr (input_patient_id i));
         ("observation_ids", opt_val (fun l => PList (map PStr l)) (observation_ids i));
         ("features", PDict (features i));
         ("context", opt_val PDict (context i))].

Definition PredictionOutput_dict (o : PredictionOutput) : pyval :=
  PDict [("prediction", prediction o);
         ("probability", opt_val PFloat (probability o));
         ("scores", opt_val dict_float_val (scores o));
         ("explanation", opt_val PDict (explanation o));
         ("thresholds", opt_val dict_float_val (thresholds o))].

(** [Prediction.to_dict] (lines 60-76) *)
Definition to_dict (self : Prediction) : list (string * pyval) :=
  [("prediction_id", PStr (prediction_id self));
   ("model_id", PStr (model_id self));
   ("model_version", PStr (model_version self));
   ("patient_id", PStr (patient_id self));
   ("timestamp", PStr (timestamp self));
   ("prediction_type", PStr (prediction_type self));
   ("input_data", PredictionInput_dict (input_data self));
   ("output_data", PredictionOutput_dict (output_data self));
   ("status", PStr (status self));
   ("error", opt_val PStr (error self));
   ("metadata", opt_val PDict (metadata self));
   ("created_at", PStr (created_at self));
   ("updated_at", PStr (updated_at self))].

Definition valid_statuses : list string := ["pending"; "completed"; "failed"].

Definition in_list (s : string) (l : list string) : bool :=
  existsb (String.eqb s) l.

Section WithClock.

(** [datetime.fromisoformat(v)] succeeds. *)
Variable fromisoformat : string -> bool.

(** [validate_status] (lines 43-49) *)
Definition validate_status (v : string) : res string :=
  if in_list v valid_statuses then Ok v else Raise (PydanticError "status").

(** [validate_timestamp] (lines 51-58) *)
Definition validate_timestamp (v : string) : res string :=
  if fromisoformat v then Ok v else Raise (PydanticError "timestamp").

(** The constructor call [cls(...)] of [from_dict]: the fields in
    declaration order, the first failing one named. *)
Definition Prediction_init (prediction_id model_id model_version patient_id timestamp
    prediction_type : pyval) (input_data : PredictionInput) (output_data : PredictionOutput)
    (status error metadata created_at updated_at : pyval) : res Prediction :=
  pid <- v_str "prediction_id" prediction_id ;;
  mid <- v_str "model_id" model_id ;;
  mv <- v_str "model_version" model_version ;;
  pat <- v_str "patient_id" patient_id ;;
  ts <- v_str "timestamp" timestamp ;;
  ts <- validate_timestamp ts ;;
  pt <- v_str "prediction_type" prediction_type ;;
  st <- v_str "status" status ;;
  st <- validate_status st ;;
  er <- v_optional v_str "error" error ;;
  md <- v_optional v_dict "metadata" metadata ;;
  cr <- v_str "created_at" created_at ;;
  up <- v_str "updated_at" updated_at ;;
  Ok {| prediction_id := pid; model_id := mid; model_version := mv;
        patient_id := pat; timestamp := ts; prediction_type := pt;
        input_data := input_data; output_data := output_data;
        status := st; error := er; metadata := md;
        created_at := cr; updated_at := up |}.

(** [Prediction.from_dict] (lines 78-98) *)
Definition from_dict (w : World) (data : pyval) : res Prediction :=
  i <- py_get data "input_data" (PDict []) ;;
  i <- unpack i ;;
  input_data <- PredictionInput_init i ;;
  o <- py_get data "output_data" (PDict []) ;;
  o <- unpack o ;;
  output_data <- PredictionOutput_init o ;;
  prediction_id <- py_get data "prediction_id" (PStr (uuid4 w)) ;;
  model_id <- py_get data "model_id" (PStr "") ;;
  model_version <- py_get data "model_version" (PStr "") ;;
  patient_id <- py_get data "patient_id" (PStr "") ;;
  timestamp <- py_get data "timestamp" (PStr (utcnow w 0)) ;;
  prediction_type <- py_get data "prediction_type" (PStr "") ;;
  status <- py_get data "status" (PStr "completed") ;;
  error <- py_get data "error" PNone ;;
  metadata <- py_get data "metadata" PNone ;;
  created_at <- py_get data "created_at" (PStr (utcnow w 1)) ;;
  updated_at <- py_get data "updated_at" (PStr (utcnow w 2)) ;;
  Prediction_init prediction_id model_id model_version patient_id timestamp
    prediction_type input_data output_data status error metadata created_at updated_at.

End WithClock.

End PredictionModel.

(** * Notions the further properties are stated with *)

Module IdentifierNotions.

(** Every character of [s] passes [f]. *)
Fixpoint all_ok (f : ascii -> bool) (s : string) : bool :=
  match s with
  | EmptyString => true
  | String c t => f c && all_ok f t
  end.

(** [s] is made of [n] digits. *)
Definition digits (n : nat) (s : string) : Prop :=
  String.length s = n /\ all_ok Datetime.is_digit s = true.

(** What [$] lets follow: nothing, or one final newline. *)
Definition line_end (s : string) : Prop :=
  s = "" \/ s = IdentifierValidator.newline.

End IdentifierNotions.

Module PatientAcceptance.
Import PatientValidator.

(** The Patient resources that meet every rule of [validate_patient]. *)
Definition accepted (p : Patient) : Prop :=
  resource_type p = "Patient" /\
  Validators.str_truthy (id p) = true /\
  (exists n ns, name p = Some (n :: ns) /\
     forall x, In x (n :: ns) ->
       Validators.str_truthy (family x) = true /\ Validators.list_truthy (given x) = true) /\
  (exists g, gender p = Some g /\ In g valid_genders) /\
  (exists b, birthDate p = Some b /\ Datetime.strptime_ymd b <> None) /\
  (exists i rest, identifier p = Some (i :: rest) /\
     forall x, In x (i :: rest) ->
       Validators.str_truthy (system x) = true /\ Validators.str_truthy (value x) = true).

End PatientAcceptance.

Module ObservationAcceptance.
Import Validators.

(** The Observation resources that meet every rule of
    [validate_observation]; [fromiso] tells whether
    [datetime.fromisoformat] accepts a text. *)
Definition accepted (fromiso : string -> bool) (o : Observation) : Prop :=
  resource_type o = "Observation" /\
  str_truthy (id o) = true /\
  (exists s, status o = Some s /\ In s valid_statuses) /\
  (exists c x t, code o = Some c /\ coding c = Some (x :: t) /\
     forall y, In y (x :: t) ->
       str_truthy (coding_system y) = true /\ str_truthy (coding_code y) = true) /\
  (exists r s, subject o = Some r /\ reference r = Some s /\
     startswith s "Patient/" = true) /\
  ((exists s, effectiveDateTime o = Some s /\ s <> "" /\
      fromiso (replace s "Z" "+00:00") = true) \/
   (str_truthy (effectiveDateTime o) = false /\ effectivePeriod o <> None)) /\
  (has_value o = true \/ dataAbsentReason o <> None \/ list_truthy (component o) = true).

End ObservationAcceptance.

Module FeatureNotions.
Import MLHandler.

(** The readings recorded under a type, none when the type has no entry. *)
Definition bucket (t : string) (d : list (string * list reading)) : list reading :=
  match lookup t d with Some rs => rs | None => [] end.

(** The type of a stored observation, when it is a string. *)
Definition type_of (obs : list (string * pyval)) : option string :=
  match get_default obs "observation_type" (PStr "unknown") with
  | PStr t => Some t
  | _ => None
  end.

(** The reading an observation contributes to the type [t]: its numeric
    value with its timestamp, when the observation is of that type. *)
Definition reading_of (t : string) (obs : list (string * pyval)) : list reading :=
  match type_of obs with
  | Some t' =>
      if String.eqb t' t then
        match numeric_value obs, lookup "timestamp" obs with
        | Ok PNone, _ => []
        | Ok v, Some ts => [{| reading_value := v; reading_timestamp := ts |}]
        | _, _ => []
        end
      else []
  | None => []
  end.

(** The types the loop treats as lab results, conditions and
    medications: each test is reached only when the ones before it
    failed. *)
Definition is_lab (t : string) : bool :=
  negb (in_list t vital_types) && startswith t "lab-".

Definition is_condition (t : string) : bool :=
  negb (in_list t vital_types) && negb (startswith t "lab-")
  && startswith t "condition-".

Definition is_medication (t : string) : bool :=
  negb (in_list t vital_types) && negb (startswith t "lab-")
  && negb (startswith t "condition-") && startswith t "medication-".

(** A quantity the extractor can read: absent, falsy, or a dictionary
    with a [value]. *)
Definition quantity_readable (obs : list (string * pyval)) : bool :=
  match lookup "value_quantity" obs with
  | None => true
  | Some q =>
      if truthy q then match q with PDict d => mem "value" d | _ => false end
      else true
  end.

(** An observation the extractor can process: its type is a string and,
    for a vital sign or a lab result, it has a timestamp and a readable
    quantity. *)
Definition well_formed (obs : list (string * pyval)) : bool :=
  match type_of obs with
  | Some t =>
      if in_list t vital_types || startswith t "lab-"
      then mem "timestamp" obs && quantity_readable obs
      else true
  | None => false
  end.

(** What the extractor keeps true of the features it builds: no
    condition, medication or reading type is listed twice; the vital
    signs are of the five vital types and the lab results of lab types;
    every listed type has at least one reading and no reading has the
    value [None]. *)
Definition buckets_ok (f : features) : Prop :=
  NoDup (conditions f) /\ NoDup (medications f) /\
  NoDup (map fst (vital_signs f)) /\ NoDup (map fst (lab_results f)) /\
  (forall k rs, In (k, rs) (vital_signs f) ->
     In k vital_types /\ rs <> [] /\ forall r, In r rs -> reading_value r <> PNone) /\
  (forall k rs, In (k, rs) (lab_results f) ->
     is_lab k = true /\ rs <> [] /\ forall r, In r rs -> reading_value r <> PNone).

(** The text of [s] before its first [sep], all of [s] when it has none. *)
Fixpoint before (sep : ascii) (s : string) : string :=
  match s with
  | EmptyString => EmptyString
  | String c t => if Ascii.eqb c sep then EmptyString else String c (before sep t)
  end.

(** A stored observation with an integer value. *)
Definition integer_observation (observation_type : string) (n : Z) (ts : string)
  : list (string * pyval) :=
  [("observation_type", PStr observation_type);
   ("value_integer", PInt n);
   ("timestamp", PStr ts)].

(** Two heart rates, a condition and a lab result in between. *)
Definition sample_history : list (list (string * pyval)) :=
  [integer_observation "heart-rate" 72 "2024-01-15T10:30:00";
   Samples.condition_observation "condition-diabetes";
   integer_observation "lab-glucose" 105 "2024-01-15T11:00:00";
   integer_observation "heart-rate" 80 "2024-01-16T10:30:00"].

Definition born_1980 (s : string) : option Z := Some 1980%Z.

End FeatureNotions.

Module CodecNotions.
Import ObservationModel.

(** The entry of the wire format that carries a value. *)
Definition wire_value (v : any_value) : string * pyval :=
  match v with
  | VQuantity q => ("valueQuantity", Quantity_dict q)
  | VString s => ("valueString", PStr s)
  | VBoolean b => ("valueBoolean", PBool b)
  | VInteger n => ("valueInteger", PInt n)
  | VCodeableConcept c => ("valueCodeableConcept", CodeableConcept_dict c)
  end.

End CodecNotions.

Module ScoringNotions.
Import RiskPredictor.

(** A factor that names a weighted feature of positive value. *)
Definition explained (weights features : list (string * float)) (fac : factor) : Prop :=
  direction fac = "positive" /\
  In (factor_name fac, importance fac) weights /\
  exists v, lookup (factor_name fac) features = Some v /\ PrimFloat.ltb 0%float v = true.

(** The feature has a weight. *)
Definition weighted (weights : list (string * float)) (fv : string * float) : bool :=
  mem (fst fv) weights.

End ScoringNotions.

Module PredictionSamples.
Import PredictionModel.

(** A stored risk prediction. *)
Definition sample_prediction : Prediction :=
  {| prediction_id := "pred-1";
     model_id := "risk-predictor";
     model_version := "1.0.0";
     patient_id := "p1";
     timestamp := "2024-01-15T10:30:00";
     prediction_type := "risk";
     input_data :=
       {| input_patient_id := "p1";
          observation_ids := Some ["obs-1"; "obs-2"];
          features := [("conditions", PList [PStr "diabetes"])];
          context := None |};
     output_data :=
       {| prediction := PStr "low-risk";
          probability := Some 0.15%float;
          scores := Some [("low-risk", 0.75%float)];
          explanation := None;
          thresholds := Some RiskPredictor.default_thresholds |};
     status := "completed";
     error := None;
     metadata := None;
     created_at := "2024-01-15T10:30:00";
     updated_at := "2024-01-15T10:30:00" |}.

End PredictionSamples.

(** * Properties *)

(** ** The prelude *)

Module PyFacts.

Lemma bind_ok {A B} (m : res A) (k : A -> res B) (b : B) :
  bind m k = Ok b -> exists a, m = Ok a /\ k a = Ok b.
Proof.
  destruct m as [a|e]; simpl; intros H; [exists a; auto | discriminate].
Qed.

(** Splits a chain of binds that returned into its successful steps. *)
Ltac inv_binds H :=
  repeat (apply bind_ok in H; destruct H as (? & ? & H)).

Lemma getitem_ok {V} (d : list (string * V)) k v :
  getitem d k = Ok v -> lookup k d = Some v.
Proof.
  unfold getitem. destruct (lookup k d); intros H; inversion H; reflexivity.
Qed.

Lemma v_str_ok f v s : v_str f v = Ok s -> v = PStr s.
Proof. destruct v; simpl; intros H; inversion H; reflexivity. Qed.

Lemma v_bool_ok f v b : v_bool f v = Ok b -> v = PBool b.
Proof. destruct v; simpl; intros H; inversion H; reflexivity. Qed.

Lemma v_int_ok f v n : v_int f v = Ok n -> v = PInt n.
Proof. destruct v; simpl; intros H; inversion H; reflexivity. Qed.

Lemma v_optional_str_ok f v o : v_optional v_str f v = Ok o -> v = opt_val PStr o.
Proof. destruct v; simpl; intros H; inversion H; reflexivity. Qed.

Lemma v_optional_bool_ok f v o : v_optional v_bool f v = Ok o -> v = opt_val PBool o.
Proof. destruct v; simpl; intros H; inversion H; reflexivity. Qed.

Lemma v_optional_int_ok f v o : v_optional v_int f v = Ok o -> v = opt_val PInt o.
Proof. destruct v; simpl; intros H; inversion H; reflexivity. Qed.

(** A binding whose value is not [None] survives the removal of the
    [None] entries. *)
Lemma lookup_drop_none_some (d : list (string * pyval)) k v :
  lookup k d = Some v -> v <> PNone -> lookup k (drop_none d) = Some v.
Proof.
  intros H Hv. induction d as [| [k' v'] t IH]; simpl in *; [discriminate |].
  destruct (String.eqb k k') eqn:E.
  - inversion H; subst v'. destruct v; try congruence; simpl; rewrite E; reflexivity.
  - destruct v'; simpl; rewrite ?E; auto.
Qed.

(** A key bound to [None] only is absent afterwards. *)
Lemma lookup_drop_none_none (d : list (string * pyval)) k :
  (forall v, In (k, v) d -> v = PNone) -> lookup k (drop_none d) = None.
Proof.
  intros H. induction d as [| [k' v'] t IH]; simpl in *; [reflexivity |].
  assert (IH' : lookup k (drop_none t) = None) by (apply IH; intros; apply H; auto).
  destruct (String.eqb k k') eqn:E.
  - apply String.eqb_eq in E. subst k'.
    rewrite (H v') by auto. simpl. exact IH'.
  - destruct v'; simpl; rewrite ?E; exact IH'.
Qed.

Lemma lookup_drop_none_absent (d : list (string * pyval)) k :
  lookup k d = None -> lookup k (drop_none d) = None.
Proof.
  induction d as [| [k' v'] t IH]; simpl; [reflexivity |].
  destruct (String.eqb k k') eqn:E; [discriminate |].
  intros H. destruct v'; simpl; rewrite ?E; auto.
Qed.

Lemma v_dict_str_val f d : v_dict_str f (dict_str_val d) = Ok d.
Proof.
  unfold dict_str_val. simpl.
  induction d as [| [k v] t IH]; simpl; [reflexivity |].
  rewrite IH. reflexivity.
Qed.

Lemma mapM_map {A} (f : pyval -> res A) (g : A -> pyval) (l : list A) :
  (forall x, In x l -> f (g x) = Ok x) -> mapM f (map g l) = Ok l.
Proof.
  induction l as [| a t IH]; intros H; simpl; [reflexivity |].
  rewrite H by (left; reflexivity). simpl. rewrite IH; [reflexivity |].
  intros x Hx. apply H. right. exact Hx.
Qed.

Lemma mapM_forallb {A} (f : pyval -> res A) (g : A -> pyval) (ok : A -> bool) l :
  (forall x, ok x = true -> f (g x) = Ok x) ->
  forallb ok l = true -> mapM f (map g l) = Ok l.
Proof.
  intros Hf H. apply mapM_map. intros x Hx. apply Hf.
  rewrite forallb_forall in H. apply H, Hx.
Qed.

Lemma v_list_dict f l : v_list v_dict f (PList (map PDict l)) = Ok l.
Proof. simpl. apply mapM_map. reflexivity. Qed.

(** Evaluates the dictionary reads on a literal dictionary. *)
Ltac lookups :=
  cbn [py_get py_getitem py_contains py_index0 mem getitem get_default lookup
       String.eqb Ascii.eqb Bool.eqb bind truthy negb].

End PyFacts.

(** ** Risk bands *)

Module RiskPredictorFacts.
Import RiskPredictor PyFacts Samples.

Lemma risk_level_of_band th score lbl high medium :
  lookup "high-risk" th = Some high ->
  lookup "medium-risk" th = Some medium ->
  risk_level_of th score = Ok lbl ->
  lbl = band high medium score.
Proof.
  intros Hh Hm. unfold risk_level_of, getitem, band. rewrite Hh. simpl.
  destruct (PrimFloat.leb high score).
  - intros H; inversion H; reflexivity.
  - rewrite Hm. simpl. destruct (PrimFloat.leb medium score);
      intros H; inversion H; reflexivity.
Qed.

Lemma risk_scores_of_medium th score sc :
  risk_scores_of th score = Ok sc ->
  exists medium, lookup "medium-risk" th = Some medium.
Proof.
  unfold risk_scores_of. intros H.
  apply bind_ok in H. destruct H as (m & Hm & _).
  exists m. apply getitem_ok, Hm.
Qed.

Lemma risk_level_of_high th score lbl :
  risk_level_of th score = Ok lbl ->
  exists high, lookup "high-risk" th = Some high.
Proof.
  unfold risk_level_of. intros H.
  apply bind_ok in H. destruct H as (h & Hh & _).
  exists h. apply getitem_ok, Hh.
Qed.

Lemma band_cases high medium score :
  (band high medium score = "high-risk" <-> PrimFloat.leb high score = true) /\
  (band high medium score = "medium-risk" <->
     PrimFloat.leb medium score = true /\ PrimFloat.leb high score = false) /\
  (band high medium score = "low-risk" <->
     PrimFloat.leb medium score = false /\ PrimFloat.leb high score = false).
Proof.
  unfold band.
  destruct (PrimFloat.leb high score), (PrimFloat.leb medium score);
    repeat split; intros; try discriminate; try tauto;
    match goal with H : _ /\ _ |- _ => destruct H; discriminate end.
Qed.

Lemma pydiv_ok a b : PrimFloat.eqb b 0%float = false -> pydiv a b = Ok (a / b)%float.
Proof. unfold pydiv. intros ->. reflexivity. Qed.

Section Predict.

Variable patient_data : Type.
Variable extract : list (string * float) -> patient_data -> res (list (string * float)).

Lemma predict_inv self pd r :
predict patient_data extract self pd = Ok r ->
exists feats high medium,
  extract (feature_weights self) pd = Ok feats /\
  lookup "high-risk" (thresholds self) = Some high /\
  lookup "medium-risk" (thresholds self) = Some medium /\
  probability r = clamp (weighted_sum (feature_weights self) feats) /\
  prediction r = band high medium (probability r).
Proof.
unfold predict. intros H.
apply bind_ok in H. destruct H as (feats & Hf & H).
apply bind_ok in H. destruct H as (lbl & Hl & H).
apply bind_ok in H. destruct H as (sc & Hs & H).
inversion H; subst r; clear H. simpl.
destruct (risk_level_of_high _ _ _ Hl) as (high & Hh).
destruct (risk_scores_of_medium _ _ _ Hs) as (medium & Hm).
exists feats, high, medium. repeat split; auto.
eapply risk_level_of_band; eauto.
Qed.

(** C10. Whenever [predict] returns, the label is the band the clamped
  score falls in between the medium-risk and high-risk thresholds:
  high-risk iff the score reaches the high threshold, medium-risk iff
  it reaches the medium one and not the high one, low-risk otherwise.
  A predictor that differs only in other thresholds (the low-risk one)
  returns the same label and the same score; and [predict] does return
  as soon as the three thresholds are configured and none of the three
  divisors of the per-band scores is zero. *)
Theorem predict_label_by_upper_thresholds :
forall (self : predictor) (pd : patient_data),
  (forall r, predict patient_data extract self pd = Ok r ->
     exists high medium,
       lookup "high-risk" (thresholds self) = Some high /\
       lookup "medium-risk" (thresholds self) = Some medium /\
       (prediction r = "high-risk" <-> PrimFloat.leb high (probability r) = true) /\
       (prediction r = "medium-risk" <->
          PrimFloat.leb medium (probability r) = true /\
          PrimFloat.leb high (probability r) = false) /\
       (prediction r = "low-risk" <->
          PrimFloat.leb medium (probability r) = false /\
          PrimFloat.leb high (probability r) = false)) /\
  (forall self' r r',
     feature_weights self' = feature_weights self ->
     lookup "high-risk" (thresholds self') = lookup "high-risk" (thresholds self) ->
     lookup "medium-risk" (thresholds self') = lookup "medium-risk" (thresholds self) ->
     predict patient_data extract self pd = Ok r ->
     predict patient_data extract self' pd = Ok r' ->
     prediction r' = prediction r /\ probability r' = probability r) /\
  (forall feats low medium high,
     extract (feature_weights self) pd = Ok feats ->
     lookup "low-risk" (thresholds self) = Some low ->
     lookup "medium-risk" (thresholds self) = Some medium ->
     lookup "high-risk" (thresholds self) = Some high ->
     PrimFloat.eqb medium 0%float = false ->
     PrimFloat.eqb (high - low)%float 0%float = false ->
     PrimFloat.eqb (1 - medium)%float 0%float = false ->
     exists r, predict patient_data extract self pd = Ok r).
Proof.
intros self pd. split; [| split].
- intros r H.
  destruct (predict_inv _ _ _ H) as (feats & high & medium & _ & Hh & Hm & _ & Hb).
  exists high, medium. rewrite Hb.
  split; [exact Hh | split; [exact Hm | apply band_cases]].
- intros self' r r' Hw Hh Hm H H'.
  destruct (predict_inv _ _ _ H) as (f1 & h1 & m1 & Hf1 & Hh1 & Hm1 & Hp1 & Hb1).
  destruct (predict_inv _ _ _ H') as (f2 & h2 & m2 & Hf2 & Hh2 & Hm2 & Hp2 & Hb2).
  rewrite Hw in Hf2, Hp2. rewrite Hf1 in Hf2. inversion Hf2; subst f2.
  rewrite Hh, Hh1 in Hh2. rewrite Hm, Hm1 in Hm2.
  inversion Hh2; inversion Hm2; subst h2 m2.
  assert (Hp : probability r' = probability r) by congruence.
  split; [| exact Hp]. rewrite Hb1, Hb2, Hp. reflexivity.
- intros feats low medium high Hf Hl Hm Hh Z1 Z2 Z3.
  unfold predict. rewrite Hf. simpl.
  unfold risk_level_of, risk_scores_of, getitem. rewrite Hh, Hm, Hl. simpl.
  rewrite !pydiv_ok by assumption. simpl.
  destruct (PrimFloat.leb high _); simpl; [eexists; reflexivity |].
  destruct (PrimFloat.leb medium _); simpl; eexists; reflexivity.
Qed.

End Predict.

Lemma predict_label_by_upper_thresholds_witness :
  exists r, predict unit flag_diabetes default_predictor tt = Ok r /\
            prediction r = "low-risk".
Proof.
  destruct (predict_label_by_upper_thresholds unit flag_diabetes default_predictor tt)
    as (Hband & _ & Hret).
  destruct (Hret [("diabetes", 1%float)] 0.3%float 0.6%float 0.8%float)
    as (r & Hr); try reflexivity.
  exists r. split; [exact Hr |].
  destruct (Hband r Hr) as (high & medium & Hh & Hm & _ & _ & Hlow).
  apply Hlow.
  assert (Hp : probability r = 0.15%float).
  { vm_compute in Hr. inversion Hr. reflexivity. }
  vm_compute in Hh, Hm. inversion Hh; inversion Hm; subst.
  rewrite Hp. split; reflexivity.
Defined.

(** The low-risk threshold can keep [predict] from returning at all: set
    to the high-risk one, it makes the medium band's divisor zero. *)
Lemma predict_raises_on_equal_low_and_high :
  predict unit flag_diabetes flat_predictor tt = Raise ZeroDivisionError.
Proof. reflexivity. Qed.

End RiskPredictorFacts.

(** ** Patient codec *)

Module PatientFacts.
Import PatientModel PyFacts Samples.

(** The encoding of [deceased_patient] carries both keys. *)
Lemma to_fhir_emits_both_deceased_keys :
  ~ (forall p : Patient,
       mem "deceasedBoolean" (to_fhir p) && mem "deceasedDateTime" (to_fhir p) = false).
Proof.
  intros H. specialize (H deceased_patient). vm_compute in H. discriminate.
Qed.

(** C6, as the code has it. The encoding always carries the flag as
    [deceasedBoolean]; it carries [deceasedDateTime] exactly when
    [deceased_date] is set, next to the flag and not in its place. *)
Theorem to_fhir_deceased_keys :
  forall p : Patient,
    lookup "deceasedBoolean" (to_fhir p) = Some (PBool (deceased p)) /\
    lookup "deceasedDateTime" (to_fhir p) = option_map PStr (deceased_date p) /\
    (mem "deceasedBoolean" (to_fhir p) && mem "deceasedDateTime" (to_fhir p) = true
     <-> deceased_date p <> None).
Proof.
  intros p.
  assert (Hb : lookup "deceasedBoolean" (to_fhir p) = Some (PBool (deceased p))).
  { unfold to_fhir. apply lookup_drop_none_some; [reflexivity | discriminate]. }
  assert (Hd : lookup "deceasedDateTime" (to_fhir p) = option_map PStr (deceased_date p)).
  { unfold to_fhir. destruct (deceased_date p) as [d|] eqn:E; simpl option_map.
    - apply lookup_drop_none_some; [reflexivity | discriminate].
    - apply lookup_drop_none_none. intros v Hin. simpl in Hin.
      repeat (destruct Hin as [Hin | Hin];
              [inversion Hin; try reflexivity; discriminate |]).
      destruct Hin. }
  split; [exact Hb | split; [exact Hd |]].
  unfold mem. rewrite Hb, Hd. destruct (deceased_date p); simpl; split;
    intros; congruence.
Qed.

(** Turns [absent keys d = true] into one [lookup k d = None] per key. *)
Lemma negb_mem_none {V} k (d : list (string * V)) :
  negb (mem k d) = true -> lookup k d = None.
Proof. unfold mem. destruct (lookup k d); [discriminate | reflexivity]. Qed.

Ltac absent_keys H :=
  unfold absent in H; simpl forallb in H;
  repeat (apply andb_prop in H;
          let H1 := fresh "Habsent" in
          destruct H as [H1 H]; apply negb_mem_none in H1);
  clear H.

Ltac rewrite_lookups :=
  repeat match goal with
         | H : lookup ?k ?d = None |- context [lookup ?k ?d] => rewrite H
         end.

(** *** What the constructor and the decoder pass on *)

Lemma validate_birth_date_ok b b' :
  validate_birth_date b = Ok b' -> b' = b /\ Datetime.strptime_ymd b <> None.
Proof.
  unfold validate_birth_date. destruct (Datetime.strptime_ymd b); intros H; inversion H.
  split; [reflexivity | discriminate].
Qed.

Lemma validate_deceased_date_ok v b o :
  validate_deceased_date v b = Ok o -> o = v.
Proof.
  unfold validate_deceased_date.
  destruct v as [d|]; [| intros H; inversion H; reflexivity].
  destruct (Datetime.strptime_ymd d); [| discriminate].
  destruct b as [b|]; [| discriminate].
  destruct (Datetime.strptime_ymd b); [| discriminate].
  destruct (Datetime.date_ltb _ _); intros H; inversion H; reflexivity.
Qed.

Lemma Patient_init_inv kw p :
  Patient_init kw = Ok p ->
  kw_gender kw = PStr (gender p) /\
  kw_birth_date kw = PStr (birth_date p) /\
  Datetime.strptime_ymd (birth_date p) <> None /\
  kw_deceased kw = PBool (deceased p) /\
  kw_deceased_date kw = opt_val PStr (deceased_date p).
Proof.
  unfold Patient_init. intros H.
  match type of H with
  | match ?r with _ => _ end = _ => destruct r as [dd | e] eqn:Hdec
  end.
  - inv_binds H. inversion H; subst p; clear H; simpl.
    match goal with E : Ok dd = Ok _ |- _ => inversion E; subst; clear E end.
    match goal with E : bind (v_str "birth_date" _) _ = Ok _ |- _ =>
      apply bind_ok in E; destruct E as (b & Eb & Ev) end.
    apply validate_birth_date_ok in Ev. destruct Ev as (-> & Hvalid).
    apply bind_ok in Hdec. destruct Hdec as (d0 & Ed & Evd).
    apply validate_deceased_date_ok in Evd. subst d0.
    repeat split; eauto using v_str_ok, v_bool_ok, v_optional_str_ok.
  - destruct e; try (apply bind_ok in H; destruct H as (? & _ & H));
      inv_binds H; try discriminate.
    all: match goal with E : Raise _ = Ok _ |- _ => discriminate E end.
Qed.

Lemma from_fhir_inv w d p :
  from_fhir w (PDict d) = Ok p ->
  exists kw, Patient_init kw = Ok p /\
    kw_gender kw = get_default d "gender" (PStr "unknown") /\
    kw_birth_date kw = get_default d "birthDate" (PStr "") /\
    kw_deceased kw = (if mem "deceasedDateTime" d then PBool true
                      else get_default d "deceasedBoolean" (PBool false)) /\
    kw_deceased_date kw = get_default d "deceasedDateTime" PNone.
Proof.
  unfold from_fhir. intros H. inv_binds H.
  eexists. split; [exact H |]. simpl.
  repeat match goal with
         | E : py_get (PDict d) _ _ = Ok _ |- _ => simpl in E; inversion E; clear E
         | E : py_contains _ (PDict d) = Ok _ |- _ => simpl in E; inversion E; clear E
         end.
  subst.
  repeat split.
  - unfold mem in *.
    destruct (lookup "deceasedDateTime" d); [reflexivity |].
    unfold get_default.
    destruct (lookup "deceasedBoolean" d) eqn:Eb;
      match goal with E : _ = Ok ?x |- ?x = _ =>
        simpl in E; unfold getitem in E; rewrite ?Eb in E; inversion E; reflexivity end.
  - unfold mem, get_default in *.
    destruct (lookup "deceasedDateTime" d) eqn:Ed;
      match goal with E : _ = Ok ?x |- ?x = _ =>
        simpl in E; unfold getitem in E; rewrite ?Ed in E; inversion E; reflexivity end.
Qed.




(** C5. When the payload has a [deceasedDateTime], a decoded Patient has
    [deceased] set and that date as [deceased_date]; the payload's
    [deceasedBoolean] plays no part, whatever it holds; and a payload
    like the example's, with a birth date, a date of death not before it,
    any [deceasedBoolean] or none, and none of the other keys the decoder
    reads, is decoded. *)
Theorem from_fhir_deceased_date_wins :
  forall (w : World) (d : list (string * pyval)) (x : pyval),
    lookup "deceasedDateTime" d = Some x ->
    (forall p, from_fhir w (PDict d) = Ok p ->
       deceased p = true /\ opt_val PStr (deceased_date p) = x) /\
    (forall v, from_fhir w (PDict (("deceasedBoolean", v) :: d)) = from_fhir w (PDict d)) /\
    (forall b dt bd dd,
       x = PStr dt ->
       lookup "birthDate" d = Some (PStr b) ->
       absent other_patient_keys d = true ->
       Datetime.strptime_ymd b = Some bd ->
       Datetime.strptime_ymd dt = Some dd ->
       Datetime.date_ltb dd bd = false ->
       exists p, from_fhir w (PDict d) = Ok p /\
                 deceased p = true /\ deceased_date p = Some dt).
Proof.
  intros w d x Hx. split; [| split].
  - intros p H. apply from_fhir_inv in H.
    destruct H as (kw & Hinit & _ & _ & Hd & Hdd).
    apply Patient_init_inv in Hinit.
    destruct Hinit as (_ & _ & _ & Hd' & Hdd').
    unfold mem, get_default in Hd, Hdd. rewrite Hx in Hd, Hdd.
    split; [congruence |]. congruence.
  - intros v. unfold from_fhir, decode_each, first_coding_code.
    unfold py_get, py_getitem, py_contains, mem, getitem, get_default.
    cbn [lookup String.eqb Ascii.eqb Bool.eqb].
    rewrite Hx. destruct (lookup "deceasedBoolean" d); reflexivity.
  - intros b dt bd dd -> Hbd Habs Hb Hdt Hlt. absent_keys Habs.
    unfold from_fhir, decode_each, first_coding_code.
    unfold py_get, py_contains, py_getitem, mem, get_default, getitem.
    rewrite_lookups. rewrite Hbd, Hx.
    destruct (lookup "deceasedBoolean" d); simpl;
      unfold Patient_init, validate_birth_date, validate_deceased_date; simpl;
      rewrite Hb; simpl; rewrite Hdt, Hb, Hlt; simpl;
      eexists; (split; [reflexivity | split; reflexivity]).
Qed.

Lemma from_fhir_deceased_date_wins_witness :
  exists p, from_fhir sample_world (PDict patient_both_deceased_keys) = Ok p /\
            deceased p = true /\ deceased_date p = Some "2020-01-01".
Proof.
  destruct (from_fhir_deceased_date_wins sample_world patient_both_deceased_keys
              (PStr "2020-01-01") eq_refl) as (_ & _ & Hret).
  apply (Hret "1950-03-04" "2020-01-01" (1950, 3, 4)%Z (2020, 1, 1)%Z);
    reflexivity.
Defined.

(** *** Decoding an encoded Patient *)

Lemma v_list_str f l : v_list v_str f (str_list_val l) = Ok l.
Proof. unfold str_list_val. simpl. apply mapM_map. reflexivity. Qed.

Lemma v_optional_list_str f o :
  v_optional (v_list v_str) f (opt_val str_list_val o) = Ok o.
Proof.
  destruct o as [l|]; [| reflexivity].
  unfold v_optional. change (opt_val str_list_val (Some l)) with (str_list_val l).
  unfold str_list_val at 1. rewrite v_list_str. reflexivity.
Qed.

Lemma decode_name_to_fhir n : decode_name (name_to_fhir n) = Ok n.
Proof.
  destruct n as [f g p s u]. unfold decode_name, name_to_fhir. lookups.
  unfold HumanName_init. cbn [v_str bind].
  rewrite v_list_str. cbn [bind].
  rewrite !v_optional_list_str. reflexivity.
Qed.

Lemma decode_address_to_fhir a : decode_address (address_to_fhir a) = Ok a.
Proof.
  destruct a. unfold decode_address, address_to_fhir. lookups.
  unfold Address_init. rewrite v_list_str. reflexivity.
Qed.

Lemma decode_telecom_to_fhir c : decode_telecom (contact_to_fhir c) = Ok c.
Proof. destruct c as [s v u [r|]]; reflexivity. Qed.

Lemma decode_identifier_to_fhir i :
  nonempty_if_some (type i) = true -> decode_identifier (identifier_to_fhir i) = Ok i.
Proof.
  destruct i as [s v [t|] [u|]]; simpl; intros H;
    unfold decode_identifier, identifier_to_fhir, first_coding_code; simpl;
    rewrite ?H; reflexivity.
Qed.

(** X11. The Patient half of the round trip: a Patient that meets the
    invariants is decoded from its encoding, with every field as it was
    but the two timestamps of the record. *)
Lemma Patient_round_trip w p :
  patient_invariants p = true ->
  from_fhir w (PDict (to_fhir p)) = Ok (restamp_patient w p).
Proof.
  unfold patient_invariants, patient_dates_ok, restamp_patient.
  destruct p as [pid ver act ids names gen bd dec dd addr tel ms com ext cre upd].
  cbn [patient_id version active identifiers name gender birth_date deceased
       deceased_date address telecom marital_status communication extension].
  intros H. repeat (apply andb_prop in H; destruct H as [H ?]).
  assert (Hids : mapM decode_identifier (map identifier_to_fhir ids) = Ok ids).
  { eapply mapM_forallb; [| eassumption]. intros x. apply decode_identifier_to_fhir. }
  assert (Hnames : mapM decode_name (map name_to_fhir names) = Ok names).
  { apply mapM_map. intros x _. apply decode_name_to_fhir. }
  assert (Haddr : mapM decode_address (map address_to_fhir (or_empty addr))
                  = Ok (or_empty addr)).
  { apply mapM_map. intros x _. apply decode_address_to_fhir. }
  assert (Htel : mapM decode_telecom (map contact_to_fhir (or_empty tel))
                 = Ok (or_empty tel)).
  { apply mapM_map. intros x _. apply decode_telecom_to_fhir. }
  unfold to_fhir.
  cbn [patient_id version active identifiers name gender birth_date deceased
       deceased_date address telecom marital_status communication extension].
  destruct dd as [d|], ms as [m|], com as [c|], ext as [e|];
    try (destruct m as [| m0 m1]; [discriminate |]);
    cbn [opt_val truthy negb String.eqb drop_none filter snd];
    unfold from_fhir, decode_each, first_coding_code; lookups; cbn [py_iter bind];
    rewrite Hids, Hnames, Haddr, Htel; cbn [bind];
    replace (nonempty_or_none (or_empty addr)) with addr
      by (destruct addr as [[|]|]; try reflexivity; discriminate);
    replace (nonempty_or_none (or_empty tel)) with tel
      by (destruct tel as [[|]|]; try reflexivity; discriminate);
    unfold Patient_init, validate_birth_date, validate_deceased_date;
    cbn [kw_patient_id kw_version kw_active kw_identifiers kw_name kw_gender
         kw_birth_date kw_deceased kw_deceased_date kw_address kw_telecom
         kw_marital_status kw_communication kw_extension kw_created_at
         kw_updated_at v_str v_bool v_dict v_optional bind to_option];
    rewrite ?v_list_dict; cbn [bind];
    destruct (Datetime.strptime_ymd bd) as [bd'|] eqn:Ebd; try discriminate;
    cbn [bind to_option].
  all: try reflexivity.
  all: destruct (Datetime.strptime_ymd d) as [dd'|]; try discriminate.
  all: apply andb_prop in H; destruct H as [Hlt Hdec];
       apply negb_true_iff in Hlt; rewrite Ebd, Hlt; subst dec; reflexivity.
Qed.

End PatientFacts.

(** ** Observation codec *)

Module ObservationFacts.
Import ObservationModel PyFacts Samples.

Lemma Observation_init_values fromiso kw o :
  Observation_init fromiso kw = Ok o ->
  value_quantity o = raw_value_quantity (kw_values kw) /\
  raw_value_string (kw_values kw) = opt_val PStr (value_string o) /\
  raw_value_boolean (kw_values kw) = opt_val PBool (value_boolean o) /\
  raw_value_integer (kw_values kw) = opt_val PInt (value_integer o) /\
  value_codeable_concept o = raw_value_codeable_concept (kw_values kw).
Proof.
  unfold Observation_init. intros H. inv_binds H.
  inversion H; subst o; clear H; simpl.
  repeat split;
    eauto using v_optional_str_ok, v_optional_bool_ok, v_optional_int_ok.
Qed.

Lemma from_fhir_values fromiso w d o :
  from_fhir fromiso w (PDict d) = Ok o ->
  exists rv, decode_values d = Ok rv /\
    value_quantity o = raw_value_quantity rv /\
    raw_value_string rv = opt_val PStr (value_string o) /\
    raw_value_boolean rv = opt_val PBool (value_boolean o) /\
    raw_value_integer rv = opt_val PInt (value_integer o) /\
    value_codeable_concept o = raw_value_codeable_concept rv.
Proof.
  unfold from_fhir. intros H.
  do 9 (apply bind_ok in H; destruct H as (? & ? & H)).
  apply Observation_init_values in H. simpl in H.
  eexists. split; [eassumption | exact H].
Qed.

(** The chain, read off the payload's keys. *)
Lemma decode_values_chain d rv :
  decode_values d = Ok rv ->
  match lookup "valueQuantity" d with
  | Some x => exists q, decode_quantity x = Ok q /\
                rv = {| raw_value_quantity := Some q; raw_value_string := PNone;
                        raw_value_boolean := PNone; raw_value_integer := PNone;
                        raw_value_codeable_concept := None |}
  | None =>
  match lookup "valueString" d with
  | Some x => rv = {| raw_value_quantity := None; raw_value_string := x;
                      raw_value_boolean := PNone; raw_value_integer := PNone;
                      raw_value_codeable_concept := None |}
  | None =>
  match lookup "valueBoolean" d with
  | Some x => rv = {| raw_value_quantity := None; raw_value_string := PNone;
                      raw_value_boolean := x; raw_value_integer := PNone;
                      raw_value_codeable_concept := None |}
  | None =>
  match lookup "valueInteger" d with
  | Some x => rv = {| raw_value_quantity := None; raw_value_string := PNone;
                      raw_value_boolean := PNone; raw_value_integer := x;
                      raw_value_codeable_concept := None |}
  | None =>
  match lookup "valueCodeableConcept" d with
  | Some x => exists c, decode_concept x = Ok c /\
                rv = {| raw_value_quantity := None; raw_value_string := PNone;
                        raw_value_boolean := PNone; raw_value_integer := PNone;
                        raw_value_codeable_concept := Some c |}
  | None => rv = no_values
  end end end end end.
Proof.
  unfold decode_values, mem, getitem.
  destruct (lookup "valueQuantity" d) as [x|].
  { simpl. destruct (decode_quantity x) as [q|]; simpl; intros H; inversion H.
    exists q. auto. }
  destruct (lookup "valueString" d) as [x|].
  { simpl. intros H; inversion H; reflexivity. }
  destruct (lookup "valueBoolean" d) as [x|].
  { simpl. intros H; inversion H; reflexivity. }
  destruct (lookup "valueInteger" d) as [x|].
  { simpl. intros H; inversion H; reflexivity. }
  destruct (lookup "valueCodeableConcept" d) as [x|].
  { simpl. destruct (decode_concept x) as [c|]; simpl; intros H; inversion H.
    exists c. auto. }
  intros H; inversion H; reflexivity.
Qed.

Lemma opt_val_none {A} (f : A -> pyval) (o : option A) :
  (forall a, f a <> PNone) -> PNone = opt_val f o -> o = None.
Proof.
  intros Hf H. destruct o as [a|]; [| reflexivity].
  simpl in H. symmetry in H. apply Hf in H. destruct H.
Qed.

Lemma opt_val_str s o : PStr s = opt_val PStr o -> o = Some s.
Proof. destruct o; simpl; intros H; inversion H; reflexivity. Qed.

Lemma opt_val_bool b o : PBool b = opt_val PBool o -> o = Some b.
Proof. destruct o; simpl; intros H; inversion H; reflexivity. Qed.

Lemma opt_val_int n o : PInt n = opt_val PInt o -> o = Some n.
Proof. destruct o; simpl; intros H; inversion H; reflexivity. Qed.

Ltac none_fields :=
  repeat match goal with
         | H : PNone = opt_val PStr _ |- _ =>
             apply opt_val_none in H; [| intros ?; discriminate]
         | H : PNone = opt_val PBool _ |- _ =>
             apply opt_val_none in H; [| intros ?; discriminate]
         | H : PNone = opt_val PInt _ |- _ =>
             apply opt_val_none in H; [| intros ?; discriminate]
         end.

(** C3. The value of a decoded observation follows the payload's keys in
    the order valueQuantity, valueString, valueBoolean, valueInteger,
    valueCodeableConcept: the first key present sets its own field to the
    payload's value (a boolean [false] and an integer [0] included) and
    the four others are [None], whichever later keys are present too;
    with none of the five keys all five fields are [None]. The chain
    itself returns whenever no quantity or concept has to be built. *)
Theorem from_fhir_value_priority :
  forall (fromiso : string -> bool) (w : World) (d : list (string * pyval)),
    (forall o, from_fhir fromiso w (PDict d) = Ok o ->
       (forall x, lookup "valueQuantity" d = Some x ->
          exists q, decode_quantity x = Ok q /\
                    value_fields o = (Some q, None, None, None, None)) /\
       (lookup "valueQuantity" d = None ->
        forall x, lookup "valueString" d = Some x ->
          value_quantity o = None /\ value_boolean o = None /\
          value_integer o = None /\ value_codeable_concept o = None /\
          (forall s, x = PStr s -> value_string o = Some s)) /\
       (lookup "valueQuantity" d = None -> lookup "valueString" d = None ->
        forall x, lookup "valueBoolean" d = Some x ->
          value_quantity o = None /\ value_string o = None /\
          value_integer o = None /\ value_codeable_concept o = None /\
          (forall b, x = PBool b -> value_boolean o = Some b)) /\
       (lookup "valueQuantity" d = None -> lookup "valueString" d = None ->
        lookup "valueBoolean" d = None ->
        forall x, lookup "valueInteger" d = Some x ->
          value_quantity o = None /\ value_string o = None /\
          value_boolean o = None /\ value_codeable_concept o = None /\
          (forall n, x = PInt n -> value_integer o = Some n)) /\
       (lookup "valueQuantity" d = None -> lookup "valueString" d = None ->
        lookup "valueBoolean" d = None -> lookup "valueInteger" d = None ->
        forall x, lookup "valueCodeableConcept" d = Some x ->
          exists c, decode_concept x = Ok c /\
                    value_fields o = (None, None, None, None, Some c)) /\
       (lookup "valueQuantity" d = None -> lookup "valueString" d = None ->
        lookup "valueBoolean" d = None -> lookup "valueInteger" d = None ->
        lookup "valueCodeableConcept" d = None ->
          value_fields o = (None, None, None, None, None) /\ value o = None)) /\
    (mem "valueQuantity" d = false ->
     mem "valueString" d || mem "valueBoolean" d || mem "valueInteger" d
       || negb (mem "valueCodeableConcept" d) = true ->
     is_ok (decode_values d) = true).
Proof.
  intros fromiso w d. split.
  - intros o H. apply from_fhir_values in H.
    destruct H as (rv & Hrv & Hq & Hs & Hb & Hi & Hc).
    apply decode_values_chain in Hrv. unfold value_fields, value.
    split; [| split; [| split; [| split; [| split]]]].
    + intros x Hx. rewrite Hx in Hrv. destruct Hrv as (q & Hdq & ->).
      simpl in *. none_fields. exists q. split; [exact Hdq |]. congruence.
    + intros E1 x Hx. rewrite E1, Hx in Hrv. subst rv. simpl in *. none_fields.
      repeat split; auto. intros s ->. apply opt_val_str; assumption.
    + intros E1 E2 x Hx. rewrite E1, E2, Hx in Hrv. subst rv. simpl in *. none_fields.
      repeat split; auto. intros b ->. apply opt_val_bool; assumption.
    + intros E1 E2 E3 x Hx. rewrite E1, E2, E3, Hx in Hrv. subst rv. simpl in *.
      none_fields.
      repeat split; auto. intros n ->. apply opt_val_int; assumption.
    + intros E1 E2 E3 E4 x Hx. rewrite E1, E2, E3, E4, Hx in Hrv.
      destruct Hrv as (c & Hdc & ->).
      simpl in *. none_fields. exists c. split; [exact Hdc |]. congruence.
    + intros E1 E2 E3 E4 E5. rewrite E1, E2, E3, E4, E5 in Hrv. subst rv.
      simpl in *. none_fields. rewrite Hq, Hs, Hb, Hi, Hc. split; reflexivity.
  - unfold decode_values, mem, getitem.
    destruct (lookup "valueQuantity" d); [discriminate |]. intros _.
    destruct (lookup "valueString" d); [reflexivity |].
    destruct (lookup "valueBoolean" d); [reflexivity |].
    destruct (lookup "valueInteger" d); [reflexivity |].
    destruct (lookup "valueCodeableConcept" d); [discriminate | reflexivity].
Qed.

Lemma from_fhir_value_priority_witness :
  exists o, from_fhir any_iso sample_world (PDict boolean_payload) = Ok o /\
            value_boolean o = Some false /\ value_string o = None.
Proof.
  destruct (from_fhir any_iso sample_world (PDict boolean_payload)) as [o|e] eqn:E;
    [| vm_compute in E; discriminate].
  exists o. split; [reflexivity |].
  destruct (from_fhir_value_priority any_iso sample_world boolean_payload) as (H & _).
  destruct (H o E) as (_ & _ & Hb & _).
  destruct (Hb eq_refl eq_refl (PBool false) eq_refl) as (_ & Hs & _ & _ & Hv).
  split; [apply Hv; reflexivity | exact Hs].
Defined.

(** C2, at a blood-pressure observation whose readings are components.
    Its encoding is decoded, and the decoded observation is the original
    one with the quantity of each component gone: [to_fhir] writes a
    component with the field names of the model ([value_quantity]) and
    [from_fhir] looks for the wire names ([valueQuantity]). *)
Theorem from_fhir_to_fhir_drops_component_values :
  forall (fromiso : string -> bool) (w : World) (stamps : nat -> string),
    fromiso "2024-01-15T10:30:00" = true ->
    from_fhir fromiso w (PDict (to_fhir (blood_pressure true stamps)))
    = Ok (blood_pressure false (utcnow w)) /\
    component (blood_pressure false (utcnow w))
    <> component (blood_pressure true stamps).
Proof.
  intros fromiso w stamps Hiso. split.
  - unfold from_fhir, Observation_init, validate_effective_date_time. simpl.
    rewrite Hiso. reflexivity.
  - simpl. intros H. inversion H.
Qed.

Lemma from_fhir_to_fhir_drops_component_values_witness :
  from_fhir any_iso sample_world (PDict (to_fhir (blood_pressure true (utcnow sample_world))))
  = Ok (blood_pressure false (utcnow sample_world)).
Proof.
  apply (from_fhir_to_fhir_drops_component_values any_iso sample_world
           (utcnow sample_world)).
  reflexivity.
Defined.

(** *** Decoding an encoded Observation *)

Lemma decode_quantity_dict q : decode_quantity (Quantity_dict q) = Ok q.
Proof. destruct q as [v u [s|] [c|]]; reflexivity. Qed.

Lemma decode_concept_dict c : decode_concept (CodeableConcept_dict c) = Ok c.
Proof.
  destruct c as [cod t]. unfold decode_concept, CodeableConcept_dict. lookups.
  unfold CodeableConcept_init. cbn [v_list coding text].
  rewrite (mapM_map _ dict_str_val cod) by (intros; apply v_dict_str_val).
  destruct t; reflexivity.
Qed.

Lemma to_fhir_value_keys o :
  (value_count o <= 1)%nat ->
  lookup "valueQuantity" (to_fhir o) = option_map Quantity_dict (value_quantity o) /\
  lookup "valueString" (to_fhir o) = option_map PStr (value_string o) /\
  lookup "valueBoolean" (to_fhir o) = option_map PBool (value_boolean o) /\
  lookup "valueInteger" (to_fhir o) = option_map PInt (value_integer o) /\
  lookup "valueCodeableConcept" (to_fhir o)
  = option_map CodeableConcept_dict (value_codeable_concept o).
Proof.
  unfold value_count, to_fhir, value_entry.
  destruct (value_quantity o), (value_string o), (value_boolean o),
    (value_integer o), (value_codeable_concept o); simpl some_count; intros H;
    try lia; cbn [option_map];
    repeat split;
    first [ apply lookup_drop_none_some; [reflexivity | discriminate]
          | apply lookup_drop_none_absent; reflexivity ].
Qed.

Lemma CodeableConcept_init_dict cod t :
  CodeableConcept_init (PList (map dict_str_val cod)) (opt_val PStr t)
  = Ok {| coding := cod; text := t |}.
Proof.
  unfold CodeableConcept_init. cbn [v_list].
  rewrite (mapM_map _ dict_str_val cod) by (intros; apply v_dict_str_val).
  destruct t; reflexivity.
Qed.

Lemma decode_component_dict c :
  decode_component (ObservationComponent_dict c) = Ok (strip_component c).
Proof.
  unfold decode_component, ObservationComponent_dict, strip_component.
  destruct (component_code c) as [cod t].
  unfold CodeableConcept_dict. lookups.
  rewrite CodeableConcept_init_dict. cbn [bind].
  reflexivity.
Qed.

Lemma decode_concepts l :
  mapM decode_concept (map CodeableConcept_dict l) = Ok l.
Proof. apply mapM_map. intros; apply decode_concept_dict. Qed.

Lemma decode_components l :
  mapM decode_component (map ObservationComponent_dict l) = Ok (map strip_component l).
Proof.
  induction l as [| c t IH]; simpl; [reflexivity |].
  rewrite decode_component_dict. simpl. rewrite IH. reflexivity.
Qed.

Lemma v_optional_dict_str f o :
  v_optional v_dict_str f (opt_val dict_str_val o) = Ok o.
Proof.
  destruct o as [d|]; [| reflexivity].
  unfold v_optional. cbn [opt_val]. unfold dict_str_val at 1.
  rewrite v_dict_str_val. reflexivity.
Qed.

Lemma v_optional_dict_list f o :
  v_optional (v_list v_dict_str) f (opt_val dict_list_val o) = Ok o.
Proof.
  destruct o as [l|]; [| reflexivity].
  cbn [opt_val]. unfold dict_list_val. cbn [v_optional v_list].
  rewrite (mapM_map _ dict_str_val l) by (intros; apply v_dict_str_val).
  reflexivity.
Qed.

Lemma v_optional_dicts f o :
  v_optional (v_list v_dict) f (opt_val (fun l => PList (map PDict l)) o) = Ok o.
Proof.
  destruct o as [l|]; [| reflexivity].
  unfold v_optional. cbn [opt_val]. rewrite v_list_dict. reflexivity.
Qed.

Lemma value_entry_keys o k v :
  In (k, v) (value_entry o) -> In k value_keys.
Proof.
  unfold value_entry, value_keys.
  destruct (value_quantity o), (value_string o), (value_boolean o),
    (value_integer o), (value_codeable_concept o); simpl;
    intros H; try (destruct H as [H | []]; inversion H; auto 6); destruct H.
Qed.

(** Reading a key of the encoding. *)
Ltac not_bound Hin :=
  repeat (destruct Hin as [Hin | Hin];
          [inversion Hin; try reflexivity; discriminate |]);
  try destruct Hin.

Ltac key_none :=
  apply lookup_drop_none_none;
  let v := fresh "v" in
  let Hin := fresh "Hin" in
  intros v Hin; apply in_app_or in Hin; destruct Hin as [Hin | Hin];
  [ simpl in Hin; not_bound Hin
  | apply value_entry_keys in Hin; simpl in Hin; not_bound Hin ].

Ltac key_some := apply lookup_drop_none_some; [reflexivity | discriminate].

Lemma to_fhir_optional_keys o :
  lookup "encounter" (to_fhir o) = option_map dict_str_val (encounter o) /\
  lookup "performer" (to_fhir o) = option_map dict_list_val (performer o) /\
  lookup "dataAbsentReason" (to_fhir o)
  = option_map CodeableConcept_dict (data_absent_reason o) /\
  lookup "note" (to_fhir o) = option_map dict_list_val (note o) /\
  lookup "bodySite" (to_fhir o) = option_map CodeableConcept_dict (body_site o) /\
  lookup "method" (to_fhir o) = option_map CodeableConcept_dict (method o) /\
  lookup "specimen" (to_fhir o) = option_map dict_str_val (specimen o) /\
  lookup "device" (to_fhir o) = option_map dict_str_val (device o) /\
  lookup "referenceRange" (to_fhir o)
  = option_map (fun l => PList (map PDict l)) (reference_range o) /\
  lookup "hasMember" (to_fhir o) = option_map dict_list_val (has_member o) /\
  lookup "derivedFrom" (to_fhir o) = option_map dict_list_val (derived_from o).
Proof.
  unfold to_fhir. repeat split.
  all: match goal with |- _ = option_map _ ?x => destruct x eqn:E end;
       cbn [option_map]; [key_some | key_none].
Qed.

Lemma to_fhir_required_keys o :
  lookup "id" (to_fhir o) = Some (PStr (observation_id o)) /\
  lookup "status" (to_fhir o) = Some (PStr (status o)) /\
  lookup "category" (to_fhir o) = Some (PList (map CodeableConcept_dict (category o))) /\
  lookup "code" (to_fhir o) = Some (CodeableConcept_dict (code o)) /\
  lookup "subject" (to_fhir o) = Some (dict_str_val (subject o)) /\
  lookup "effectiveDateTime" (to_fhir o) = Some (PStr (effective_date_time o)) /\
  lookup "issued" (to_fhir o) = Some (PStr (issued o)).
Proof. unfold to_fhir. repeat split; key_some. Qed.

Lemma to_fhir_list_keys o :
  lookup "interpretation" (to_fhir o) = list_entry CodeableConcept_dict (interpretation o) /\
  lookup "component" (to_fhir o) = list_entry ObservationComponent_dict (component o).
Proof.
  unfold to_fhir, list_entry. split.
  - destruct (interpretation o) as [[| x t]|] eqn:E; [key_none | key_some | key_none].
  - destruct (component o) as [[| x t]|] eqn:E; [key_none | key_some | key_none].
Qed.

Section Reads.

Variable d : list (string * pyval).

Lemma get_default_some k v default :
  lookup k d = Some v -> get_default d k default = v.
Proof. unfold get_default. intros ->. reflexivity. Qed.

Lemma get_default_opt {A} k (f : A -> pyval) x :
  lookup k d = option_map f x -> get_default d k PNone = opt_val f x.
Proof. unfold get_default. intros ->. destruct x; reflexivity. Qed.

Lemma decode_each_some {B} k (f : pyval -> res B) l :
  lookup k d = Some (PList l) -> decode_each f d k = mapM f l.
Proof. unfold decode_each, get_default. intros ->. reflexivity. Qed.

Lemma decode_each_entry {A B} k (f : pyval -> res B) (g : A -> pyval) (h : A -> B) x :
  lookup k d = list_entry g x ->
  (forall l, mapM f (map g l) = Ok (map h l)) ->
  decode_each f d k = Ok (map h (match x with Some l => l | None => [] end)).
Proof.
  unfold decode_each, get_default. intros -> Hf.
  destruct x as [[| a t]|]; cbn [list_entry py_iter bind]; try reflexivity.
  apply Hf.
Qed.

Lemma decode_if_present_opt k x :
  lookup k d = option_map CodeableConcept_dict x ->
  decode_if_present decode_concept d k = Ok x.
Proof.
  unfold decode_if_present. intros ->. destruct x as [c|]; [| reflexivity].
  cbn [option_map]. rewrite decode_concept_dict. reflexivity.
Qed.

End Reads.

Lemma decode_values_to_fhir o :
  (value_count o <= 1)%nat ->
  decode_values (to_fhir o)
  = Ok {| raw_value_quantity := value_quantity o;
          raw_value_string := opt_val PStr (value_string o);
          raw_value_boolean := opt_val PBool (value_boolean o);
          raw_value_integer := opt_val PInt (value_integer o);
          raw_value_codeable_concept := value_codeable_concept o |}.
Proof.
  intros H. destruct (to_fhir_value_keys o H) as (Hq & Hs & Hb & Hi & Hc).
  unfold decode_values, mem, getitem. rewrite Hq, Hs, Hb, Hi, Hc.
  unfold value_count in H.
  destruct (value_quantity o) as [q|], (value_string o), (value_boolean o),
    (value_integer o), (value_codeable_concept o) as [c|];
    simpl some_count in H; try lia; cbn [option_map bind opt_val];
    rewrite ?decode_quantity_dict, ?decode_concept_dict; reflexivity.
Qed.

Lemma nonempty_map {A B} (h : A -> B) (x : option (list A)) :
  not_empty_list x = true ->
  nonempty_or_none (map h (match x with Some l => l | None => [] end))
  = option_map (map h) x.
Proof. destruct x as [[| a t]|]; intros H; try discriminate; reflexivity. Qed.

Lemma option_map_map_id {A} (x : option (list A)) :
  option_map (map (fun c => c)) x = x.
Proof. destruct x; simpl; rewrite ?map_id; reflexivity. Qed.

(** X13. The Observation half of the round trip: an Observation that meets
    the invariants is decoded from its encoding, with every field as it
    was but the three timestamps of the record and the values of its
    components, which are gone. *)
Lemma Observation_round_trip fromiso w o :
  observation_invariants fromiso o = true ->
  from_fhir fromiso w (PDict (to_fhir o)) = Ok (decoded_encoding w o).
Proof.
  unfold observation_invariants. intros H.
  repeat (apply andb_prop in H; destruct H as [H ?]).
  destruct (to_fhir_required_keys o) as (Kid & Kst & Kcat & Kcode & Ksub & Keff & Kiss).
  destruct (to_fhir_optional_keys o)
    as (Kenc & Kper & Kdar & Knote & Kbs & Kme & Kspe & Kdev & Krr & Khm & Kdf).
  destruct (to_fhir_list_keys o) as (Kint & Kcomp).
  assert (Kval := decode_values_to_fhir o).
  set (d := to_fhir o) in *. clearbody d.
  unfold from_fhir.
  rewrite (decode_each_some d _ _ _ Kcat), decode_concepts. cbn [bind].
  rewrite (get_default_some d _ _ _ Kcode), decode_concept_dict. cbn [bind].
  rewrite (get_default_some d _ _ _ Ksub).
  destruct (decode_patient_id (dict_str_val (subject o))) as [i|]; [| discriminate].
  match goal with E : String.eqb i _ = true |- _ => apply String.eqb_eq in E; subst i end.
  cbn [bind].
  rewrite Kval by (apply Nat.leb_le; assumption). cbn [bind].
  rewrite (decode_each_entry d _ _ _ strip_component _ Kcomp decode_components).
  cbn [bind].
  rewrite (decode_if_present_opt d _ _ Kdar). cbn [bind].
  rewrite (decode_each_entry d _ _ _ (fun c => c) _ Kint)
    by (intros l; rewrite decode_concepts, map_id; reflexivity).
  cbn [bind].
  rewrite (decode_if_present_opt d _ _ Kbs), (decode_if_present_opt d _ _ Kme).
  cbn [bind].
  rewrite !nonempty_map by assumption. rewrite option_map_map_id.
  rewrite (get_default_some d _ _ _ Kid), (get_default_some d _ _ _ Kst),
    (get_default_some d _ _ _ Keff), (get_default_some d _ _ _ Kiss).
  rewrite (get_default_opt d _ _ _ Kenc), (get_default_opt d _ _ _ Kper),
    (get_default_opt d _ _ _ Knote), (get_default_opt d _ _ _ Kspe),
    (get_default_opt d _ _ _ Kdev), (get_default_opt d _ _ _ Krr),
    (get_default_opt d _ _ _ Khm), (get_default_opt d _ _ _ Kdf).
  unfold Observation_init, validate_status, validate_effective_date_time.
  cbn [kw_observation_id kw_status kw_category kw_code kw_subject kw_patient_id
       kw_encounter kw_effective_date_time kw_timestamp kw_issued kw_performer
       kw_values kw_data_absent_reason kw_interpretation kw_note kw_body_site
       kw_method kw_specimen kw_device kw_reference_range kw_has_member
       kw_derived_from kw_component kw_observation_type kw_created_at
       kw_updated_at raw_value_quantity raw_value_string raw_value_boolean
       raw_value_integer raw_value_codeable_concept v_str bind].
  rewrite H, H5. cbn [bind].
  rewrite v_dict_str_val. cbn [bind].
  rewrite !v_optional_dict_str, !v_optional_dict_list, v_optional_dicts.
  cbn [bind].
  replace (v_optional v_str "value_string" (opt_val PStr (value_string o)))
    with (Ok (value_string o)) by (destruct (value_string o); reflexivity).
  replace (v_optional v_bool "value_boolean" (opt_val PBool (value_boolean o)))
    with (Ok (value_boolean o)) by (destruct (value_boolean o); reflexivity).
  replace (v_optional v_int "value_integer" (opt_val PInt (value_integer o)))
    with (Ok (value_integer o)) by (destruct (value_integer o); reflexivity).
  cbn [bind].
  apply String.eqb_eq in H2. rewrite H2. reflexivity.
Qed.

End ObservationFacts.

(** ** Validator *)

Module ValidatorFacts.
Import Validators PyFacts Samples.

Section Rules.

Variable fromiso : string -> bool.


Lemma check_coding_messages c e :
In e (check_coding c) ->
e = "Observation code coding must have a system" \/
e = "Observation code coding must have a code".
Proof.
unfold check_coding.
destruct (negb (str_truthy (coding_system c))),
         (negb (str_truthy (coding_code c))); simpl; intuition.
Qed.

Lemma value_violation_not_in_code obs : ~ In value_violation (check_code obs).
Proof.
unfold check_code. intros H.
destruct (code obs) as [c|]; [| simpl in H; intuition discriminate].
destruct (coding c) as [[| x t]|]; try (simpl in H; intuition discriminate).
apply in_flat_map in H. destruct H as (y & _ & Hy).
apply check_coding_messages in Hy. destruct Hy; discriminate.
Qed.

(** What the value rule of the code decides: the violation is reported
  exactly when no value attribute is truthy, there is no
  dataAbsentReason and the component list is missing or empty. *)
Lemma value_violation_iff obs :
In value_violation (observation_errors fromiso obs) <->
has_value obs = false /\ dataAbsentReason obs = None /\
list_truthy (component obs) = false.
Proof.
unfold observation_errors. rewrite !in_app_iff. split.
- intros [H | [H | [H | [H | [H | [H | H]]]]]].
  + unfold check_resource_type in H.
    destruct (negb _); simpl in H; intuition discriminate.
  + unfold check_id in H. destruct (negb _); simpl in H; intuition discriminate.
  + unfold check_status in H. destruct (status obs) as [s|].
    * destruct (String.eqb s ""); [simpl in H; intuition discriminate |].
      destruct (negb _); simpl in H; intuition discriminate.
    * simpl in H; intuition discriminate.
  + exfalso. eapply value_violation_not_in_code; eauto.
  + unfold check_subject in H. destruct (subject obs) as [r|].
    * destruct (negb (str_truthy (reference r)));
        [simpl in H; intuition discriminate |].
      destruct (reference r) as [x|]; [| destruct H].
      destruct (negb _); simpl in H; intuition discriminate.
    * simpl in H; intuition discriminate.
  + unfold check_effective in H.
    destruct (negb (str_truthy (effectiveDateTime obs)) && _);
      [simpl in H; intuition discriminate |].
    destruct (effectiveDateTime obs) as [x|]; [| destruct H].
    destruct (negb (String.eqb x "")); [| destruct H].
    destruct (fromiso _); simpl in H; intuition discriminate.
  + unfold check_value, has_data_absent_reason, has_component, elem_truthy in H.
    destruct (has_value obs); [destruct H |].
    destruct (dataAbsentReason obs); [destruct H |].
    destruct (list_truthy (component obs)); [destruct H | auto].
- intros (Hv & Hd & Hc). do 6 right.
  unfold check_value, has_data_absent_reason, has_component, elem_truthy.
  rewrite Hv, Hd, Hc. simpl. auto.
Qed.


End Rules.


(** C1, at an observation that meets every other rule and whose only
    value is the boolean [False], and at one whose only value is the
    integer [0]: both are refused, with the value-presence violation as
    the single entry. The rule tests the truth value of [valueBoolean] and
    [valueInteger] where it tests [dataAbsentReason] against [None]. *)
Theorem validate_observation_rejects_false_and_zero :
  forall fromiso : string -> bool,
    validate_observation fromiso
      (valued_observation (Some false) None (Some "final") (Some "http://loinc.org"))
    = Raise (ValidationError "Observation validation failed" [value_violation]) /\
    validate_observation fromiso
      (valued_observation None (Some 0%Z) (Some "final") (Some "http://loinc.org"))
    = Raise (ValidationError "Observation validation failed" [value_violation]) /\
    validate_observation fromiso
      (valued_observation (Some true) None (Some "final") (Some "http://loinc.org"))
    = Ok tt.
Proof.
  intros fromiso. repeat split; reflexivity.
Qed.

End ValidatorFacts.

(** ** Feature extraction *)

Module MLHandlerFacts.
Import MLHandler PyFacts Samples.

(** Where one observation goes, by its type alone. *)
Lemma step_routing f obs t f' :
  get_default obs "observation_type" (PStr "unknown") = PStr t ->
  step f obs = Ok f' ->
  demo f' = demo f /\
  if in_list t vital_types then
    lab_results f' = lab_results f /\ conditions f' = conditions f /\
    medications f' = medications f
  else if startswith t "lab-" then
    vital_signs f' = vital_signs f /\ conditions f' = conditions f /\
    medications f' = medications f
  else if startswith t "condition-" then
    vital_signs f' = vital_signs f /\ lab_results f' = lab_results f /\
    medications f' = medications f /\
    conditions f' = append_new (replace t "condition-" "") (conditions f)
  else if startswith t "medication-" then
    vital_signs f' = vital_signs f /\ lab_results f' = lab_results f /\
    conditions f' = conditions f /\
    medications f' = append_new (replace t "medication-" "") (medications f)
  else f' = f.
Proof.
  unfold step. intros ->.
  destruct (in_list t vital_types).
  { intros H. apply bind_ok in H. destruct H as (v & _ & H).
    inversion H; subst f'; simpl; auto. }
  destruct (startswith t "lab-").
  { intros H. apply bind_ok in H. destruct H as (v & _ & H).
    inversion H; subst f'; simpl; auto. }
  destruct (startswith t "condition-").
  { intros H. inversion H; subst f'; simpl; auto. }
  destruct (startswith t "medication-").
  { intros H. inversion H; subst f'; simpl; auto. }
  intros H. inversion H; subst f'; auto.
Qed.

(** The example of the specification: a [condition-diabetes] observation
    adds [diabetes] to the conditions and leaves the other buckets. *)
Lemma step_condition_diabetes f obs :
  get_default obs "observation_type" (PStr "unknown") = PStr "condition-diabetes" ->
  exists f', step f obs = Ok f' /\
    In "diabetes" (conditions f') /\
    lab_results f' = lab_results f /\ vital_signs f' = vital_signs f /\
    medications f' = medications f.
Proof.
  intros H. unfold step. rewrite H. simpl.
  eexists. split; [reflexivity |]. simpl. repeat split.
  unfold append_new. change (replace "condition-diabetes" "condition-" "") with "diabetes".
  destruct (in_list "diabetes" (conditions f)) eqn:E.
  - unfold in_list in E. apply existsb_exists in E. destruct E as (x & Hin & Hx).
    apply String.eqb_eq in Hx. subst x. exact Hin.
  - apply in_or_app. right. simpl. auto.
Qed.

(** C8, at a condition whose name contains the text of the prefix again:
    the extractor records the type with every [condition-] taken out,
    not the type with its prefix stripped. *)
Theorem extract_features_condition_not_prefix_stripped :
  forall (py_int : string -> option Z) (current_year : Z),
  exists f,
    extract_features py_int current_year []
      [condition_observation "condition-skin-condition-eczema"] = Ok f /\
    conditions f = ["skin-eczema"] /\
    strip_prefix 10 "condition-skin-condition-eczema" = "skin-condition-eczema" /\
    lab_results f = [].
Proof.
  intros py_int current_year. eexists. split; [reflexivity |].
  repeat split.
Qed.

(** C9, at a heart-rate observation that has its value and no
    [timestamp], and at one whose quantity has no [value]: the extractor
    raises [KeyError], for any patient. *)
Theorem extract_features_raises_on_missing_timestamp :
  forall (py_int : string -> option Z) (current_year : Z)
         (patient : list (string * pyval)),
    extract_features py_int current_year patient [heart_rate_without_timestamp]
    = Raise (KeyError "timestamp") /\
    extract_features py_int current_year patient [heart_rate_without_value]
    = Raise (KeyError "value").
Proof.
  intros py_int current_year patient. split; reflexivity.
Qed.

(** The patient alone never makes the extraction fail: without
    observations the demographics are returned, a missing [birth_date]
    giving no age. *)
Lemma extract_features_patient_only py_int current_year patient :
  exists f, extract_features py_int current_year patient [] = Ok f /\
    (lookup "birth_date" patient = None -> age (demo f) = None).
Proof.
  eexists. split; [reflexivity |]. simpl. intros H.
  unfold get_default. rewrite H. reflexivity.
Qed.

End MLHandlerFacts.

(** * Further properties *)

(** ** validate_identifier *)

Module IdentifierFacts.
Import PyFacts IdentifierValidator IdentifierNotions.

Lemma at_end_spec s : at_end s = true <-> line_end s.
Proof.
  unfold at_end, line_end. rewrite orb_true_iff, !String.eqb_eq. reflexivity.
Qed.

Lemma match_exact_spec a n k s :
  match_exact a n k s = true <->
  exists pre rest, s = pre ++ rest /\ String.length pre = n /\
                   all_ok (atom_ok a) pre = true /\ k rest = true.
Proof.
  revert s. induction n as [| n IH]; intros s; simpl.
  - split.
    + intros H. exists "", s. auto.
    + intros (pre & rest & -> & Hl & _ & Hk).
      destruct pre; [exact Hk | discriminate].
  - destruct s as [| c t].
    + split; [discriminate |].
      intros (pre & rest & E & Hl & _). destruct pre; discriminate.
    + rewrite andb_true_iff, IH. split.
      * intros (Hc & pre & rest & -> & Hl & Ha & Hk).
        exists (String c pre), rest. simpl. rewrite Hc, Ha, Hl. auto.
      * intros (pre & rest & E & Hl & Ha & Hk).
        destruct pre as [| c' pre']; [discriminate |].
        simpl in E, Hl, Ha. inversion E; subst c' t.
        apply andb_true_iff in Ha. destruct Ha as [Hc Ha].
        split; [exact Hc |]. exists pre', rest. auto.
Qed.

Lemma match_upto_spec a n k s :
  match_upto a n k s = true <->
  exists pre rest, s = pre ++ rest /\ (String.length pre <= n)%nat /\
                   all_ok (atom_ok a) pre = true /\ k rest = true.
Proof.
  revert s. induction n as [| n IH]; intros s; simpl.
  - split.
    + intros H. exists "", s. auto.
    + intros (pre & rest & -> & Hl & _ & Hk).
      destruct pre; [exact Hk | simpl in Hl; lia].
  - assert (Hk0 : k s = true ->
              exists pre rest, s = pre ++ rest /\ (String.length pre <= S n)%nat /\
                               all_ok (atom_ok a) pre = true /\ k rest = true).
    { intros H. exists "", s. simpl. repeat split; auto. lia. }
    destruct s as [| c t].
    + split; [exact Hk0 |].
      intros (pre & rest & E & _ & _ & Hk).
      destruct pre; [simpl in E; subst rest; exact Hk | discriminate].
    + rewrite orb_true_iff, andb_true_iff, IH. split.
      * intros [(Hc & pre & rest & -> & Hl & Ha & Hk) | H]; [| auto].
        exists (String c pre), rest. simpl. rewrite Hc, Ha.
        repeat split; auto. lia.
      * intros (pre & rest & E & Hl & Ha & Hk).
        destruct pre as [| c' pre'].
        -- right. simpl in E. subst rest. exact Hk.
        -- left. simpl in E, Hl, Ha. inversion E; subst c' t.
           apply andb_true_iff in Ha. destruct Ha as [Hc Ha].
           split; [exact Hc |]. exists pre', rest. repeat split; auto. lia.
Qed.

Lemma lit_one c pre :
  String.length pre = 1%nat -> all_ok (atom_ok (Lit c)) pre = true -> pre = String c "".
Proof.
  destruct pre as [| c' [| ? ?]]; try discriminate. simpl. intros _ H.
  rewrite andb_true_r in H. apply Ascii.eqb_eq in H. subst. reflexivity.
Qed.

Lemma append_assoc (a b c : string) : (a ++ b) ++ c = a ++ b ++ c.
Proof. induction a; simpl; [reflexivity | rewrite IHa; reflexivity]. Qed.

Lemma length_append (a b : string) :
  String.length (a ++ b) = (String.length a + String.length b)%nat.
Proof. induction a; simpl; [reflexivity | rewrite IHa; reflexivity]. Qed.

Lemma not_empty_digits n a rest :
  digits (S n) a -> String.eqb (a ++ rest) "" = false.
Proof. intros [Hl _]. destruct a; [discriminate | reflexivity]. Qed.

(** X1. What [validate_identifier] accepts. A social security number is
    three digits, two digits and four digits with a dash between them; a
    provider identifier is ten digits; a Medicare number is one to nine
    digits and a capital letter; each may be followed by one newline,
    which [$] lets through. For any other system, the [/mrn] ones
    included, every identifier but the empty one is accepted. *)
Theorem validate_identifier_shapes :
  forall identifier : string,
    (validate_identifier identifier us_ssn = true <->
     exists a b c nl,
       identifier = a ++ "-" ++ b ++ "-" ++ c ++ nl /\
       digits 3 a /\ digits 2 b /\ digits 4 c /\ line_end nl) /\
    (validate_identifier identifier us_npi = true <->
     exists a nl, identifier = a ++ nl /\ digits 10 a /\ line_end nl) /\
    (validate_identifier identifier us_medicare = true <->
     exists a u nl,
       identifier = a ++ String u nl /\
       (1 <= String.length a <= 9)%nat /\ all_ok Datetime.is_digit a = true /\
       is_upper u = true /\ line_end nl) /\
    (forall system : string,
       system <> us_ssn -> system <> us_medicare -> system <> us_npi ->
       validate_identifier identifier system = negb (String.eqb identifier "")).
Proof.
  intros identifier. unfold validate_identifier.
  change (String.eqb us_ssn us_ssn) with true.
  change (String.eqb us_npi us_ssn) with false.
  change (String.eqb us_npi us_medicare) with false.
  change (String.eqb us_npi us_npi) with true.
  change (String.eqb us_medicare us_ssn) with false.
  change (String.eqb us_medicare us_medicare) with true.
  cbv iota.
  split; [| split; [| split]].
  - cbn [matches ssn_pattern times item_atom item_min item_max Nat.sub match_upto].
    split.
    + destruct (String.eqb identifier ""); [discriminate |]. intros H.
      apply match_exact_spec in H. destruct H as (a & r1 & -> & La & Da & H).
      apply match_exact_spec in H. destruct H as (d1 & r2 & -> & L1 & D1 & H).
      apply match_exact_spec in H. destruct H as (b & r3 & -> & Lb & Db & H).
      apply match_exact_spec in H. destruct H as (d2 & r4 & -> & L2 & D2 & H).
      apply match_exact_spec in H. destruct H as (c & nl & -> & Lc & Dc & H).
      apply at_end_spec in H.
      rewrite (lit_one _ _ L1 D1), (lit_one _ _ L2 D2).
      exists a, b, c, nl. unfold digits. cbn [atom_ok] in *. auto 10.
    + intros (a & b & c & nl & -> & [La Da] & [Lb Db] & [Lc Dc] & Hnl).
      rewrite (not_empty_digits 2 a) by (split; assumption).
      apply match_exact_spec. exists a, ("-" ++ b ++ "-" ++ c ++ nl).
      repeat split; auto.
      apply match_exact_spec. exists "-", (b ++ "-" ++ c ++ nl).
      repeat split; auto.
      apply match_exact_spec. exists b, ("-" ++ c ++ nl).
      repeat split; auto.
      apply match_exact_spec. exists "-", (c ++ nl).
      repeat split; auto.
      apply match_exact_spec. exists c, nl.
      repeat split; auto. apply at_end_spec. exact Hnl.
  - cbn [matches npi_pattern times item_atom item_min item_max Nat.sub match_upto].
    split.
    + destruct (String.eqb identifier ""); [discriminate |]. intros H.
      apply match_exact_spec in H. destruct H as (a & nl & -> & La & Da & H).
      apply at_end_spec in H. exists a, nl. unfold digits. auto.
    + intros (a & nl & -> & [La Da] & Hnl).
      rewrite (not_empty_digits 9 a) by (split; assumption).
      apply match_exact_spec. exists a, nl. repeat split; auto.
      apply at_end_spec. exact Hnl.
  - cbn [matches medicare_pattern times item_atom item_min item_max Nat.sub].
    split.
    + destruct (String.eqb identifier ""); [discriminate |]. intros H.
      apply match_exact_spec in H. destruct H as (a1 & r1 & -> & L1 & D1 & H).
      apply match_upto_spec in H. destruct H as (a2 & r2 & -> & L2 & D2 & H).
      apply match_exact_spec in H. destruct H as (u & nl & -> & Lu & Du & H).
      apply at_end_spec in H.
      destruct u as [| u [| ? ?]]; try discriminate.
      simpl in Du. rewrite andb_true_r in Du.
      exists (a1 ++ a2), u, nl. rewrite append_assoc.
      repeat split; auto.
      * rewrite length_append. lia.
      * rewrite length_append. lia.
      * clear - D1 D2. induction a1; simpl in *; [exact D2 |].
        apply andb_true_iff in D1. destruct D1 as [-> D1]. simpl. auto.
    + intros (a & u & nl & -> & [Lmin Lmax] & Da & Hu & Hnl).
      destruct a as [| c a]; [simpl in Lmin; lia |].
      cbn [String.append String.eqb].
      simpl in Da. apply andb_true_iff in Da. destruct Da as [Hc Da].
      apply match_exact_spec. exists (String c ""), (a ++ String u nl).
      cbn [String.append String.length all_ok atom_ok]. rewrite Hc.
      split; [reflexivity | split; [reflexivity | split; [reflexivity |]]].
      apply match_upto_spec. exists a, (String u nl).
      cbn [String.length] in Lmax.
      split; [reflexivity | split; [lia | split; [exact Da |]]].
      apply match_exact_spec. exists (String u ""), nl.
      cbn [String.append String.length all_ok atom_ok]. rewrite Hu.
      split; [reflexivity | split; [reflexivity | split; [reflexivity |]]].
      apply at_end_spec. exact Hnl.
  - intros system H1 H2 H3.
    destruct (String.eqb identifier ""); [reflexivity |].
    apply String.eqb_neq in H1, H2, H3. rewrite H1, H2, H3.
    destruct (endswith system "/mrn"); reflexivity.
Qed.

End IdentifierFacts.

(** ** validate_patient and validate_observation *)

Module AcceptanceLemmas.




End AcceptanceLemmas.

Module PatientValidatorFacts.
Import PyFacts PatientValidator PatientAcceptance AcceptanceLemmas.




End PatientValidatorFacts.

Module ObservationValidatorFacts.
Import PyFacts Validators ObservationAcceptance AcceptanceLemmas.

Section Rules.
Variable fromiso : string -> bool.



End Rules.

End ObservationValidatorFacts.

(** ** api/models/prediction.py *)

Module PredictionFacts.
Import PyFacts PredictionModel Samples PredictionSamples.

Lemma v_dict_float_val f d : v_dict_float f (dict_float_val d) = Ok d.
Proof.
  unfold dict_float_val. simpl.
  induction d as [| [k v] t IH]; simpl; [reflexivity |].
  rewrite IH. reflexivity.
Qed.

Lemma v_optional_dict_float f o :
  v_optional v_dict_float f (opt_val dict_float_val o) = Ok o.
Proof.
  destruct o as [d|]; [| reflexivity].
  cbn [opt_val]. unfold dict_float_val at 1. cbn [v_optional].
  fold (dict_float_val d). rewrite v_dict_float_val. reflexivity.
Qed.

Lemma v_optional_str_list f o :
  v_optional (v_list v_str) f (opt_val (fun l => PList (map PStr l)) o) = Ok o.
Proof.
  destruct o as [l|]; [| reflexivity].
  cbn [opt_val v_optional v_list].
  rewrite (mapM_map _ PStr l) by reflexivity. reflexivity.
Qed.

Lemma PredictionInput_round_trip i :
  bind (unpack (PredictionInput_dict i)) PredictionInput_init = Ok i.
Proof.
  destruct i as [p o f c]. unfold PredictionInput_dict. cbn [unpack bind].
  unfold PredictionInput_init, required. lookups.
  cbn [input_patient_id observation_ids features context v_str v_dict bind].
  rewrite v_optional_str_list. cbn [bind].
  destruct c; reflexivity.
Qed.

Lemma PredictionOutput_round_trip o :
  bind (unpack (PredictionOutput_dict o)) PredictionOutput_init = Ok o.
Proof.
  destruct o as [p pr s e t]. unfold PredictionOutput_dict. cbn [unpack bind].
  unfold PredictionOutput_init, required. lookups.
  cbn [prediction probability scores explanation thresholds bind].
  rewrite !v_optional_dict_float.
  destruct pr, e; reflexivity.
Qed.

Section WithClock.
Variable fromiso : string -> bool.

(** X4. A Prediction with a valid status and an ISO timestamp is read
    back from its dictionary unchanged, nested input and output
    included. *)
Theorem Prediction_round_trip :
  forall (w : World) (p : Prediction),
    in_list (status p) valid_statuses = true ->
    fromiso (timestamp p) = true ->
    from_dict fromiso w (PDict (to_dict p)) = Ok p.
Proof.
  intros w p Hst Hts. unfold from_dict, to_dict. lookups.
  pose proof (PredictionInput_round_trip (input_data p)) as Hi.
  pose proof (PredictionOutput_round_trip (output_data p)) as Ho.
  destruct (unpack (PredictionInput_dict (input_data p))) as [i|]; [| discriminate].
  cbn [bind] in Hi |- *. rewrite Hi. cbn [bind].
  destruct (unpack (PredictionOutput_dict (output_data p))) as [o|]; [| discriminate].
  cbn [bind] in Ho |- *. rewrite Ho. cbn [bind].
  unfold Prediction_init, validate_status, validate_timestamp.
  cbn [v_str bind]. rewrite Hst, Hts. cbn [bind].
  destruct p as [a b c d e f g h i' j k l m]. cbn.
  destruct j, k; reflexivity.
Qed.




End WithClock.

Lemma Prediction_round_trip_witness :
  from_dict any_iso sample_world (PDict (to_dict sample_prediction))
  = Ok sample_prediction.
Proof.
  apply (Prediction_round_trip any_iso sample_world sample_prediction); reflexivity.
Defined.


End PredictionFacts.

(** ** extract_features and calculate_age *)

Module FeatureFacts.
Import PyFacts MLHandler Samples FeatureNotions.

(** *** What the loop keeps true *)

Lemma vital_in_list_In s l : in_list s l = true <-> In s l.
Proof.
  unfold in_list. rewrite existsb_exists. split.
  - intros (x & Hx & E). apply String.eqb_eq in E. subst. exact Hx.
  - intros H. exists s. split; [exact H | apply String.eqb_refl].
Qed.

Lemma append_new_NoDup x l : NoDup l -> NoDup (append_new x l).
Proof.
  unfold append_new. intros H. destruct (in_list x l) eqn:E; [exact H |].
  assert (Hx : ~ In x l).
  { intros Hin. apply vital_in_list_In in Hin. congruence. }
  clear E. induction l as [| a t IH]; simpl.
  - constructor; [intros [] | constructor].
  - inversion H; subst. constructor.
    + rewrite in_app_iff. intros [Hin | [E | []]]; [auto |].
      subst. apply Hx. left. reflexivity.
    + apply IH; auto. intros Hin. apply Hx. right. exact Hin.
Qed.

Lemma append_new_In x l y : In y (append_new x l) <-> In y l \/ y = x.
Proof.
  unfold append_new. destruct (in_list x l) eqn:E.
  - apply vital_in_list_In in E. split; [auto |]. intros [H | ->]; auto.
  - rewrite in_app_iff. simpl. split.
    + intros [H | [H | []]]; auto.
    + intros [H | ->]; auto.
Qed.

Lemma lookup_append_reading k r d t :
  lookup t (append_reading k r d)
  = if String.eqb t k then Some (bucket k d ++ [r])%list else lookup t d.
Proof.
  unfold bucket. induction d as [| [k' l] d IH]; simpl.
  - destruct (String.eqb t k); reflexivity.
  - destruct (String.eqb k k') eqn:E.
    + apply String.eqb_eq in E. subst k'. simpl.
      destruct (String.eqb t k); reflexivity.
    + simpl. rewrite IH.
      destruct (String.eqb t k') eqn:E'.
      * apply String.eqb_eq in E'. subst k'.
        destruct (String.eqb t k) eqn:E''; [| reflexivity].
        apply String.eqb_eq in E''. subst k. rewrite String.eqb_refl in E. discriminate.
      * reflexivity.
Qed.

Lemma keys_append_reading k r d :
  map fst (append_reading k r d)
  = if mem k d then map fst d else (map fst d ++ [k])%list.
Proof.
  unfold mem. induction d as [| [k' l] d IH]; simpl; [reflexivity |].
  destruct (String.eqb k k') eqn:E.
  - apply String.eqb_eq in E. subst. reflexivity.
  - simpl. rewrite IH. destruct (lookup k d); reflexivity.
Qed.

Lemma mem_keys {V} k (d : list (string * V)) : mem k d = true <-> In k (map fst d).
Proof.
  unfold mem. induction d as [| [k' v] d IH]; simpl.
  - split; [discriminate | intros []].
  - destruct (String.eqb k k') eqn:E.
    + apply String.eqb_eq in E. subst. split; auto.
    + rewrite IH. split; [auto |]. intros [H | H]; [| exact H].
      subst. rewrite String.eqb_refl in E. discriminate.
Qed.

Lemma keys_append_reading_NoDup k r d :
  NoDup (map fst d) -> NoDup (map fst (append_reading k r d)).
Proof.
  intros H. rewrite keys_append_reading. destruct (mem k d) eqn:E; [exact H |].
  assert (Hk : ~ In k (map fst d)).
  { intros Hin. apply mem_keys in Hin. congruence. }
  clear E. induction (map fst d) as [| a t IH]; simpl.
  - constructor; [intros [] | constructor].
  - inversion H; subst. constructor.
    + rewrite in_app_iff. intros [Hin | [E | []]]; [auto |].
      subst. apply Hk. left. reflexivity.
    + apply IH; auto. intros Hin. apply Hk. right. exact Hin.
Qed.

Lemma In_append_reading k r d k' rs :
  In (k', rs) (append_reading k r d) ->
  (k' = k /\ rs = (bucket k d ++ [r])%list) \/ In (k', rs) d.
Proof.
  unfold bucket. induction d as [| [k0 l] d IH]; simpl.
  - intros [H | []]. inversion H. auto.
  - destruct (String.eqb k k0) eqn:E.
    + apply String.eqb_eq in E. subst k0. simpl.
      intros [H | H]; [inversion H; subst; auto | auto].
    + simpl. intros [H | H]; [auto |].
      destruct (IH H) as [H' | H']; auto.
Qed.

Lemma record_reading_inv obs t d d' :
  record_reading obs t d = Ok d' ->
  d' = d \/
  exists v ts, v <> PNone /\ numeric_value obs = Ok v /\ lookup "timestamp" obs = Some ts /\
               d' = append_reading t {| reading_value := v; reading_timestamp := ts |} d.
Proof.
  unfold record_reading. intros H.
  apply bind_ok in H. destruct H as (v & Hv & H).
  destruct v; try (inversion H; auto; fail);
    apply bind_ok in H; destruct H as (ts & Hts & H); apply getitem_ok in Hts;
    inversion H; right;
    match type of Hv with _ = Ok ?x => exists x, ts end;
    (split; [discriminate | split; [exact Hv | split; [exact Hts | reflexivity]]]).
Qed.

Lemma bucket_reading_ok d t r k rs (P : string -> Prop) :
  (forall k rs, In (k, rs) d ->
     P k /\ rs <> [] /\ forall r, In r rs -> reading_value r <> PNone) ->
  P t -> reading_value r <> PNone ->
  In (k, rs) (append_reading t r d) ->
  P k /\ rs <> [] /\ forall r, In r rs -> reading_value r <> PNone.
Proof.
  intros Hd Ht Hr Hin. apply In_append_reading in Hin.
  destruct Hin as [(-> & ->) | Hin]; [| apply Hd; exact Hin].
  split; [exact Ht |]. split.
  - destruct (bucket t d); discriminate.
  - intros r' Hr'. apply in_app_or in Hr'. destruct Hr' as [Hr' | [<- | []]]; [| exact Hr].
    unfold bucket in Hr'. destruct (lookup t d) as [l|] eqn:El; [| destruct Hr'].
    assert (Hl : In (t, l) d).
    { clear - El. induction d as [| [k v] d IH]; simpl in *; [discriminate |].
      destruct (String.eqb t k) eqn:E.
      - apply String.eqb_eq in E. inversion El. subst. auto.
      - auto. }
    destruct (Hd _ _ Hl) as (_ & _ & H). apply H, Hr'.
Qed.

Lemma step_buckets_ok f obs f' :
  buckets_ok f -> step f obs = Ok f' -> buckets_ok f'.
Proof.
  intros (Hc & Hm & Hv & Hl & Hvk & Hlk). unfold step.
  destruct (get_default obs "observation_type" (PStr "unknown")); try discriminate.
  destruct (in_list s vital_types) eqn:Ev.
  { intros H. apply bind_ok in H. destruct H as (v & Hr & H).
    inversion H; subst f'; clear H. unfold buckets_ok; simpl.
    apply record_reading_inv in Hr.
    destruct Hr as [-> | (x & ts & Hx & _ & _ & ->)]; [auto 10 |].
    split; [exact Hc | split; [exact Hm | split; [| split; [exact Hl | split; [| exact Hlk]]]]].
    - apply keys_append_reading_NoDup. exact Hv.
    - intros k rs Hin.
      refine (bucket_reading_ok _ _ _ _ _ (fun k => In k vital_types) Hvk _ _ Hin);
        [apply vital_in_list_In; exact Ev | exact Hx]. }
  destruct (startswith s "lab-") eqn:El.
  { intros H. apply bind_ok in H. destruct H as (v & Hr & H).
    inversion H; subst f'; clear H. unfold buckets_ok; simpl.
    apply record_reading_inv in Hr.
    destruct Hr as [-> | (x & ts & Hx & _ & _ & ->)]; [auto 10 |].
    assert (Hlab : is_lab s = true) by (unfold is_lab; rewrite Ev, El; reflexivity).
    split; [exact Hc | split; [exact Hm | split; [exact Hv | split; [| split; [exact Hvk |]]]]].
    - apply keys_append_reading_NoDup. exact Hl.
    - intros k rs Hin.
      refine (bucket_reading_ok _ _ _ _ _ (fun k => is_lab k = true) Hlk _ _ Hin);
        [exact Hlab | exact Hx]. }
  destruct (startswith s "condition-").
  { intros H. inversion H; subst f'. unfold buckets_ok; simpl.
    split; [apply append_new_NoDup; exact Hc | auto 10]. }
  destruct (startswith s "medication-").
  { intros H. inversion H; subst f'. unfold buckets_ok; simpl.
    split; [exact Hc | split; [apply append_new_NoDup; exact Hm | auto 10]]. }
  intros H. inversion H; subst f'. unfold buckets_ok. auto 10.
Qed.

Lemma run_buckets_ok l : forall f f',
  buckets_ok f -> run f l = Ok f' -> buckets_ok f'.
Proof.
  induction l as [| obs l IH]; simpl; intros f f' Hf H.
  - inversion H; subst. exact Hf.
  - apply bind_ok in H. destruct H as (f1 & H1 & H).
    eapply IH; [| exact H]. eapply step_buckets_ok; eauto.
Qed.

(** X6. Whatever [extract_features] returns, no condition, medication
    or reading type is listed twice; every key of the vital signs is
    one of the five vital types and every key of the lab results a
    [lab-] type; every key has at least one reading, and no reading has
    the value [None]. *)
Theorem extract_features_buckets :
  forall (py_int : string -> option Z) (current_year : Z)
         (patient : list (string * pyval)) (observations : list (list (string * pyval)))
         (f : features),
    extract_features py_int current_year patient observations = Ok f ->
    buckets_ok f.
Proof.
  intros py_int current_year patient observations f H.
  unfold extract_features in H. eapply run_buckets_ok; [| exact H].
  unfold buckets_ok; simpl.
  split; [constructor | split; [constructor | split; [constructor | split; [constructor |]]]].
  split; intros k rs [].
Qed.

(** *** The readings, in order *)

Lemma bucket_append_reading k r d t :
  bucket t (append_reading k r d)
  = (bucket t d ++ (if String.eqb t k then [r] else []))%list.
Proof.
  unfold bucket at 1. rewrite lookup_append_reading.
  destruct (String.eqb t k) eqn:E.
  - apply String.eqb_eq in E. subst. reflexivity.
  - rewrite app_nil_r. reflexivity.
Qed.

Lemma record_reading_bucket obs t d d' t' :
  record_reading obs t d = Ok d' ->
  bucket t' d'
  = (bucket t' d ++
     (if String.eqb t t' then
        match numeric_value obs, lookup "timestamp" obs with
        | Ok PNone, _ => []
        | Ok v, Some ts => [{| reading_value := v; reading_timestamp := ts |}]
        | _, _ => []
        end
      else []))%list.
Proof.
  unfold record_reading. intros H.
  apply bind_ok in H. destruct H as (v & Hv & H). rewrite Hv.
  rewrite (String.eqb_sym t t').
  destruct v;
    try (inversion H; subst; destruct (String.eqb t' t); rewrite app_nil_r; reflexivity);
    apply bind_ok in H; destruct H as (ts & Hts & H); apply getitem_ok in Hts;
    rewrite Hts; inversion H; subst; apply bucket_append_reading.
Qed.

Lemma type_of_step obs :
  type_of obs = match get_default obs "observation_type" (PStr "unknown") with
                | PStr t => Some t | _ => None end.
Proof. reflexivity. Qed.

Lemma step_readings f obs f' t :
  step f obs = Ok f' ->
  bucket t (vital_signs f')
  = (bucket t (vital_signs f)
     ++ (if in_list t vital_types then reading_of t obs else []))%list /\
  bucket t (lab_results f')
  = (bucket t (lab_results f)
     ++ (if is_lab t then reading_of t obs else []))%list.
Proof.
  unfold step, reading_of, is_lab. rewrite type_of_step.
  destruct (get_default obs "observation_type" (PStr "unknown")); try discriminate.
  destruct (in_list s vital_types) eqn:Ev.
  { intros H. apply bind_ok in H. destruct H as (v & Hr & H).
    inversion H; subst f'; clear H. cbn [vital_signs lab_results].
    rewrite (record_reading_bucket _ _ _ _ t Hr).
    destruct (String.eqb s t) eqn:E.
    - apply String.eqb_eq in E. subst t. rewrite Ev. cbn [negb andb].
      rewrite app_nil_r. split; reflexivity.
    - destruct (in_list t vital_types), (negb _ && startswith t "lab-");
        rewrite ?app_nil_r; split; reflexivity. }
  destruct (startswith s "lab-") eqn:El.
  { intros H. apply bind_ok in H. destruct H as (v & Hr & H).
    inversion H; subst f'; clear H. cbn [vital_signs lab_results].
    rewrite (record_reading_bucket _ _ _ _ t Hr).
    destruct (String.eqb s t) eqn:E.
    - apply String.eqb_eq in E. subst t. rewrite Ev, El. cbn [negb andb].
      rewrite app_nil_r. split; reflexivity.
    - destruct (in_list t vital_types), (startswith t "lab-"); cbn [negb andb];
        rewrite ?app_nil_r; split; reflexivity. }
  assert (Hskip : forall rs : list reading,
             (if in_list t vital_types then (if String.eqb s t then rs else []) else []) = []
             /\ (if negb (in_list t vital_types) && startswith t "lab-"
                 then (if String.eqb s t then rs else []) else []) = []).
  { intros rs. destruct (String.eqb s t) eqn:E.
    - apply String.eqb_eq in E. subst t. rewrite Ev, El. split; reflexivity.
    - destruct (in_list t vital_types), (negb _ && startswith t "lab-"); split; reflexivity. }
  destruct (Hskip (match numeric_value obs, lookup "timestamp" obs with
                   | Ok PNone, _ => []
                   | Ok v, Some ts => [{| reading_value := v; reading_timestamp := ts |}]
                   | _, _ => []
                   end)) as [H1 H2].
  rewrite H1, H2, !app_nil_r.
  destruct (startswith s "condition-").
  { intros H. inversion H; subst f'. split; reflexivity. }
  destruct (startswith s "medication-").
  { intros H. inversion H; subst f'. split; reflexivity. }
  intros H. inversion H; subst f'. split; reflexivity.
Qed.

Lemma run_readings l : forall f f' t,
  run f l = Ok f' ->
  bucket t (vital_signs f')
  = (bucket t (vital_signs f)
     ++ (if in_list t vital_types then flat_map (reading_of t) l else []))%list /\
  bucket t (lab_results f')
  = (bucket t (lab_results f)
     ++ (if is_lab t then flat_map (reading_of t) l else []))%list.
Proof.
  induction l as [| obs l IH]; intros f f' t H; simpl in H.
  - inversion H; subst. cbn [flat_map].
    destruct (in_list t vital_types), (is_lab t); rewrite !app_nil_r; split; reflexivity.
  - apply bind_ok in H. destruct H as (f1 & H1 & H).
    destruct (IH _ _ t H) as [Ev El]. destruct (step_readings _ _ _ t H1) as [Sv Sl].
    rewrite Ev, El, Sv, Sl. cbn [flat_map].
    destruct (in_list t vital_types), (is_lab t);
      rewrite <- ?app_assoc, ?app_nil_r; split; reflexivity.
Qed.

(** X7. The readings [extract_features] lists under a vital type are
    those of the observations of that type, in the order of the input,
    each the numeric value with the timestamp; likewise under a lab
    type; any other key has no readings. *)
Theorem extract_features_readings_in_order :
  forall (py_int : string -> option Z) (current_year : Z)
         (patient : list (string * pyval)) (observations : list (list (string * pyval)))
         (f : features) (t : string),
    extract_features py_int current_year patient observations = Ok f ->
    bucket t (vital_signs f)
    = (if in_list t vital_types then flat_map (reading_of t) observations else []) /\
    bucket t (lab_results f)
    = (if is_lab t then flat_map (reading_of t) observations else []).
Proof.
  intros py_int current_year patient observations f t H.
  unfold extract_features in H.
  destruct (run_readings _ _ _ t H) as [Hv Hl].
  exact (conj Hv Hl).
Qed.

(** *** Observations the extractor can process *)

Lemma numeric_value_readable obs :
  quantity_readable obs = true -> exists v, numeric_value obs = Ok v.
Proof.
  unfold quantity_readable, numeric_value, mem, getitem.
  assert (Hint : exists v,
             (if match lookup "value_integer" obs with Some _ => true | None => false end
              then i <- match lookup "value_integer" obs with
                        | Some v => Ok v | None => Raise (KeyError "value_integer") end ;;
                   match i with
                   | PNone => Ok PNone
                   | _ => match lookup "value_integer" obs with
                          | Some v => Ok v | None => Raise (KeyError "value_integer") end
                   end
              else Ok PNone) = Ok v).
  { destruct (lookup "value_integer" obs) as [i|]; [| eauto].
    cbn [bind]. destruct i; eauto. }
  destruct (lookup "value_quantity" obs) as [q|]; [| intros _; exact Hint].
  cbn [bind]. destruct (truthy q); [| intros _; exact Hint].
  destruct q; try discriminate. cbn [py_getitem]. unfold mem, getitem.
  destruct (lookup "value" d); [eauto | discriminate].
Qed.

Lemma record_reading_returns obs t d :
  mem "timestamp" obs = true -> quantity_readable obs = true ->
  exists d', record_reading obs t d = Ok d'.
Proof.
  intros Hts Hq. destruct (numeric_value_readable _ Hq) as (v & Hv).
  unfold record_reading. rewrite Hv. cbn [bind].
  unfold mem in Hts. unfold getitem.
  destruct (lookup "timestamp" obs); [| discriminate].
  destruct v; cbn [bind]; eauto.
Qed.

Lemma step_returns f obs :
  well_formed obs = true -> exists f', step f obs = Ok f'.
Proof.
  unfold well_formed, step. rewrite type_of_step.
  destruct (get_default obs "observation_type" (PStr "unknown")); try discriminate.
  destruct (in_list s vital_types); cbn [orb].
  { intros H. apply andb_prop in H. destruct H as [Hts Hq].
    destruct (record_reading_returns obs s (vital_signs f) Hts Hq) as (d' & ->).
    cbn [bind]. eauto. }
  destruct (startswith s "lab-").
  { intros H. apply andb_prop in H. destruct H as [Hts Hq].
    destruct (record_reading_returns obs s (lab_results f) Hts Hq) as (d' & ->).
    cbn [bind]. eauto. }
  intros _. destruct (startswith s "condition-"); [eauto |].
  destruct (startswith s "medication-"); eauto.
Qed.

Lemma run_returns l : forall f,
  forallb well_formed l = true -> exists f', run f l = Ok f'.
Proof.
  induction l as [| obs l IH]; intros f H; simpl in *.
  - eauto.
  - apply andb_prop in H. destruct H as [Ho Hl].
    destruct (step_returns f obs Ho) as (f1 & ->). cbn [bind]. apply IH, Hl.
Qed.

(** X8. On observations whose type is a string and which, when they
    are vital signs or lab results, have a timestamp and a quantity
    that is absent, falsy or a dictionary with a [value],
    [extract_features] returns, with the patient's gender and deceased
    flag in the demographics. *)
Theorem extract_features_returns_on_well_formed :
  forall (py_int : string -> option Z) (current_year : Z)
         (patient : list (string * pyval)) (observations : list (list (string * pyval))),
    forallb well_formed observations = true ->
    exists f, extract_features py_int current_year patient observations = Ok f /\
              gender (demo f) = get_default patient "gender" PNone /\
              deceased (demo f) = get_default patient "deceased" (PBool false).
Proof.
  intros py_int current_year patient observations H.
  unfold extract_features.
  destruct (run_returns observations
              {| demo := {| gender := get_default patient "gender" PNone;
                            age := calculate_age py_int current_year
                                     (get_default patient "birth_date" (PStr ""));
                            deceased := get_default patient "deceased" (PBool false) |};
                 vital_signs := []; lab_results := []; medications := []; conditions := [] |}
              H) as (f & Hf).
  exists f. split; [exact Hf |].
  assert (Hd : forall l f0 f1, run f0 l = Ok f1 -> demo f1 = demo f0).
  { clear. induction l as [| obs l IH]; intros f0 f1 H; simpl in H.
    - inversion H. reflexivity.
    - apply bind_ok in H. destruct H as (f2 & H2 & H).
      rewrite (IH _ _ H). clear - H2. unfold step in H2.
      destruct (get_default obs "observation_type" (PStr "unknown")); try discriminate.
      destruct (in_list s vital_types).
      { apply bind_ok in H2. destruct H2 as (? & _ & H2). inversion H2. reflexivity. }
      destruct (startswith s "lab-").
      { apply bind_ok in H2. destruct H2 as (? & _ & H2). inversion H2. reflexivity. }
      destruct (startswith s "condition-"); [inversion H2; reflexivity |].
      destruct (startswith s "medication-"); inversion H2; reflexivity. }
  rewrite (Hd _ _ _ Hf). split; reflexivity.
Qed.

(** *** Conditions and medications *)

Lemma step_names f obs f' x :
  step f obs = Ok f' ->
  (In x (conditions f') <->
   In x (conditions f) \/
   exists t, type_of obs = Some t /\ is_condition t = true /\
             x = replace t "condition-" "") /\
  (In x (medications f') <->
   In x (medications f) \/
   exists t, type_of obs = Some t /\ is_medication t = true /\
             x = replace t "medication-" "").
Proof.
  unfold step, is_condition, is_medication. rewrite type_of_step.
  destruct (get_default obs "observation_type" (PStr "unknown")); try discriminate.
  assert (Hinv : forall (P : string -> Prop), (exists t, Some s = Some t /\ P t) <-> P s).
  { intros P. split; [intros (t & E & H); inversion E; subst; exact H | eauto]. }
  rewrite !Hinv. clear Hinv.
  destruct (in_list s vital_types); cbn [negb andb].
  { intros H. apply bind_ok in H. destruct H as (? & _ & H). inversion H; subst f'.
    cbn [conditions medications]. split; split; auto; intros [H'|(H' & _)]; auto; discriminate. }
  destruct (startswith s "lab-"); cbn [negb andb].
  { intros H. apply bind_ok in H. destruct H as (? & _ & H). inversion H; subst f'.
    cbn [conditions medications]. split; split; auto; intros [H'|(H' & _)]; auto; discriminate. }
  destruct (startswith s "condition-"); cbn [negb andb].
  { intros H. inversion H; subst f'. cbn [conditions medications].
    rewrite append_new_In. split.
    - split; [intros [H'|H']; auto | intros [H'|(_ & H')]; auto].
    - split; auto; intros [H'|(H' & _)]; auto; discriminate. }
  destruct (startswith s "medication-"); cbn [negb andb].
  { intros H. inversion H; subst f'. cbn [conditions medications].
    rewrite append_new_In. split.
    - split; auto; intros [H'|(H' & _)]; auto; discriminate.
    - split; [intros [H'|H']; auto | intros [H'|(_ & H')]; auto]. }
  intros H. inversion H; subst f'.
  split; split; auto; intros [H'|(H' & _)]; auto; discriminate.
Qed.

Lemma run_names l : forall f f' x,
  run f l = Ok f' ->
  (In x (conditions f') <->
   In x (conditions f) \/
   exists obs t, In obs l /\ type_of obs = Some t /\ is_condition t = true /\
                 x = replace t "condition-" "") /\
  (In x (medications f') <->
   In x (medications f) \/
   exists obs t, In obs l /\ type_of obs = Some t /\ is_medication t = true /\
                 x = replace t "medication-" "").
Proof.
  induction l as [| obs l IH]; intros f f' x H; simpl in H.
  - inversion H; subst. split; split; auto; intros [H'|(? & ? & [] & _)]; auto.
  - apply bind_ok in H. destruct H as (f1 & H1 & H).
    destruct (IH _ _ x H) as [Ec Em]. destruct (step_names _ _ _ x H1) as [Sc Sm].
    rewrite Ec, Em, Sc, Sm. clear. split; split.
    + intros [[H | (t & H)] | (o & t & Hin & H)]; auto.
      * right. exists obs, t. split; [left; reflexivity | exact H].
      * right. exists o, t. split; [right; exact Hin | exact H].
    + intros [H | (o & t & [<- | Hin] & H)]; auto.
      * left. right. exists t. exact H.
      * right. exists o, t. auto.
    + intros [[H | (t & H)] | (o & t & Hin & H)]; auto.
      * right. exists obs, t. split; [left; reflexivity | exact H].
      * right. exists o, t. split; [right; exact Hin | exact H].
    + intros [H | (o & t & [<- | Hin] & H)]; auto.
      * left. right. exists t. exact H.
      * right. exists o, t. auto.
Qed.

(** X9. The conditions [extract_features] returns are exactly the types
    of the condition observations with every [condition-] taken out,
    and the medications those of the medication observations with every
    [medication-] taken out. *)
Theorem extract_features_names :
  forall (py_int : string -> option Z) (current_year : Z)
         (patient : list (string * pyval)) (observations : list (list (string * pyval)))
         (f : features) (x : string),
    extract_features py_int current_year patient observations = Ok f ->
    (In x (conditions f) <->
     exists obs t, In obs observations /\ type_of obs = Some t /\
                   is_condition t = true /\ x = replace t "condition-" "") /\
    (In x (medications f) <->
     exists obs t, In obs observations /\ type_of obs = Some t /\
                   is_medication t = true /\ x = replace t "medication-" "").
Proof.
  intros py_int current_year patient observations f x H.
  unfold extract_features in H.
  destruct (run_names _ _ _ x H) as [Hc Hm]. cbn [conditions medications] in Hc, Hm.
  rewrite Hc, Hm. split; split; auto; intros [[] | H']; exact H'.
Qed.

(** *** calculate_age *)

Lemma split_on_head sep s :
  exists r, split_on sep s = before sep s :: r.
Proof.
  induction s as [| c t IH]; simpl.
  - eauto.
  - destruct (Ascii.eqb c sep); [eauto |].
    destruct IH as (r & ->). eauto.
Qed.

(** X10. [calculate_age] reads the text before the first dash alone: the
    age is the current year minus that number, whatever follows, and
    there is no age when it is not a number. *)
Theorem calculate_age_reads_year_only :
  forall (py_int : string -> option Z) (current_year : Z) (birth_date : string),
    birth_date <> "" ->
    calculate_age py_int current_year (PStr birth_date)
    = option_map (fun birth_year => (current_year - birth_year)%Z)
        (py_int (before "-" birth_date)).
Proof.
  intros py_int current_year s Hs. unfold calculate_age. cbn [truthy].
  destruct (String.eqb s "") eqn:E; [apply String.eqb_eq in E; contradiction |].
  cbn [negb]. destruct (split_on_head "-" s) as (r & ->).
  destruct (py_int (before "-" s)); reflexivity.
Qed.

Lemma extract_features_buckets_witness :
  exists f, extract_features no_int 2024%Z [] sample_history = Ok f /\ buckets_ok f.
Proof.
  destruct (extract_features no_int 2024%Z [] sample_history) as [f|e] eqn:E;
    [| vm_compute in E; discriminate].
  exists f. split; [reflexivity |].
  apply (extract_features_buckets no_int 2024%Z [] sample_history f E).
Defined.

Lemma extract_features_readings_in_order_witness :
  exists f, extract_features no_int 2024%Z [] sample_history = Ok f /\
    bucket "heart-rate" (vital_signs f)
    = [{| reading_value := PInt 72; reading_timestamp := PStr "2024-01-15T10:30:00" |};
       {| reading_value := PInt 80; reading_timestamp := PStr "2024-01-16T10:30:00" |}].
Proof.
  destruct (extract_features no_int 2024%Z [] sample_history) as [f|e] eqn:E;
    [| vm_compute in E; discriminate].
  exists f. split; [reflexivity |].
  destruct (extract_features_readings_in_order no_int 2024%Z [] sample_history f
              "heart-rate" E) as (Hv & _).
  rewrite Hv. reflexivity.
Defined.

Lemma extract_features_returns_on_well_formed_witness :
  exists f, extract_features no_int 2024%Z [("gender", PStr "female")] sample_history = Ok f /\
            gender (demo f) = PStr "female".
Proof.
  destruct (extract_features_returns_on_well_formed no_int 2024%Z
              [("gender", PStr "female")] sample_history eq_refl) as (f & Hf & Hg & _).
  exists f. split; [exact Hf | exact Hg].
Defined.

Lemma extract_features_names_witness :
  exists f, extract_features no_int 2024%Z [] sample_history = Ok f /\
            In "diabetes" (conditions f).
Proof.
  destruct (extract_features no_int 2024%Z [] sample_history) as [f|e] eqn:E;
    [| vm_compute in E; discriminate].
  exists f. split; [reflexivity |].
  destruct (extract_features_names no_int 2024%Z [] sample_history f "diabetes" E)
    as (Hc & _).
  apply Hc. exists (condition_observation "condition-diabetes"), "condition-diabetes".
  split; [right; left; reflexivity |]. repeat split.
Defined.

Lemma calculate_age_reads_year_only_witness :
  calculate_age born_1980 2024%Z (PStr "1980-05-17") = Some 44%Z.
Proof.
  rewrite (calculate_age_reads_year_only born_1980 2024%Z "1980-05-17");
    [reflexivity | discriminate].
Defined.

End FeatureFacts.

(** ** Patient: what the decoder guarantees *)

Module PatientCodecFacts.
Import PyFacts PatientModel Samples PatientFacts.

Lemma validate_deceased_date_order v b o :
  validate_deceased_date v b = Ok o ->
  o = v /\
  forall d, v = Some d ->
    exists s dd bd, b = Some s /\ Datetime.strptime_ymd d = Some dd /\
      Datetime.strptime_ymd s = Some bd /\ Datetime.date_ltb dd bd = false.
Proof.
  unfold validate_deceased_date.
  destruct v as [d|]; [| intros H; inversion H; split; [reflexivity | discriminate]].
  destruct (Datetime.strptime_ymd d) as [dd|] eqn:Ed; [| discriminate].
  destruct b as [b|]; [| discriminate].
  destruct (Datetime.strptime_ymd b) as [bd|] eqn:Eb; [| discriminate].
  destruct (Datetime.date_ltb dd bd) eqn:El; intros H; inversion H.
  split; [reflexivity |]. intros d' Hd'. inversion Hd'; subst d'.
  exists b, dd, bd. rewrite Ed. auto.
Qed.

Lemma Patient_init_dates kw p :
  Patient_init kw = Ok p ->
  exists bd, Datetime.strptime_ymd (birth_date p) = Some bd /\
    forall d, deceased_date p = Some d ->
      exists dd, Datetime.strptime_ymd d = Some dd /\ Datetime.date_ltb dd bd = false.
Proof.
  unfold Patient_init. intros H.
  match type of H with
  | match ?r with _ => _ end = _ => destruct r as [dd | e] eqn:Hdec
  end.
  - inv_binds H. inversion H; subst p; clear H; simpl.
    match goal with E : Ok dd = Ok _ |- _ => inversion E; subst; clear E end.
    match goal with E : bind (v_str "birth_date" _) _ = Ok _ |- _ =>
      pose proof E as Eb'; apply bind_ok in E; destruct E as (b & Eb & Ev) end.
    apply validate_birth_date_ok in Ev. destruct Ev as (-> & Hvalid).
    apply bind_ok in Hdec. destruct Hdec as (d0 & Ed & Evd).
    apply validate_deceased_date_order in Evd. destruct Evd as (-> & Hord).
    destruct (Datetime.strptime_ymd b) as [bd|] eqn:Ebd; [| congruence].
    exists bd. split; [reflexivity |]. intros d Hd.
    destruct (Hord d Hd) as (s & dd' & bd' & Hs & Hdd & Hbd & Hlt).
    rewrite Eb' in Hs. cbn [to_option] in Hs. inversion Hs; subst s.
    rewrite Ebd in Hbd. inversion Hbd; subst bd'. eauto.
  - destruct e; try (apply bind_ok in H; destruct H as (? & _ & H));
      inv_binds H; try discriminate.
    all: match goal with E : Raise _ = Ok _ |- _ => discriminate E end.
Qed.

(** X12. Every Patient the decoder returns has a calendar birth date,
    the one of the payload; a date of death, when it has one, is a
    calendar date not before the birth date and comes with the deceased
    flag. *)
Theorem from_fhir_keeps_date_invariants :
  forall (w : World) (d : list (string * pyval)) (p : Patient),
    from_fhir w (PDict d) = Ok p ->
    patient_dates_ok p = true /\
    lookup "birthDate" d = Some (PStr (birth_date p)).
Proof.
  intros w d p H. apply from_fhir_inv in H.
  destruct H as (kw & Hinit & _ & Hb & Hd & Hdd).
  pose proof (Patient_init_dates _ _ Hinit) as (bd & Hbd & Hord).
  apply Patient_init_inv in Hinit.
  destruct Hinit as (_ & Hb' & _ & Hdec & Hdd').
  split.
  - unfold patient_dates_ok. rewrite Hbd.
    destruct (deceased_date p) as [x|] eqn:Ex; [| reflexivity].
    destruct (Hord x eq_refl) as (dd & -> & ->). cbn [negb andb].
    rewrite Hdd' in Hdd. cbn [opt_val] in Hdd.
    unfold mem, get_default in *.
    destruct (lookup "deceasedDateTime" d); [| discriminate].
    rewrite Hdec in Hd. inversion Hd. reflexivity.
  - rewrite Hb' in Hb. unfold get_default in Hb.
    destruct (lookup "birthDate" d) as [v|]; [rewrite Hb; reflexivity |].
    inversion Hb as [Hempty]. rewrite Hempty in Hbd. discriminate.
Qed.

Lemma from_fhir_keeps_date_invariants_witness :
  exists p, from_fhir sample_world (PDict patient_both_deceased_keys) = Ok p /\
            patient_dates_ok p = true.
Proof.
  destruct (from_fhir sample_world (PDict patient_both_deceased_keys)) as [p|e] eqn:E;
    [| vm_compute in E; discriminate].
  exists p. split; [reflexivity |].
  apply (from_fhir_keeps_date_invariants sample_world patient_both_deceased_keys p E).
Defined.

Lemma Patient_round_trip_witness :
  from_fhir sample_world (PDict (to_fhir deceased_patient))
  = Ok (restamp_patient sample_world deceased_patient).
Proof.
  apply (Patient_round_trip sample_world deceased_patient). reflexivity.
Defined.

End PatientCodecFacts.

(** ** Observation: what the encoder and the decoder guarantee *)

Module ObservationCodecFacts.
Import PyFacts ObservationModel Samples ObservationFacts CodecNotions FeatureNotions.

(** X14. For every Observation the encoder writes the [value] property:
    of the five value keys the encoding holds the one of the first
    value field that is set, with its value (false and 0 as well), and
    none when no field is set. *)
Theorem to_fhir_writes_the_value_property :
  forall o : Observation,
    Forall
      (fun k =>
         lookup k (to_fhir o)
         = match value o with
           | Some v => if String.eqb k (fst (wire_value v)) then Some (snd (wire_value v))
                       else None
           | None => None
           end)
      value_keys.
Proof.
  intros o. unfold value, to_fhir, value_entry, value_keys.
  destruct (value_quantity o) as [q|], (value_string o), (value_boolean o),
    (value_integer o), (value_codeable_concept o) as [c|];
    cbn [wire_value fst snd];
    repeat (constructor;
            [ cbn [String.eqb Ascii.eqb Bool.eqb];
              first [ apply lookup_drop_none_some;
                      [reflexivity | try destruct q; try destruct c; discriminate]
                    | apply lookup_drop_none_absent; reflexivity ] | ]);
    constructor.
Qed.

Lemma v_dict_str_ok f v s : v_dict_str f v = Ok s -> v = dict_str_val s.
Proof.
  destruct v; try discriminate. unfold v_dict_str, dict_str_val.
  revert s. induction d as [| [k x] t IH]; intros s H; simpl in H.
  - inversion H. reflexivity.
  - apply bind_ok in H. destruct H as (y & Hy & H).
    apply bind_ok in Hy. destruct Hy as (z & Hz & Hy). inversion Hy; subst y.
    apply bind_ok in H. destruct H as (ys & Hys & H). inversion H; subst s.
    apply v_str_ok in Hz. simpl in Hz. subst x.
    specialize (IH _ Hys). inversion IH as [IH']. simpl. rewrite <- IH'. reflexivity.
Qed.

Lemma lookup_dict_str k (s : list (string * string)) :
  lookup k (map (fun kv => (fst kv, PStr (snd kv))) s) = option_map PStr (lookup k s).
Proof.
  induction s as [| [k' v] t IH]; simpl; [reflexivity |].
  destruct (String.eqb k k'); [reflexivity | exact IH].
Qed.

Lemma Observation_init_fields fromiso kw o :
  Observation_init fromiso kw = Ok o ->
  kw_status kw = PStr (status o) /\
  in_list (status o) valid_statuses = true /\
  fromiso (effective_date_time o) = true /\
  kw_subject kw = dict_str_val (subject o) /\
  patient_id o = kw_patient_id kw /\
  observation_type o = kw_observation_type kw /\
  code o = kw_code kw.
Proof.
  unfold Observation_init, validate_status, validate_effective_date_time. intros H.
  inv_binds H. inversion H; subst o; clear H; cbn.
  repeat match goal with
         | E : (if ?b then _ else _) = Ok _ |- _ =>
             destruct b eqn:?; [inversion E; subst; clear E | discriminate E]
         end.
  repeat split; auto.
  - match goal with E : v_str "status" _ = Ok _ |- _ => apply v_str_ok in E; exact E end.
  - match goal with E : v_dict_str "subject" _ = Ok _ |- _ =>
      apply v_dict_str_ok in E; exact E end.
Qed.

Lemma split_on_patient rest :
  exists r, split_on "/" ("Patient/" ++ rest) = "Patient" :: before "/" rest :: r.
Proof.
  destruct (FeatureFacts.split_on_head "/" rest) as (r & Hr).
  exists r. cbn. rewrite Hr. reflexivity.
Qed.

Lemma startswith_patient r :
  startswith r "Patient/" = true -> exists rest, r = "Patient/" ++ rest.
Proof.
  unfold startswith. intros H.
  do 8 (destruct r as [| ?c r]; [discriminate |]; cbn [String.prefix] in H;
        match type of H with
        | (if ?b then _ else _) = true =>
            destruct b as [e|]; [subst | discriminate]
        end).
  exists r. reflexivity.
Qed.

Lemma decode_patient_id_subject s i :
  decode_patient_id (dict_str_val s) = Ok i ->
  match lookup "reference" s with
  | Some r => if startswith r "Patient/" then
                exists rest, r = "Patient/" ++ rest /\ i = before "/" rest
              else i = ""
  | None => i = ""
  end.
Proof.
  unfold decode_patient_id, dict_str_val.
  destruct (truthy _) eqn:Et.
  - cbn [py_contains bind py_getitem]. unfold mem, getitem. rewrite !lookup_dict_str.
    destruct (lookup "reference" s) as [r|]; cbn [option_map bind].
    + destruct (startswith r "Patient/") eqn:Ep.
      * destruct (startswith_patient _ Ep) as (rest & ->).
        destruct (split_on_patient rest) as (r' & ->).
        intros H. inversion H. eauto.
      * intros H. inversion H. reflexivity.
    + intros H. inversion H. reflexivity.
  - destruct s; [| discriminate]. intros H. inversion H. reflexivity.
Qed.

Section WithClock.
Variable fromiso : string -> bool.

(** X15. Every Observation the decoder returns has one of the eight
    statuses, [unknown] when the payload has none, and an ISO effective
    time; its [observation_type] is the code of the first coding of its
    code, [unknown] without one; its [patient_id] is the text between
    [Patient/] and the next slash of the subject's reference, and empty
    when there is no reference or it does not start with [Patient/]. *)
Theorem from_fhir_derived_fields :
  forall (w : World) (d : list (string * pyval)) (o : Observation),
    from_fhir fromiso w (PDict d) = Ok o ->
    In (status o) valid_statuses /\
    (lookup "status" d = None -> status o = "unknown") /\
    fromiso (effective_date_time o) = true /\
    observation_type o
    = match coding (code o) with
      | c0 :: _ => match lookup "code" c0 with Some c => c | None => "unknown" end
      | [] => "unknown"
      end /\
    (forall rest, lookup "reference" (subject o) = Some ("Patient/" ++ rest) ->
                  patient_id o = before "/" rest) /\
    (forall r, lookup "reference" (subject o) = Some r ->
               startswith r "Patient/" = false -> patient_id o = "") /\
    (lookup "reference" (subject o) = None -> patient_id o = "").
Proof.
  intros w d o H. unfold from_fhir in H.
  do 9 (apply bind_ok in H; destruct H as (? & ? & H)).
  apply Observation_init_fields in H.
  cbn [kw_status kw_subject kw_patient_id kw_observation_type kw_code] in H.
  destruct H as (Hst & Hin & Hiso & Hsub & Hpid & Htype & Hcode).
  split.
  { apply existsb_exists in Hin. destruct Hin as (y & Hy & E).
    apply String.eqb_eq in E. subst y. exact Hy. }
  split.
  { intros Hmiss. unfold get_default in Hst. rewrite Hmiss in Hst.
    inversion Hst. reflexivity. }
  split; [exact Hiso |].
  split.
  { rewrite Htype, Hcode. reflexivity. }
  match goal with E : decode_patient_id _ = Ok _ |- _ =>
    rewrite Hsub in E; apply decode_patient_id_subject in E; rename E into Hid end.
  rewrite Hpid.
  split; [| split].
  - intros rest Hr. rewrite Hr in Hid.
    assert (Hp : startswith ("Patient/" ++ rest) "Patient/" = true)
      by (destruct rest; reflexivity).
    rewrite Hp in Hid.
    destruct Hid as (rest' & E & ->).
    cbn [String.append] in E. inversion E. reflexivity.
  - intros r Hr Hp. rewrite Hr, Hp in Hid. exact Hid.
  - intros Hr. rewrite Hr in Hid. exact Hid.
Qed.

End WithClock.

Lemma from_fhir_derived_fields_witness :
  exists o, from_fhir any_iso sample_world (PDict boolean_payload) = Ok o /\
            patient_id o = "p1" /\ observation_type o = "smoker".
Proof.
  destruct (from_fhir any_iso sample_world (PDict boolean_payload)) as [o|e] eqn:E;
    [| vm_compute in E; discriminate].
  exists o. split; [reflexivity |].
  destruct (from_fhir_derived_fields any_iso sample_world boolean_payload o E)
    as (_ & _ & _ & Ht & Hp & _).
  vm_compute in E. inversion E; subst o; clear E.
  split; [apply (Hp "p1"); reflexivity | reflexivity].
Defined.

Lemma Observation_round_trip_witness :
  from_fhir any_iso sample_world
    (PDict (to_fhir (blood_pressure false (utcnow sample_world))))
  = Ok (decoded_encoding sample_world (blood_pressure false (utcnow sample_world))).
Proof.
  apply (Observation_round_trip any_iso sample_world
           (blood_pressure false (utcnow sample_world))).
  reflexivity.
Defined.

End ObservationCodecFacts.

(** ** RiskPredictor.predict: bounds and explanation *)

Module ScoringFacts.
Import PyFacts RiskPredictor Samples ScoringNotions.

(** *** Bounds *)

Lemma clamp_bounds x :
  PrimFloat.ltb (clamp x) 0%float = false /\ PrimFloat.ltb 1%float (clamp x) = false.
Proof.
  unfold clamp, pymax, pymin.
  destruct (PrimFloat.ltb x 0%float) eqn:E0.
  - split; reflexivity.
  - destruct (PrimFloat.ltb 1%float x) eqn:E1.
    + split; reflexivity.
    + split; assumption.
Qed.

Lemma ltb_zero_asym q :
  PrimFloat.ltb 0%float q = true -> PrimFloat.ltb q 0%float = false.
Proof.
  rewrite !ltb_spec. unfold SpecFloat.SFltb.
  change (Prim2SF 0%float) with (SpecFloat.S754_zero false).
  destruct (Prim2SF q) as [s | s | | s m e]; simpl; try discriminate;
    destruct s; simpl; intros H; try discriminate; reflexivity.
Qed.

Lemma pymax_zero_bound q : PrimFloat.ltb (pymax 0%float q) 0%float = false.
Proof.
  unfold pymax. destruct (PrimFloat.ltb 0%float q) eqn:E.
  - apply ltb_zero_asym, E.
  - reflexivity.
Qed.

Lemma risk_scores_of_bounds th x sc :
  risk_scores_of th x = Ok sc ->
  map fst sc = ["low-risk"; "medium-risk"; "high-risk"] /\
  forall k v, In (k, v) sc -> PrimFloat.ltb v 0%float = false.
Proof.
  unfold risk_scores_of. intros H.
  inv_binds H.
  inversion H; subst sc; clear H. split; [reflexivity |].
  intros k v [E | [E | [E | []]]]; inversion E; apply pymax_zero_bound.
Qed.

(** *** The factors of the explanation *)

Lemma In_insert_desc x y l : In y (insert_desc x l) <-> y = x \/ In y l.
Proof.
  induction l as [| z t IH]; simpl.
  - split; intros [H | H]; auto.
  - destruct (PrimFloat.ltb (snd x) (snd z)); simpl; rewrite ?IH; intuition.
Qed.

Lemma In_sorted_desc y l : In y (sorted_desc l) <-> In y l.
Proof.
  unfold sorted_desc. induction l as [| x t IH]; simpl; [reflexivity |].
  rewrite In_insert_desc, IH. intuition.
Qed.

Lemma contributing_explained weights features sw : forall acc,
  (forall x, In x sw -> In x weights) ->
  (List.length acc < 5)%nat ->
  (forall fac, In fac acc -> explained weights features fac) ->
  (List.length (contributing features sw acc) <= 5)%nat /\
  forall fac, In fac (contributing features sw acc) -> explained weights features fac.
Proof.
  induction sw as [| [feature weight] t IH]; intros acc Hsw Hlen Hacc; cbn [contributing].
  - split; [lia | exact Hacc].
  - assert (Ht : forall x, In x t -> In x weights) by (intros x Hx; apply Hsw; right; exact Hx).
    destruct (lookup feature features) as [v|] eqn:El; [| apply IH; assumption].
    destruct (PrimFloat.ltb 0%float v) eqn:Ev; [| apply IH; assumption].
    assert (Hacc' : forall fac,
               In fac (acc ++ [{| factor_name := feature; importance := weight;
                                  direction := "positive" |}]) ->
               explained weights features fac).
    { intros fac Hin. apply in_app_or in Hin. destruct Hin as [Hin | [<- | []]].
      - apply Hacc, Hin.
      - split; [reflexivity |]. split; [apply Hsw; left; reflexivity |].
        exists v. split; assumption. }
    assert (Hl : List.length (acc ++ [{| factor_name := feature; importance := weight;
                                         direction := "positive" |}])
                 = S (List.length acc)).
    { rewrite length_app. simpl. lia. }
    match goal with
    | |- context [(5 <=? ?n)%nat] => destruct (5 <=? n)%nat eqn:E5
    end.
    + split; [rewrite Hl; lia | exact Hacc'].
    + apply IH; [exact Ht | | exact Hacc'].
      apply Nat.leb_gt in E5. exact E5.
Qed.

(** *** Features without a weight *)

Lemma weighted_sum_filter weights features :
  weighted_sum weights (filter (weighted weights) features)
  = weighted_sum weights features.
Proof.
  unfold weighted_sum. generalize 0%float.
  induction features as [| [k v] t IH]; intros acc; simpl; [reflexivity |].
  unfold weighted at 1, mem. simpl.
  destruct (lookup k weights) as [w|] eqn:E; simpl.
  - rewrite E. apply IH.
  - apply IH.
Qed.

Lemma lookup_filter_weighted weights features k :
  mem k weights = true ->
  lookup k (filter (weighted weights) features) = lookup k features.
Proof.
  intros Hk. induction features as [| [k' v] t IH]; simpl; [reflexivity |].
  unfold weighted at 1. simpl.
  destruct (String.eqb k k') eqn:E.
  - apply String.eqb_eq in E. subst k'. rewrite Hk. simpl.
    rewrite String.eqb_refl. reflexivity.
  - destruct (mem k' weights); simpl; rewrite ?E; exact IH.
Qed.

Lemma In_mem (weights : list (string * float)) k w : In (k, w) weights -> mem k weights = true.
Proof.
  unfold mem. induction weights as [| [k' w'] t IH]; simpl; [intros [] |].
  intros [H | H].
  - inversion H; subst. rewrite String.eqb_refl. reflexivity.
  - destruct (String.eqb k k'); [reflexivity | apply IH, H].
Qed.

Lemma contributing_filter weights features sw : forall acc,
  (forall x, In x sw -> In x weights) ->
  contributing (filter (weighted weights) features) sw acc
  = contributing features sw acc.
Proof.
  induction sw as [| [feature weight] t IH]; intros acc Hsw; cbn [contributing]; [reflexivity |].
  assert (Ht : forall x, In x t -> In x weights) by (intros x Hx; apply Hsw; right; exact Hx).
  rewrite lookup_filter_weighted
    by (apply (In_mem _ _ weight), Hsw; left; reflexivity).
  destruct (lookup feature features) as [v|]; [| apply IH, Ht].
  destruct (PrimFloat.ltb 0%float v); [| apply IH, Ht].
  match goal with
  | |- context [(5 <=? ?n)%nat] => destruct (5 <=? n)%nat
  end; [reflexivity | apply IH, Ht].
Qed.

Section Predict.
Variable patient_data : Type.
Variable _extract_features :
  list (string * float) -> patient_data -> res (list (string * float)).

(** X16. In every result of [predict] the probability is neither below
    0 nor above 1, the scores are those of the three bands in order and
    none is below 0, and the thresholds are the predictor's. *)
Theorem predict_result_bounds :
  forall (self : predictor) (pd : patient_data) (r : prediction_result),
    predict patient_data _extract_features self pd = Ok r ->
    PrimFloat.ltb (probability r) 0%float = false /\
    PrimFloat.ltb 1%float (probability r) = false /\
    map fst (scores r) = ["low-risk"; "medium-risk"; "high-risk"] /\
    (forall k v, In (k, v) (scores r) -> PrimFloat.ltb v 0%float = false) /\
    thresholds_echo r = thresholds self.
Proof.
  intros self pd r H. unfold predict in H.
  apply bind_ok in H. destruct H as (features & Hf & H).
  apply bind_ok in H. destruct H as (lvl & Hl & H).
  apply bind_ok in H. destruct H as (sc & Hs & H).
  inversion H; subst r; clear H. cbn [probability scores thresholds_echo].
  destruct (clamp_bounds (weighted_sum (feature_weights self) features)) as [H0 H1].
  destruct (risk_scores_of_bounds _ _ _ Hs) as [Hk Hv].
  auto.
Qed.

(** X17. The explanation of every result of [predict] holds at most
    five factors; each is marked positive and names a feature that has
    the weight given as its importance and a value above 0 among the
    extracted features. *)
Theorem predict_explanation_factors :
  forall (self : predictor) (pd : patient_data) (r : prediction_result),
    predict patient_data _extract_features self pd = Ok r ->
    (List.length (explanation_factors r) <= 5)%nat /\
    exists features,
      _extract_features (feature_weights self) pd = Ok features /\
      forall fac, In fac (explanation_factors r) ->
        direction fac = "positive" /\
        In (factor_name fac, importance fac) (feature_weights self) /\
        exists v, lookup (factor_name fac) features = Some v /\
                  PrimFloat.ltb 0%float v = true.
Proof.
  intros self pd r H. unfold predict in H.
  apply bind_ok in H. destruct H as (features & Hf & H).
  apply bind_ok in H. destruct H as (lvl & Hl & H).
  apply bind_ok in H. destruct H as (sc & Hs & H).
  inversion H; subst r; clear H. cbn [explanation_factors].
  destruct (contributing_explained (feature_weights self) features
              (sorted_desc (feature_weights self)) [])
    as [Hlen Hall].
  - intros x Hx. apply In_sorted_desc, Hx.
  - simpl. lia.
  - intros fac [].
  - split; [exact Hlen |]. exists features. split; [exact Hf | exact Hall].
Qed.

(** X18. Extracted features that have no weight play no part: dropping
    them from what the extraction returns changes nothing in what
    [predict] returns or raises. *)
Theorem predict_reads_weighted_features_only :
  forall (self : predictor) (pd : patient_data),
    predict patient_data
      (fun weights pd =>
         features <- _extract_features weights pd ;;
         Ok (filter (weighted weights) features))
      self pd
    = predict patient_data _extract_features self pd.
Proof.
  intros self pd. unfold predict.
  destruct (_extract_features (feature_weights self) pd) as [features | e];
    [| reflexivity].
  cbn [bind]. rewrite weighted_sum_filter.
  rewrite contributing_filter by (intros x Hx; apply In_sorted_desc, Hx).
  reflexivity.
Qed.

End Predict.

Lemma predict_result_bounds_witness :
  exists r, predict unit flag_diabetes default_predictor tt = Ok r /\
            PrimFloat.ltb 1%float (probability r) = false.
Proof.
  destruct (predict unit flag_diabetes default_predictor tt) as [r|e] eqn:E;
    [| vm_compute in E; discriminate].
  exists r. split; [reflexivity |].
  destruct (predict_result_bounds unit flag_diabetes default_predictor tt r E)
    as (_ & H & _).
  exact H.
Defined.

Lemma predict_explanation_factors_witness :
  exists r, predict unit flag_diabetes default_predictor tt = Ok r /\
            (List.length (explanation_factors r) <= 5)%nat.
Proof.
  destruct (predict unit flag_diabetes default_predictor tt) as [r|e] eqn:E;
    [| vm_compute in E; discriminate].
  exists r. split; [reflexivity |].
  destruct (predict_explanation_factors unit flag_diabetes default_predictor tt r E)
    as (H & _).
  exact H.
Defined.

End ScoringFacts.
